(** * Seeding scripts of the inventory system: a shallow embedding

    The repository holds four provisioning scripts
    ([seed_categories.py], [seed_locations.py], [seed_parts.py],
    [seed_tenants.py]).  Each one drives a remote REST API through a
    [requests.Session].  The embedding keeps the scripts' control flow:

    - values parsed from JSON are terms of [json], with Python's
      truthiness, [str()], subscripting and [dict.get];
    - the session is an interface ([Transport]): a request sent to a
      remote state answers with a response or fails with a
      [requests.exceptions.RequestException];
    - a method of a seeder object is a computation in [M], a state monad
      over the remote state, the trace of effects (requests, prints,
      sleeps) and the object's own fields, in which a raised exception
      keeps the state reached so far, as in Python.

    Decorative output (banners, summaries built from constants only) is
    left out of the trace; every print that reports on a resource or on
    the progress of a poll is kept, without its leading glyph. *)

From Stdlib Require Import Ascii String ZArith DecimalString.
From stdpp Require Import gmap strings list fin_maps.

Local Open Scope string_scope.
Local Open Scope Z_scope.

#[local] Set Warnings "-register-all".

(** ** Python values *)

Module Py.

(** A value as [response.json()] or [json.load] returns it.  Numbers are
    integers: no script computes with a fractional number. *)
Inductive json : Type :=
| JNull
| JBool (b : bool)
| JNum (z : Z)
| JStr (s : string)
| JList (l : list json)
| JDict (d : list (string * json)).

(** [bool(v)]: [None], [False], [0], the empty string, list and dict are
    falsy. *)
Definition truthy (v : json) : bool :=
  match v with
  | JNull => false
  | JBool b => b
  | JNum z => negb (z =? 0)
  | JStr s => negb (String.eqb s "")
  | JList l => match l with [] => false | _ => true end
  | JDict d => match d with [] => false | _ => true end
  end.

Definition isinstance_list (v : json) : bool :=
  match v with JList _ => true | _ => false end.

Definition isinstance_dict (v : json) : bool :=
  match v with JDict _ => true | _ => false end.

(** Lookup in a dict given as its items. *)
Fixpoint assoc (k : string) (d : list (string * json)) : option json :=
  match d with
  | [] => None
  | (k', v) :: d' => if String.eqb k k' then Some v else assoc k d'
  end.

(** [v == s] for a string [s]. *)
Definition eq_str (v : json) (s : string) : bool :=
  match v with JStr s' => String.eqb s' s | _ => false end.

(** A JSON value used as the key of a Python dict.  [True] and [1] (and
    [False] and [0]) are one key; a list or a dict is not hashable. *)
Inductive pykey :=
| KStr (s : string)
| KInt (z : Z)
| KNone.

Definition to_key (v : json) : option pykey :=
  match v with
  | JStr s => Some (KStr s)
  | JNum z => Some (KInt z)
  | JBool b => Some (KInt (if b then 1 else 0))
  | JNull => Some KNone
  | JList _ | JDict _ => None
  end.

#[global] Instance pykey_eq_dec : EqDecision pykey.
Proof. solve_decision. Defined.

#[global] Instance pykey_countable : Countable pykey.
Proof.
  refine (inj_countable'
    (fun k => match k with
              | KStr s => inl s
              | KInt z => inr (inl z)
              | KNone => inr (inr ())
              end)
    (fun x => match x with
              | inl s => KStr s
              | inr (inl z) => KInt z
              | inr (inr _) => KNone
              end) _).
  intros []; reflexivity.
Defined.

(** *** Strings *)

Definition str_of_Z (z : Z) : string := NilZero.string_of_int (Z.to_int z).

Definition is_upper (c : ascii) : bool :=
  let n := nat_of_ascii c in (65 <=? n)%nat && (n <=? 90)%nat.

Definition is_lower (c : ascii) : bool :=
  let n := nat_of_ascii c in (97 <=? n)%nat && (n <=? 122)%nat.

Definition lower_char (c : ascii) : ascii :=
  if is_upper c then ascii_of_nat (nat_of_ascii c + 32) else c.

Definition upper_char (c : ascii) : ascii :=
  if is_lower c then ascii_of_nat (nat_of_ascii c - 32) else c.

(** [s.lower()], on the ASCII letters. *)
Fixpoint lower (s : string) : string :=
  match s with
  | EmptyString => EmptyString
  | String c s' => String (lower_char c) (lower s')
  end.

(** [s.title()], on the ASCII letters: a letter that follows a letter is
    lowered, any other letter is raised. *)
Fixpoint title_from (prev_cased : bool) (s : string) : string :=
  match s with
  | EmptyString => EmptyString
  | String c s' =>
      let cased := is_upper c || is_lower c in
      String (if prev_cased then lower_char c else upper_char c)
             (title_from cased s')
  end.

Definition title (s : string) : string := title_from false s.

Fixpoint starts_with (p s : string) : bool :=
  match p, s with
  | EmptyString, _ => true
  | String a p', String b s' => Ascii.eqb a b && starts_with p' s'
  | String _ _, EmptyString => false
  end.

(** [needle in hay] for two strings. *)
Fixpoint py_in (needle hay : string) : bool :=
  starts_with needle hay ||
  match hay with
  | EmptyString => false
  | String _ hay' => py_in needle hay'
  end.

Fixpoint has_char (c : ascii) (s : string) : bool :=
  match s with
  | EmptyString => false
  | String b s' => Ascii.eqb b c || has_char c s'
  end.

Definition dquote : ascii := ascii_of_nat 34.

Definition hex_digit (n : nat) : ascii :=
  if (n <? 10)%nat then ascii_of_nat (48 + n) else ascii_of_nat (87 + n).

(** One character of [repr(s)] inside the quote [q]. *)
Definition repr_char (q c : ascii) : string :=
  let n := nat_of_ascii c in
  if Ascii.eqb c "\"%char then "\\"
  else if Ascii.eqb c q then String "\"%char (String q EmptyString)
  else if (n =? 10)%nat then "\n"
  else if (n =? 13)%nat then "\r"
  else if (n =? 9)%nat then "\t"
  else if (n <? 32)%nat || (n =? 127)%nat then
    String "\"%char (String "x"%char
      (String (hex_digit (n / 16)) (String (hex_digit (n mod 16)) EmptyString)))
  else String c EmptyString.

Fixpoint repr_chars (q : ascii) (s : string) : string :=
  match s with
  | EmptyString => EmptyString
  | String c s' => repr_char q c ++ repr_chars q s'
  end.

(** [repr(s)]: single quotes, unless the string holds a single quote and
    no double quote.  Bytes above 127 are kept, as Python keeps printable
    non-ASCII characters. *)
Definition repr_str (s : string) : string :=
  let q : ascii :=
    if has_char "'"%char s && negb (has_char dquote s)
    then dquote else "'"%char in
  String q (repr_chars q s ++ String q EmptyString).

Fixpoint join (sep : string) (l : list string) : string :=
  match l with
  | [] => ""
  | [x] => x
  | x :: l' => x ++ sep ++ join sep l'
  end.

(** [repr(v)]. *)
Fixpoint repr (v : json) : string :=
  match v with
  | JNull => "None"
  | JBool true => "True"
  | JBool false => "False"
  | JNum z => str_of_Z z
  | JStr s => repr_str s
  | JList l => "[" ++ join ", " (map repr l) ++ "]"
  | JDict d =>
      "{" ++ join ", " (map (fun kv => repr_str (fst kv) ++ ": " ++ repr (snd kv)) d)
          ++ "}"
  end.

(** [str(v)], also what an f-string writes for [{v}]. *)
Definition str (v : json) : string :=
  match v with
  | JStr s => s
  | _ => repr v
  end.

End Py.

(** ** The session, the trace and the monad of a seeder method *)

Module Http.
Import Py.

Inductive Method := GET | POST.

(** What a [requests.Session] sends with every request: the basic
    credentials ([session.auth]) and the [Authorization] header. *)
Record Auth := mkAuth {
  basic : option (string * string);
  authorization : option string
}.

(** A request; [url] is the path below the base URL. *)
Record Request := mkRequest {
  meth : Method;
  url : string;
  params : list (string * json);
  payload : option json;
  auth : Auth
}.

(** A response: [json_body] is what [response.json()] returns, [None]
    when the body is not JSON and the call raises. *)
Record Response := mkResponse {
  status_code : Z;
  json_body : option json;
  text : string
}.

Inductive Outcome :=
| Answer (r : Response)
| NoAnswer.                  (* requests.exceptions.RequestException *)

(** The remote application behind the session. *)
Class Transport (Srv : Type) := send : Request -> Srv -> Outcome * Srv.

Inductive Event :=
| Sent (r : Request)
| Printed (s : string)
| Slept (seconds : Z).

Inductive Exn :=
| RequestException
| ValueError
| IndexError
| KeyError
| TypeError
| AttributeError
| SystemExit (code : Z).

Inductive Result (A : Type) :=
| Return (a : A)
| Raise (e : Exn).
Arguments Return {A} a.
Arguments Raise {A} e.

Record State (Srv Obj : Type) := mkState {
  remote : Srv;
  trace : list Event;
  session : Auth;
  self : Obj
}.
Arguments mkState {Srv Obj}.
Arguments remote {Srv Obj}.
Arguments trace {Srv Obj}.
Arguments session {Srv Obj}.
Arguments self {Srv Obj}.

Definition M (Srv Obj A : Type) : Type :=
  State Srv Obj -> Result A * State Srv Obj.

Section Monad.
Context {Srv Obj : Type}.

Definition ret {A} (a : A) : M Srv Obj A := fun st => (Return a, st).

Definition bind {A B} (c : M Srv Obj A) (k : A -> M Srv Obj B) : M Srv Obj B :=
  fun st =>
    match c st with
    | (Return a, st') => k a st'
    | (Raise e, st') => (Raise e, st')
    end.

Definition raise {A} (e : Exn) : M Srv Obj A := fun st => (Raise e, st).

(** [try: c  except <caught>: handler]. *)
Definition try_except {A} (c : M Srv Obj A) (caught : Exn -> bool)
    (handler : M Srv Obj A) : M Srv Obj A :=
  fun st =>
    match c st with
    | (Return a, st') => (Return a, st')
    | (Raise e, st') => if caught e then handler st' else (Raise e, st')
    end.

Definition emit (e : Event) : M Srv Obj unit :=
  fun st => (Return tt, mkState (remote st) (trace st ++ [e]) (session st) (self st)).

Definition print (s : string) : M Srv Obj unit := emit (Printed s).
Definition sleep (seconds : Z) : M Srv Obj unit := emit (Slept seconds).

Definition get_self : M Srv Obj Obj := fun st => (Return (self st), st).

Definition set_self (o : Obj) : M Srv Obj unit :=
  fun st => (Return tt, mkState (remote st) (trace st) (session st) o).

Definition set_session (a : Auth) : M Srv Obj unit :=
  fun st => (Return tt, mkState (remote st) (trace st) a (self st)).

(** [self.session.headers["Authorization"] = h]. *)
Definition set_authorization (h : string) : M Srv Obj unit :=
  fun st => (Return tt,
             mkState (remote st) (trace st)
                     (mkAuth (basic (session st)) (Some h)) (self st)).

(** [self.session.auth = (user, password)]. *)
Definition set_basic (user password : string) : M Srv Obj unit :=
  fun st => (Return tt,
             mkState (remote st) (trace st)
                     (mkAuth (Some (user, password)) (authorization (session st)))
                     (self st)).

(** [for x in l: body x]. *)
Fixpoint for_each {A} (l : list A) (body : A -> M Srv Obj unit) : M Srv Obj unit :=
  match l with
  | [] => ret tt
  | x :: l' => bind (body x) (fun _ => for_each l' body)
  end.

Context `{Transport Srv}.

(** One call of the session: the request carries the session's
    credentials, is recorded, and raises when nothing answers. *)
Definition request (m : Method) (u : string) (ps : list (string * json))
    (body : option json) : M Srv Obj Response :=
  fun st =>
    let r := mkRequest m u ps body (session st) in
    let '(o, srv') := send r (remote st) in
    let st' := mkState srv' (trace st ++ [Sent r]) (session st) (self st) in
    match o with
    | Answer resp => (Return resp, st')
    | NoAnswer => (Raise RequestException, st')
    end.

Definition session_get (u : string) (ps : list (string * json)) : M Srv Obj Response :=
  request GET u ps None.

Definition session_post (u : string) (body : json) : M Srv Obj Response :=
  request POST u [] (Some body).

End Monad.

Declare Scope seeder_scope.
Delimit Scope seeder_scope with seeder.
Notation "'let*' x ':=' c 'in' k" := (bind c (fun x => k))
  (at level 10, x name, c at level 100, k at level 200) : seeder_scope.
Notation "c '>>' k" := (bind c (fun _ => k))
  (at level 90, right associativity) : seeder_scope.

Section PythonOps.
Context {Srv Obj : Type}.

(** [response.json()]. *)
Definition response_json (r : Response) : M Srv Obj json :=
  match json_body r with
  | Some v => ret v
  | None => raise ValueError
  end.

(** [v[k]] for a string key [k]. *)
Definition getitem (v : json) (k : string) : M Srv Obj json :=
  match v with
  | JDict d => match assoc k d with Some x => ret x | None => raise KeyError end
  | _ => raise TypeError
  end.

(** [v[0]]. *)
Definition getitem0 (v : json) : M Srv Obj json :=
  match v with
  | JList (x :: _) => ret x
  | JList [] => raise IndexError
  | JStr (String c _) => ret (JStr (String c EmptyString))
  | JStr EmptyString => raise IndexError
  | JDict _ => raise KeyError
  | _ => raise TypeError
  end.

(** [v.get(k, default)]. *)
Definition dict_get (v : json) (k : string) (default : json) : M Srv Obj json :=
  match v with
  | JDict d => ret (match assoc k d with Some x => x | None => default end)
  | _ => raise AttributeError
  end.

(** The items a [for] loop draws from a value: the elements of a list,
    the keys of a dict, the characters of a string. *)
Definition py_iter (v : json) : M Srv Obj (list json) :=
  match v with
  | JList l => ret l
  | JDict d => ret (map (fun kv => JStr (fst kv)) d)
  | JStr s => ret (map (fun c => JStr (String c EmptyString)) (list_ascii_of_string s))
  | _ => raise TypeError
  end.

End PythonOps.

(** The requests, prints and sleeps of a trace, in order. *)
Definition sent (t : list Event) : list Request :=
  omap (fun e => match e with Sent r => Some r | _ => None end) t.

Definition printed (t : list Event) : list string :=
  omap (fun e => match e with Printed s => Some s | _ => None end) t.

Definition slept (t : list Event) : list Z :=
  omap (fun e => match e with Slept d => Some d | _ => None end) t.

Definition is_post (r : Request) : bool :=
  match meth r with POST => true | GET => false end.

(** The [name] a request carries: in its payload for a creation, in its
    query for a lookup. *)
Definition request_name (r : Request) : option string :=
  match meth r with
  | POST =>
      match payload r with
      | Some (JDict d) =>
          match assoc "name" d with Some (JStr n) => Some n | _ => None end
      | _ => None
      end
  | GET =>
      match assoc "name" (params r) with Some (JStr n) => Some n | _ => None end
  end.

(** The names of the creation calls of a trace to the collection [u]. *)
Definition created_names (u : string) (t : list Event) : list string :=
  omap (fun r => if is_post r && String.eqb (url r) u then request_name r else None)
       (sent t).

Definition is_RequestException (e : Exn) : bool :=
  match e with RequestException => true | _ => false end.

(** [except Exception]: everything but [SystemExit]. *)
Definition is_Exception (e : Exn) : bool :=
  match e with SystemExit _ => false | _ => true end.

(** A bare [except:]. *)
Definition any_exception (e : Exn) : bool := true.

(** The exit status of the process for the outcome of the top-level
    code: 0 when it runs to its end, the argument of [sys.exit], and 1
    for any other uncaught exception. *)
Definition exit_status {A} (r : Result A) : Z :=
  match r with
  | Return _ => 0
  | Raise (SystemExit c) => c
  | Raise _ => 1
  end.

End Http.

(** ** [seed_categories.py] *)

Module SeedCategories.
Import Py Http.
Local Open Scope seeder_scope.

Definition DEFAULT_CATEGORIES : list (string * string) :=
  [ ("GPU", "Graphics Processing Units - NVIDIA, AMD, Intel Arc");
    ("CPU", "Central Processing Units - Intel, AMD");
    ("PSU", "Power Supply Units - Modular, Semi-Modular, Non-Modular");
    ("Motherboard", "Motherboards - ATX, Micro-ATX, Mini-ITX");
    ("SSD", "Solid State Drives - NVMe, SATA, M.2");
    ("RAM", "Random Access Memory - DDR4, DDR5") ].

(** [status_code in [200, 401, 403]]. *)
Definition accepted (status : Z) : bool :=
  (status =? 200) || (status =? 401) || (status =? 403).

(** [CategorySeeder(base_url, username, password)]: the session starts
    with the basic credentials and no token. *)
Definition CategorySeeder {Srv} (srv : Srv) (username password : string)
    : State Srv unit :=
  mkState srv [] (mkAuth (Some (username, password)) None) tt.

Section WithApi.
Context {Srv : Type} `{Transport Srv}.

(** The [for attempt in range(max_retries)] loop of [wait_for_api], with
    [todo] iterations left. *)
Fixpoint wait_attempts (todo : nat) (attempt max_retries delay : Z) : M Srv unit bool :=
  match todo with
  | O => print "API failed to respond" >> ret false
  | S todo' =>
      let* ready :=
        try_except
          (let* response := session_get "/" [] in
           if accepted (status_code response) then
             print ("API is ready (attempt " ++ str_of_Z (attempt + 1) ++ ")")
             >> ret true
           else ret false)
          is_RequestException
          (ret false) in
      if ready then ret true
      else
        print ("Attempt " ++ str_of_Z (attempt + 1) ++ "/" ++ str_of_Z max_retries
               ++ " - Retrying in " ++ str_of_Z delay ++ "s...")
        >> sleep delay
        >> wait_attempts todo' (attempt + 1) max_retries delay
  end.

Definition wait_for_api (max_retries delay : Z) : M Srv unit bool :=
  print "Waiting for InvenTree API to be ready..."
  >> wait_attempts (Z.to_nat max_retries) 0 max_retries delay.

Definition get_api_token : M Srv unit json :=
  let* response := session_get "/user/token/" [] in
  let basic_auth := print "Using basic auth (token not available)" >> ret JNull in
  if status_code response =? 200 then
    let* body := response_json response in
    let* token := dict_get body "token" JNull in
    if truthy token then
      set_authorization ("Token " ++ str token)
      >> print "Authenticated with API token"
      >> ret token
    else basic_auth
  else basic_auth.

Definition _get_existing_category (name : string) : M Srv unit json :=
  let* response := session_get "/part/category/" [("name", JStr name)] in
  if status_code response =? 200 then
    let* categories := response_json response in
    if truthy categories then
      if isinstance_list categories then getitem0 categories
      else
        let* results := dict_get categories "results" (JList [JDict []]) in
        getitem0 results
    else ret JNull
  else ret JNull.

(** [str(error).lower()] holds ["already exists"] or ["unique"]. *)
Definition is_conflict (error : json) : bool :=
  py_in "already exists" (lower (str error)) || py_in "unique" (lower (str error)).

Definition create_category (name description : string) : M Srv unit json :=
  let payload := JDict [("name", JStr name); ("description", JStr description)] in
  let* response := session_post "/part/category/" payload in
  let failed :=
    print ("Failed to create '" ++ name ++ "': " ++ str_of_Z (status_code response)
           ++ " - " ++ text response)
    >> ret JNull in
  if status_code response =? 201 then
    let* category := response_json response in
    print ("Created category: " ++ name) >> ret category
  else if status_code response =? 400 then
    let* error := response_json response in
    if is_conflict error then
      print ("Category '" ++ name ++ "' already exists, skipping...")
      >> _get_existing_category name
    else failed
  else failed.

(** The loop of [seed_categories]; [created] counts the truthy results. *)
Fixpoint seed_each (cats : list (string * string)) (created : Z) : M Srv unit Z :=
  match cats with
  | [] => ret created
  | (name, description) :: cats' =>
      let* result := create_category name description in
      seed_each cats' (if truthy result then created + 1 else created)
  end.

Definition seed_categories : M Srv unit bool :=
  let* created := seed_each DEFAULT_CATEGORIES 0 in
  print ("Summary: " ++ str_of_Z created ++ "/"
         ++ str_of_Z (Z.of_nat (length DEFAULT_CATEGORIES))
         ++ " categories created/verified")
  >> ret true.

Definition main : M Srv unit unit :=
  let* ready := wait_for_api 30 5 in
  if negb ready then
    print "Error: InvenTree API is not available" >> raise (SystemExit 1)
  else
    get_api_token
    >> let* ok := seed_categories in
       if ok then print "Success! Categories have been created."
       else print "Seeding failed. Check the errors above." >> raise (SystemExit 1).

End WithApi.
End SeedCategories.

(** ** [seed_locations.py] *)

Module SeedLocations.
Import Py Http.
Local Open Scope seeder_scope.

Definition ZONES : list string := ["A"; "B"].
Definition COLUMNS_PER_ZONE : Z := 4.
Definition LEVELS : Z := 7.
Definition POWER_SUPPLY_COLUMN : string := "B-4".

(** [range(1, n + 1)]. *)
Definition range1 (n : Z) : list Z := map Z.of_nat (seq 1 (Z.to_nat n)).

Definition accepted (status : Z) : bool :=
  (status =? 200) || (status =? 401) || (status =? 403).

(** The names of the hierarchy, by position. *)
Definition zone_name (zone : string) : string := "Zone-" ++ zone.
Definition column_name (zone : string) (col : Z) : string :=
  zone ++ "-" ++ str_of_Z col.
Definition shelf_name (zone : string) (col level : Z) : string :=
  column_name zone col ++ "-" ++ str_of_Z level.
Definition bin_name (zone : string) (col level : Z) (side : string) : string :=
  shelf_name zone col level ++ "-" ++ side.

(** The figures of the summary printed at the end of [seed_warehouse]. *)
Definition total_shelves : Z := LEVELS * COLUMNS_PER_ZONE * Z.of_nat (length ZONES).
Definition split_columns : Z := COLUMNS_PER_ZONE * Z.of_nat (length ZONES) - 1.
Definition total_bins : Z := split_columns * LEVELS * 2 + LEVELS.

(** [InvenTreeSeeder(base_url, username, password)]; the object's own
    field is [location_cache]. *)
Definition InvenTreeSeeder {Srv} (srv : Srv) (username password : string)
    : State Srv (gmap string json) :=
  mkState srv [] (mkAuth (Some (username, password)) None) ∅.

Section WithApi.
Context {Srv : Type} `{Transport Srv}.

#[local] Abbreviation Seeder := (M Srv (gmap string json)).

Fixpoint wait_attempts (todo : nat) (attempt max_retries delay : Z) : Seeder bool :=
  match todo with
  | O => print "API failed to respond" >> ret false
  | S todo' =>
      let* ready :=
        try_except
          (let* response := session_get "/" [] in
           if accepted (status_code response) then
             print ("API is ready (attempt " ++ str_of_Z (attempt + 1) ++ ")")
             >> ret true
           else ret false)
          is_RequestException
          (ret false) in
      if ready then ret true
      else
        print ("Attempt " ++ str_of_Z (attempt + 1) ++ "/" ++ str_of_Z max_retries
               ++ " - Retrying in " ++ str_of_Z delay ++ "s...")
        >> sleep delay
        >> wait_attempts todo' (attempt + 1) max_retries delay
  end.

Definition wait_for_api (max_retries delay : Z) : Seeder bool :=
  print "Waiting for InvenTree API to be ready..."
  >> wait_attempts (Z.to_nat max_retries) 0 max_retries delay.

Definition get_api_token : Seeder json :=
  let* response := session_get "/user/token/" [] in
  let basic_auth := print "Using basic auth (token not available)" >> ret JNull in
  if status_code response =? 200 then
    let* body := response_json response in
    let* token := dict_get body "token" JNull in
    if truthy token then
      set_authorization ("Token " ++ str token)
      >> print "Authenticated with API token"
      >> ret token
    else basic_auth
  else basic_auth.

(** [self.location_cache[name] = pk]. *)
Definition cache_location (name : string) (pk : json) : Seeder unit :=
  let* cache := get_self in
  set_self (<[name := pk]> cache).

Definition _get_existing_location (name : string) : Seeder json :=
  let* response := session_get "/stock/location/" [("name", JStr name)] in
  if status_code response =? 200 then
    let* locations := response_json response in
    if truthy locations then
      let* loc :=
        if isinstance_list locations then getitem0 locations
        else
          let* results := dict_get locations "results" (JList [JDict []]) in
          getitem0 results in
      let* pk := dict_get loc "pk" JNull in
      cache_location name pk >> ret loc
    else ret JNull
  else ret JNull.

(** [str(error).lower()] holds ["already exists"]. *)
Definition is_conflict (error : json) : bool :=
  py_in "already exists" (lower (str error)).

Definition location_payload (name description : string) (parent_id : json) : json :=
  JDict ([("name", JStr name); ("description", JStr description)]
         ++ if truthy parent_id then [("parent", parent_id)] else []).

Definition create_location (name description : string) (parent_id : json)
    : Seeder json :=
  let* response :=
    session_post "/stock/location/" (location_payload name description parent_id) in
  let failed :=
    print ("Failed to create '" ++ name ++ "': " ++ str_of_Z (status_code response)
           ++ " - " ++ text response)
    >> ret JNull in
  if status_code response =? 201 then
    let* location := response_json response in
    let* pk := getitem location "pk" in
    cache_location name pk >> ret location
  else if status_code response =? 400 then
    let* error := response_json response in
    if is_conflict error then
      print ("Location '" ++ name ++ "' already exists, skipping...")
      >> _get_existing_location name
    else failed
  else failed.

(** The body of [for level in range(1, LEVELS + 1)]. *)
Definition seed_shelf (zone : string) (col : Z) (is_power_supply : bool)
    (column_id : json) (level : Z) : Seeder unit :=
  let name := shelf_name zone col level in
  let* shelf_location :=
    create_location name
      ("Level " ++ str_of_Z level ++ " (1=Bottom, 7=Top)") column_id in
  if negb (truthy shelf_location) then ret tt
  else
    let* shelf_id := dict_get shelf_location "pk" JNull in
    if negb is_power_supply then
      create_location (name ++ "-A") "IN - New Stock (FIFO: Use Last)" shelf_id
      >> create_location (name ++ "-B") "OUT - Old Stock (FIFO: Use First)" shelf_id
      >> print (name ++ " + Bins A/B")
    else print (name ++ " (Solid - No Split)").

(** The body of [for col in range(1, COLUMNS_PER_ZONE + 1)]. *)
Definition seed_column (zone : string) (zone_id : json) (col : Z) : Seeder unit :=
  let name := column_name zone col in
  print ("Creating Column " ++ name)
  >> let is_power_supply := String.eqb name POWER_SUPPLY_COLUMN in
     let col_desc :=
       if is_power_supply then "Power Supplies (Solid)"
       else "Column " ++ str_of_Z col ++ " in Zone " ++ zone in
     let* column_location := create_location name col_desc zone_id in
     if negb (truthy column_location) then ret tt
     else
       let* column_id := dict_get column_location "pk" JNull in
       for_each (range1 LEVELS) (seed_shelf zone col is_power_supply column_id).

(** The body of [for zone in ZONES]. *)
Definition seed_zone (warehouse_id : json) (zone : string) : Seeder unit :=
  print ("Creating Zone " ++ zone)
  >> let* zone_location :=
       create_location (zone_name zone)
         ("Zone " ++ zone ++ " - "
          ++ if String.eqb zone "A" then "Standard Components"
             else "Standard + Power Supplies")
         warehouse_id in
     if negb (truthy zone_location) then ret tt
     else
       let* zone_id := dict_get zone_location "pk" JNull in
       print (zone_name zone ++ " created (ID: " ++ str zone_id ++ ")")
       >> for_each (range1 COLUMNS_PER_ZONE) (seed_column zone zone_id).

Definition seed_warehouse : Seeder bool :=
  print "Creating Root Location: Warehouse"
  >> let* warehouse :=
       create_location "Warehouse" "Main warehouse - Lean Inventory System" JNull in
     if negb (truthy warehouse) then
       print "Failed to create warehouse root" >> ret false
     else
       let* warehouse_id := dict_get warehouse "pk" JNull in
       print ("Warehouse created (ID: " ++ str warehouse_id ++ ")")
       >> for_each ZONES (seed_zone warehouse_id)
       >> print "WAREHOUSE SEEDING COMPLETE"
       >> print ("Shelves: " ++ str_of_Z total_shelves)
       >> print ("Total Bins: " ++ str_of_Z total_bins)
       >> ret true.

Definition main : Seeder unit :=
  let* ready := wait_for_api 30 5 in
  if negb ready then
    print "Error: InvenTree API is not available" >> raise (SystemExit 1)
  else
    get_api_token
    >> let* ok := seed_warehouse in
       if ok then print "Success! Warehouse structure has been created."
       else print "Seeding failed. Check the errors above." >> raise (SystemExit 1).

End WithApi.
End SeedLocations.

(** ** [seed_parts.py] *)

Module SeedParts.
Import Py Http.
Local Open Scope seeder_scope.

(** A part of [EXAMPLE_PARTS]: name, description, [min_stock]. *)
Definition part : Type := string * string * Z.

Definition EXAMPLE_PARTS : list (string * list part) :=
  [ ("GPU",
     [ ("NVIDIA GeForce RTX 4090", "24GB GDDR6X, 450W TDP", 2);
       ("NVIDIA GeForce RTX 4080 Super", "16GB GDDR6X, 320W TDP", 3);
       ("NVIDIA GeForce RTX 4070 Ti", "12GB GDDR6X, 285W TDP", 5);
       ("AMD Radeon RX 7900 XTX", "24GB GDDR6, 355W TDP", 2);
       ("AMD Radeon RX 7800 XT", "16GB GDDR6, 263W TDP", 4) ]);
    ("CPU",
     [ ("Intel Core i9-14900K", "24 Cores, 6.0GHz Boost, LGA1700", 3);
       ("Intel Core i7-14700K", "20 Cores, 5.6GHz Boost, LGA1700", 5);
       ("Intel Core i5-14600K", "14 Cores, 5.3GHz Boost, LGA1700", 8);
       ("AMD Ryzen 9 7950X", "16 Cores, 5.7GHz Boost, AM5", 3);
       ("AMD Ryzen 7 7800X3D", "8 Cores, 5.0GHz Boost, AM5, 3D V-Cache", 5);
       ("AMD Ryzen 5 7600X", "6 Cores, 5.3GHz Boost, AM5", 10) ]);
    ("RAM",
     [ ("Corsair Vengeance DDR5 32GB (2x16GB)", "6000MHz CL36, Black", 10);
       ("G.Skill Trident Z5 RGB DDR5 64GB (2x32GB)", "6400MHz CL32", 5);
       ("Kingston Fury Beast DDR5 16GB (2x8GB)", "5200MHz CL40", 15);
       ("Corsair Dominator Platinum DDR5 32GB (2x16GB)", "7200MHz CL34, RGB", 3) ]);
    ("SSD",
     [ ("Samsung 990 Pro 2TB", "NVMe Gen4, 7450MB/s Read", 10);
       ("Samsung 990 Pro 1TB", "NVMe Gen4, 7450MB/s Read", 15);
       ("WD Black SN850X 2TB", "NVMe Gen4, 7300MB/s Read", 8);
       ("Crucial T700 2TB", "NVMe Gen5, 12400MB/s Read", 3);
       ("SK Hynix Platinum P41 1TB", "NVMe Gen4, 7000MB/s Read", 12) ]);
    ("PSU",
     [ ("Corsair RM1000x 1000W", "80+ Gold, Fully Modular, ATX 3.0", 5);
       ("Corsair RM850x 850W", "80+ Gold, Fully Modular", 10);
       ("Seasonic Prime TX-1000 1000W", "80+ Titanium, Fully Modular", 3);
       ("be quiet! Dark Power Pro 12 1200W", "80+ Titanium, Fully Modular", 2);
       ("EVGA SuperNOVA 750 G7 750W", "80+ Gold, Fully Modular", 8) ]);
    ("Motherboard",
     [ ("ASUS ROG Maximus Z790 Hero", "Intel LGA1700, DDR5, ATX", 3);
       ("MSI MPG Z790 Carbon WiFi", "Intel LGA1700, DDR5, ATX", 5);
       ("Gigabyte Z790 AORUS Master", "Intel LGA1700, DDR5, ATX", 4);
       ("ASUS ROG Crosshair X670E Hero", "AMD AM5, DDR5, ATX", 3);
       ("MSI MEG X670E ACE", "AMD AM5, DDR5, E-ATX", 2);
       ("ASRock B650E Steel Legend", "AMD AM5, DDR5, ATX, Budget", 8) ]) ].

Definition accepted (status : Z) : bool :=
  (status =? 200) || (status =? 401) || (status =? 403).

(** [PartsSeeder(base_url, username, password)]; the object's own field
    is [categories], the cache from name to id. *)
Definition PartsSeeder {Srv} (srv : Srv) (username password : string)
    : State Srv (gmap pykey json) :=
  mkState srv [] (mkAuth (Some (username, password)) None) ∅.

Section WithApi.
Context {Srv : Type} `{Transport Srv}.

#[local] Abbreviation Seeder := (M Srv (gmap pykey json)).

Fixpoint wait_attempts (todo : nat) (attempt max_retries delay : Z) : Seeder bool :=
  match todo with
  | O => print "API failed to respond" >> ret false
  | S todo' =>
      let* ready :=
        try_except
          (let* response := session_get "/" [] in
           if accepted (status_code response) then
             print "API is ready" >> ret true
           else ret false)
          is_RequestException
          (ret false) in
      if ready then ret true
      else
        print ("Attempt " ++ str_of_Z (attempt + 1) ++ "/" ++ str_of_Z max_retries
               ++ " - Retrying in " ++ str_of_Z delay ++ "s...")
        >> sleep delay
        >> wait_attempts todo' (attempt + 1) max_retries delay
  end.

Definition wait_for_api (max_retries delay : Z) : Seeder bool :=
  print "Connecting to InvenTree API..."
  >> wait_attempts (Z.to_nat max_retries) 0 max_retries delay.

Definition get_api_token : Seeder json :=
  let* response := session_get "/user/token/" [] in
  let basic_auth := print "Using basic auth fallback" >> ret JNull in
  if status_code response =? 200 then
    let* body := response_json response in
    let* token := dict_get body "token" JNull in
    if truthy token then
      set_authorization ("Token " ++ str token)
      >> print "Authenticated"
      >> ret token
    else basic_auth
  else basic_auth.

(** [self.categories[key] = pk]. *)
Definition cache_category (key pk : json) : Seeder unit :=
  match to_key key with
  | Some k => let* cache := get_self in set_self (<[k := pk]> cache)
  | None => raise TypeError
  end.

Definition load_categories : Seeder unit :=
  try_except
    (let* response := session_get "/part/category/?limit=100" [] in
     if status_code response =? 200 then
       let* data := response_json response in
       let* categories :=
         if isinstance_dict data then dict_get data "results" data else ret data in
       let* cats := py_iter categories in
       for_each cats
         (fun cat =>
            let* pk := getitem cat "pk" in
            let* name := getitem cat "name" in
            cache_category name pk)
       >> let* cache := get_self in
          print ("Loaded " ++ str_of_Z (Z.of_nat (size cache)) ++ " categories")
     else ret tt)
    is_Exception
    (print "Failed to load categories").

Definition create_category (name description : string) : Seeder json :=
  let* cache := get_self in
  match cache !! KStr name with
  | Some pk => ret pk
  | None =>
      let payload := JDict [("name", JStr name); ("description", JStr description)] in
      let* response := session_post "/part/category/" payload in
      if status_code response =? 201 then
        let* cat := response_json response in
        let* pk := getitem cat "pk" in
        cache_category (JStr name) pk
        >> print ("Created category: " ++ name)
        >> getitem cat "pk"
      else if status_code response =? 400 then
        load_categories
        >> let* cache' := get_self in
           ret (default JNull (cache' !! KStr name))
      else
        print ("Failed to create category '" ++ name ++ "': "
               ++ str_of_Z (status_code response))
        >> ret JNull
  end.

Definition is_conflict (error : json) : bool :=
  py_in "already exists" (lower (str error)) || py_in "unique" (lower (str error)).

Definition part_payload (name description : string) (category_id : json)
    (min_stock : Z) : json :=
  JDict [("name", JStr name); ("description", JStr description);
         ("category", category_id); ("active", JBool true);
         ("component", JBool true); ("purchaseable", JBool true);
         ("minimum_stock", JNum min_stock)].

Definition create_part (name description : string) (category_id : json)
    (min_stock : Z) : Seeder bool :=
  let* response :=
    session_post "/part/" (part_payload name description category_id min_stock) in
  if status_code response =? 201 then ret true
  else if status_code response =? 400 then
    let* error := response_json response in
    if is_conflict error then ret true else ret false
  else ret false.

(** The inner loop of [seed]: the parts of one category. *)
Fixpoint seed_parts_of (cat_id : json) (parts : list part) (total_created : Z)
    : Seeder Z :=
  match parts with
  | [] => ret total_created
  | (name, description, min_stock) :: parts' =>
      let* success := create_part name description cat_id min_stock in
      if success then
        print ("created " ++ name) >> seed_parts_of cat_id parts' (total_created + 1)
      else
        print ("failed " ++ name) >> seed_parts_of cat_id parts' total_created
  end.

(** The outer loop of [seed]. *)
Fixpoint seed_each (cats : list (string * list part)) (total_created : Z) : Seeder Z :=
  match cats with
  | [] => ret total_created
  | (category_name, parts) :: cats' =>
      print category_name
      >> let* cat_id :=
           create_category category_name
             ("Computer " ++ category_name ++ " components") in
         if negb (truthy cat_id) then
           print "Skipping category (no ID)" >> seed_each cats' total_created
         else
           let* total := seed_parts_of cat_id parts total_created in
           seed_each cats' total
  end.

Definition total_parts : Z :=
  Z.of_nat (list_sum (map (fun cp => length (snd cp)) EXAMPLE_PARTS)).

Definition seed : Seeder unit :=
  let* total_created := seed_each EXAMPLE_PARTS 0 in
  print ("SEEDING COMPLETE: " ++ str_of_Z total_created ++ "/"
         ++ str_of_Z total_parts ++ " parts").

Definition main : Seeder unit :=
  let* ready := wait_for_api 15 3 in
  if negb ready then
    print "Error: InvenTree API is not available" >> raise (SystemExit 1)
  else
    get_api_token
    >> load_categories
    >> seed
    >> print "Done! Refresh your browser to see the new parts.".

End WithApi.
End SeedParts.

(** ** [seed_tenants.py] *)

Module SeedTenants.
Import Py Http.
Local Open Scope seeder_scope.

Definition DEFAULT_TENANTS : json :=
  JList
    [ JDict
        [ ("name", JStr "demo");
          ("display_name", JStr "Demo Tenant");
          ("description", JStr "Default demo tenant for testing");
          ("users",
           JList [ JDict [ ("username", JStr "demo_user");
                            ("password", JStr "demo123");
                            ("email", JStr "demo@inventory.local") ] ]) ] ].

(** [TenantSeeder()]: a session without credentials; the object's own
    field is [token]. *)
Definition TenantSeeder {Srv} (srv : Srv) : State Srv json :=
  mkState srv [] (mkAuth None None) JNull.

Section WithApi.
Context {Srv : Type} `{Transport Srv}.
(** The environment: [INVENTREE_ADMIN_USER], [INVENTREE_ADMIN_PASSWORD]. *)
Context (ADMIN_USER ADMIN_PASSWORD : string).

#[local] Abbreviation Seeder := (M Srv json).

Definition authenticate : Seeder bool :=
  print ("Authenticating as " ++ ADMIN_USER ++ "...")
  >> let* by_token :=
       try_except
         (let* resp :=
            session_post "/user/token/"
              (JDict [("username", JStr ADMIN_USER); ("password", JStr ADMIN_PASSWORD)]) in
          if status_code resp =? 200 then
            let* body := response_json resp in
            let* token := dict_get body "token" JNull in
            set_self token
            >> set_authorization ("Token " ++ str token)
            >> print "Authenticated via token"
            >> ret true
          else ret false)
         is_Exception
         (print "Token auth failed" >> ret false) in
     if by_token then ret true
     else
       set_basic ADMIN_USER ADMIN_PASSWORD
       >> let* by_basic :=
            try_except
              (let* resp := session_get "/user/me/" [] in
               if status_code resp =? 200 then
                 print "Authenticated via basic auth" >> ret true
               else ret false)
              is_Exception
              (print "Basic auth failed" >> ret false) in
          ret by_basic.

(** [for x in l: if x.get('name') == name: print(... x['pk']); return x['pk']]:
    the identifier of the first item named [name], if any. *)
Fixpoint find_named (what name : string) (l : list json) : Seeder (option json) :=
  match l with
  | [] => ret None
  | x :: l' =>
      let* n := dict_get x "name" JNull in
      if eq_str n name then
        let* pk := getitem x "pk" in
        print (what ++ " '" ++ name ++ "' already exists (ID: " ++ str pk ++ ")")
        >> ret (Some pk)
      else find_named what name l'
  end.

(** The lookup that opens [get_or_create_group] and
    [get_or_create_location]. *)
Definition lookup_named (what : string) (resp : Response) (name : string)
    : Seeder (option json) :=
  if status_code resp =? 200 then
    let* found := response_json resp in
    match found with
    | JList (x :: l) => find_named what name (x :: l)
    | _ => ret None
    end
  else ret None.

Definition get_or_create_group (name : string) : Seeder json :=
  let* resp := session_get "/user/group/" [("name", JStr name)] in
  let* found := lookup_named "Group" resp name in
  match found with
  | Some pk => ret pk
  | None =>
      let* resp := session_post "/user/group/" (JDict [("name", JStr name)]) in
      if (status_code resp =? 200) || (status_code resp =? 201) then
        let* body := response_json resp in
        let* group_id := dict_get body "pk" JNull in
        print ("Created group '" ++ name ++ "' (ID: " ++ str group_id ++ ")")
        >> ret group_id
      else
        print ("Failed to create group '" ++ name ++ "': "
               ++ str_of_Z (status_code resp) ++ " " ++ text resp)
        >> ret JNull
  end.

Definition get_or_create_location (name : string) (description parent : json)
    : Seeder json :=
  let with_parent := if truthy parent then [("parent", parent)] else [] in
  let* resp := session_get "/stock/location/" ([("name", JStr name)] ++ with_parent) in
  let* found := lookup_named "Location" resp name in
  match found with
  | Some pk => ret pk
  | None =>
      let data := JDict ([("name", JStr name); ("description", description)]
                         ++ with_parent) in
      let* resp := session_post "/stock/location/" data in
      if (status_code resp =? 200) || (status_code resp =? 201) then
        let* body := response_json resp in
        let* loc_id := dict_get body "pk" JNull in
        print ("Created location '" ++ name ++ "' (ID: " ++ str loc_id ++ ")")
        >> ret loc_id
      else
        print ("Failed to create location '" ++ name ++ "': "
               ++ str_of_Z (status_code resp) ++ " " ++ text resp)
        >> ret JNull
  end.

(** [for u in users: if u.get('username') == username: ...; return u['pk']]. *)
Fixpoint find_user (username : string) (l : list json) : Seeder (option json) :=
  match l with
  | [] => ret None
  | u :: l' =>
      let* n := dict_get u "username" JNull in
      if eq_str n username then
        let* pk := getitem u "pk" in
        print ("User '" ++ username ++ "' already exists (ID: " ++ str pk ++ ")")
        >> ret (Some pk)
      else find_user username l'
  end.

Definition create_user (username password email : string) (groups : json)
    : Seeder json :=
  let* resp := session_get "/user/" [("username", JStr username)] in
  let* found :=
    if status_code resp =? 200 then
      let* users := response_json resp in
      match users with
      | JList l => find_user username l
      | _ => ret None
      end
    else ret None in
  match found with
  | Some pk => ret pk
  | None =>
      print "User creation via API not supported. Use Django admin or management commands."
      >> ret JNull
  end.

(** [name.title()]. *)
Definition str_title (name : json) : Seeder json :=
  match name with
  | JStr s => ret (JStr (title s))
  | _ => raise AttributeError
  end.

Definition zones : list string := ["A"; "B"].
Definition columns : Z := 4.

(** [f"{zone}-{col}"]. *)
Definition subloc_name (zone : string) (col : Z) : string :=
  zone ++ "-" ++ str_of_Z col.

Definition seed_tenant (tenant : json) : Seeder bool :=
  let* name := getitem tenant "name" in
  let* titled := str_title name in
  let* display_name := dict_get tenant "display_name" titled in
  let* description := dict_get tenant "description" (JStr "") in
  print ("Seeding tenant: " ++ str display_name)
  >> let* group_id := get_or_create_group ("tenant_" ++ str name) in
     let* location_id :=
       get_or_create_location (str display_name ++ " Warehouse") description JNull in
     (if truthy location_id then
        for_each zones
          (fun zone =>
             for_each (map Z.of_nat (seq 1 (Z.to_nat columns)))
               (fun col =>
                  get_or_create_location (subloc_name zone col) (JStr "") location_id
                  >> ret tt))
      else ret tt)
     >> let* users := dict_get tenant "users" JNull in
        (if truthy users then
           print "To create tenant users, use InvenTree admin panel or run:"
           >> let* us := py_iter users in
              for_each us
                (fun user =>
                   let* username := getitem user "username" in
                   let* email := getitem user "email" in
                   print ("createsuperuser --username " ++ str username
                          ++ " --email " ++ str email))
         else ret tt)
        >> ret true.

(** The [for i in range(12)] loop of [run], with [todo] iterations left:
    [true] when it left by [break]. *)
Fixpoint wait_attempts (todo : nat) : Seeder bool :=
  match todo with
  | O => ret false
  | S todo' =>
      let* ready :=
        try_except
          (let* resp := session_get "/" [] in
           if status_code resp =? 200 then print "API is ready" >> ret true
           else ret false)
          any_exception
          (ret false) in
      if ready then ret true
      else sleep 5 >> wait_attempts todo'
  end.

Definition run (tenants : json) : Seeder bool :=
  print "Waiting for InvenTree API..."
  >> let* ready := wait_attempts 12 in
     if negb ready then
       print "API not available after 60 seconds" >> ret false
     else
       let* authenticated := authenticate in
       if negb authenticated then
         print "Authentication failed. Check credentials." >> ret false
       else
         let* ts := py_iter (if truthy tenants then tenants else DEFAULT_TENANTS) in
         for_each ts (fun tenant => seed_tenant tenant >> ret tt)
         >> print "TENANT SEEDING COMPLETE"
         >> ret true.

(** The top-level code: [tenants] is the content of the tenant
    configuration file, [None] when there is none. *)
Definition main (tenants : json) : Seeder unit :=
  let* success := run tenants in
  raise (SystemExit (if success then 0 else 1)).

End WithApi.
End SeedTenants.

(** ** Remote applications *)

(** A remote that plays a fixed script: the n-th request gets the n-th
    outcome, and nothing answers once the script is over. *)
Module Scripted.
Import Http.

#[global] Instance scripted : Transport (list Outcome) :=
  fun _ script =>
    match script with
    | o :: script' => (o, script')
    | [] => (NoAnswer, [])
    end.

End Scripted.

(** A remote without state: the answer depends on the request only. *)
Module Stateless.
Import Http.

#[global] Instance stateless : Transport (Request -> Outcome) :=
  fun r answer => (answer r, answer).

End Stateless.

(** The remote application of the idempotence property: a store of named
    resources, per kind, in which the creation of a name that is present
    is answered by 400 and an "already exists" body, any other creation
    by 201 and the new resource; a lookup lists the resources that match
    the query, and never changes the store. *)
Module Remote.
Import Py Http.

Inductive Kind := Category | Location | Part | Group.

#[global] Instance Kind_eq_dec : EqDecision Kind.
Proof. solve_decision. Defined.

Record Resource := mkResource {
  kind : Kind;
  pk : Z;
  name : string;
  fields : list (string * json)      (* the payload of the creation *)
}.

Record Server := mkServer {
  db : list Resource;                (* in order of creation *)
  next_pk : Z
}.

Definition empty : Server := mkServer [] 1.

(** The collection behind a URL. *)
Definition kind_of_url (u : string) : option Kind :=
  if String.eqb u "/part/category/" then Some Category
  else if String.eqb u "/stock/location/" then Some Location
  else if String.eqb u "/part/" then Some Part
  else if String.eqb u "/user/group/" then Some Group
  else None.

Definition kind_label (k : Kind) : string :=
  match k with
  | Category => "Part category"
  | Location => "Stock location"
  | Part => "Part"
  | Group => "Group"
  end.

(** The JSON form of a resource. *)
Definition to_json (r : Resource) : json :=
  JDict (("pk", JNum (pk r)) :: fields r).

Definition is_named (k : Kind) (n : string) (r : Resource) : bool :=
  bool_decide (kind r = k) && String.eqb (name r) n.

Definition present (k : Kind) (n : string) (s : Server) : bool :=
  existsb (is_named k n) (db s).

(** One filter of a query: [name] and [parent] select, any other
    parameter is ignored. *)
Definition satisfies (r : Resource) (p : string * json) : bool :=
  let '(key, v) := p in
  if String.eqb key "name" then eq_str v (name r)
  else if String.eqb key "parent" then
    match v, assoc "parent" (fields r) with
    | JNum a, Some (JNum b) => a =? b
    | _, _ => false
    end
  else true.

Definition select (k : Kind) (ps : list (string * json)) (s : Server) : list Resource :=
  filter (fun r => bool_decide (kind r = k) && forallb (satisfies r) ps) (db s).

Definition ok (body : json) : Outcome := Answer (mkResponse 200 (Some body) "").

Definition conflict (k : Kind) : Outcome :=
  Answer (mkResponse 400
            (Some (JDict [("name",
                           JList [JStr (kind_label k ++ " with this name already exists")])]))
            "name already exists").

Definition invalid : Outcome :=
  Answer (mkResponse 400
            (Some (JDict [("name", JList [JStr "This field is required."])]))
            "name required").

Definition not_found : Outcome := Answer (mkResponse 404 None "Not found").

(** A creation in the collection of kind [k]. *)
Definition create (k : Kind) (body : option json) (s : Server) : Outcome * Server :=
  match body with
  | Some (JDict d) =>
      match assoc "name" d with
      | Some (JStr n) =>
          if present k n s then (conflict k, s)
          else
            let r := mkResource k (next_pk s) n d in
            (Answer (mkResponse 201 (Some (to_json r)) ""),
             mkServer (db s ++ [r]) (next_pk s + 1))
      | _ => (invalid, s)
      end
  | _ => (invalid, s)
  end.

Definition handle (r : Request) (s : Server) : Outcome * Server :=
  match meth r, kind_of_url (url r) with
  | POST, Some k => create k (payload r) s
  | GET, Some k => (ok (JList (map to_json (select k (params r) s))), s)
  | _, None =>
      if String.eqb (url r) "/" then (ok (JDict [("server", JStr "InvenTree")]), s)
      else if String.eqb (url r) "/user/token/" then
        (ok (JDict [("token", JStr "inventree-token")]), s)
      else if String.eqb (url r) "/user/me/" then
        (ok (JDict [("username", JStr "admin")]), s)
      else if String.eqb (url r) "/part/category/?limit=100" then
        match meth r with
        | GET =>
            let all := select Category [] s in
            (ok (JDict [("count", JNum (Z.of_nat (length all)));
                        ("results", JList (map to_json (take 100 all)))]), s)
        | POST => (not_found, s)
        end
      else (not_found, s)
  end.

#[global] Instance remote_transport : Transport Server := handle.

(** The store is well formed: identifiers are positive and below the next
    one, and no name occurs twice within a kind. *)
Definition key (r : Resource) : Kind * string := (kind r, name r).

Definition wf (s : Server) : Prop :=
  Forall (fun r => 0 < pk r < next_pk s) (db s) /\ 0 < next_pk s /\ NoDup (map key (db s)).

(** The parent of a resource, if it was created under one. *)
Definition parent_of (r : Resource) : option Z :=
  match assoc "parent" (fields r) with
  | Some (JNum p) => Some p
  | _ => None
  end.

(** The resources of kind [k] named [n] within the scope of [parent]. *)
Definition in_scope (k : Kind) (parent : option Z) (n : string) (s : Server)
    : list Resource :=
  filter (fun r => is_named k n r && bool_decide (parent_of r = parent)) (db s).

(** The store [s'] extends [s]: what was stored is still there, in the
    same order, and a well-formed store stays so. *)
Definition extends (s s' : Server) : Prop :=
  db s `prefix_of` db s' /\ (wf s -> wf s').

(** Every stored resource carries its name in its fields, as the
    resources that [create] stores do. *)
Definition coherent (s : Server) : Prop :=
  Forall (fun r => assoc "name" (fields r) = Some (JStr (name r))) (db s).

(** From [s] to [s'] the names [names] of kind [k] were settled: the
    store was extended, every name is present in the end, and nothing
    changed if they all were already. *)
Definition settles (k : Kind) (names : list string) (s s' : Server) : Prop :=
  extends s s'
  /\ Forall (fun n => present k n s' = true) names
  /\ (Forall (fun n => present k n s = true) names -> s' = s).

(** The same for names of several kinds. *)
Definition settles_all (keys : list (Kind * string)) (s s' : Server) : Prop :=
  extends s s'
  /\ Forall (fun kn => present (fst kn) (snd kn) s' = true) keys
  /\ (Forall (fun kn => present (fst kn) (snd kn) s = true) keys -> s' = s).

End Remote.

(** The remote application for an account that may read and not write:
    lookups are answered as by [Remote], every creation in a collection
    is answered by 403, and the store never changes. *)
Module ReadOnly.
Import Py Http.

Record Server := mkServer { store : Remote.Server }.

Definition forbidden : Outcome :=
  Answer (mkResponse 403
            (Some (JDict [("detail",
                           JStr "You do not have permission to perform this action.")]))
            "permission denied").

Definition handle (r : Request) (s : Server) : Outcome * Server :=
  match meth r, Remote.kind_of_url (url r) with
  | POST, Some _ => (forbidden, s)
  | _, _ => let '(o, st) := Remote.handle r (store s) in (o, mkServer st)
  end.

#[global] Instance read_only_transport : Transport Server := handle.

Definition empty : Server := mkServer Remote.empty.

(** Nothing is stored. *)
Definition bare (s : Server) : Prop := Remote.db (store s) = [].

End ReadOnly.

(** ** Vocabulary of the properties *)

Import Py Http.
Local Open Scope list_scope.

(** *** Requests and answers *)

(** The request of a creation and of a lookup by name. *)
Definition creation (u : string) (body : json) (a : Auth) : Request :=
  mkRequest POST u [] (Some body) a.

Definition lookup_by_name (u name : string) (a : Auth) : Request :=
  mkRequest GET u [("name", JStr name)] None a.

(** An answer 200 whose body is a dict with an empty ["results"]. *)
Definition empty_page (resp : Response) : Prop :=
  status_code resp = 200 /\
  exists d, json_body resp = Some (JDict d) /\ assoc "results" d = Some (JList []).

(** An answer 400 whose body [is_conflict] accepts. *)
Definition conflict_answer (is_conflict : json -> bool) (resp : Response) : Prop :=
  status_code resp = 400 /\
  exists error, json_body resp = Some error /\ is_conflict error = true.

(** *** The readiness poll *)

Section Polling.
Context {Srv : Type} `{Transport Srv}.

(** The probe of the status endpoint. *)
Definition probe (a : Auth) : Request := mkRequest GET "/" [] None a.

(** What the remote answers to [n] probes in a row. *)
Fixpoint probe_outcomes (n : nat) (a : Auth) (srv : Srv) : list Outcome :=
  match n with
  | O => []
  | S n' => let '(o, srv') := send (probe a) srv in o :: probe_outcomes n' a srv'
  end.

(** The probe was answered with a status that [accepted] takes. *)
Definition answered (accepted : Z -> bool) (o : Outcome) : bool :=
  match o with
  | Answer r => accepted (status_code r)
  | NoAnswer => false
  end.

(** The contract of a poll of at most [n] probes, [delay] seconds apart,
    from the state [st] to the result [r] and the state [st']: it stops
    with success at the first accepted probe, without sleeping after it,
    and with failure after [n] probes, each followed by a sleep. *)
Definition poll_contract {Obj} (accepted : Z -> bool) (n : nat) (delay : Z)
    (st : State Srv Obj) (r : Result bool) (st' : State Srv Obj) : Prop :=
  match list_find (fun o => answered accepted o = true)
                  (probe_outcomes n (session st) (remote st)) with
  | Some (i, _) =>
      r = Return true
      /\ sent (trace st') = sent (trace st) ++ replicate (S i) (probe (session st))
      /\ slept (trace st') = slept (trace st) ++ replicate i delay
  | None =>
      r = Return false
      /\ sent (trace st') = sent (trace st) ++ replicate n (probe (session st))
      /\ slept (trace st') = slept (trace st) ++ replicate n delay
  end.

(** The state after a probe and what an iteration prints and sleeps. *)
Definition after_probe {Obj} (st : State Srv Obj) (srv' : Srv) (says : list string)
    (naps : list Z) : State Srv Obj :=
  mkState srv'
    (trace st ++ Sent (probe (session st)) :: map Printed says ++ map Slept naps)
    (session st) (self st).

(** The shape shared by the polling loops: [wa todo attempt] probes
    once, returns on an accepted answer, and otherwise sleeps [delay] and
    goes on with one iteration less. *)
Definition poll_shape {Obj} (accepted : Z -> bool) (delay : Z)
    (wa : nat -> Z -> M Srv Obj bool) : Prop :=
  (forall attempt st, exists says,
      wa O attempt st
      = (Return false,
         mkState (remote st) (trace st ++ map Printed says) (session st) (self st)))
  /\
  (forall todo attempt st, exists ready retry,
      wa (S todo) attempt st
      = match send (probe (session st)) (remote st) with
        | (Answer resp, srv') =>
            if accepted (status_code resp)
            then (Return true, after_probe st srv' ready [])
            else wa todo (attempt + 1) (after_probe st srv' retry [delay])
        | (NoAnswer, srv') =>
            wa todo (attempt + 1) (after_probe st srv' retry [delay])
        end).

(** Every outcome of [os] is an answer with the status [status]. *)
Definition all_answer (status : Z) (os : list Outcome) : Prop :=
  Forall (fun o => exists resp, o = Answer resp /\ status_code resp = status) os.

End Polling.


(** The tenant script accepts the status 200 only. *)
Definition is_200 (status : Z) : bool := status =? 200.

(** A remote that answers 401 to everything. *)
Definition unauthorized : Request -> Outcome :=
  fun _ => Answer (mkResponse 401 (Some (JDict [("detail", JStr "Invalid token")])) "").

(** A conflict on ["GPU"] followed by an empty page, played by a script. *)
Definition conflict_then_empty_page : list Outcome :=
  [ Answer (mkResponse 400
              (Some (JDict [("name", JList [JStr "Part category with this name already exists"])]))
              "");
    Answer (mkResponse 200
              (Some (JDict [("count", JNum 0); ("results", JList [])])) "") ].

(** *** States *)

(** The state [st] after [print(s)]. *)
Definition said {Srv Obj} (s : string) (st : State Srv Obj) : State Srv Obj :=
  mkState (remote st) (trace st ++ [Printed s]) (session st) (self st).

(** A remote that is ready (200 on the status endpoint) and answers 401
    to every other request, as it does to wrong credentials. *)
Definition wrong_credentials : Request -> Outcome :=
  fun r =>
    if String.eqb (url r) "/" then
      Answer (mkResponse 200 (Some (JDict [("server", JStr "InvenTree")])) "")
    else
      Answer (mkResponse 401
                (Some (JDict [("detail", JStr "Invalid username/password.")]))
                "Invalid username/password.").

(** ** Remotes that refuse every creation *)

(** The collections of the scripts. *)
Definition collections : list string :=
  ["/part/category/"; "/stock/location/"; "/part/"; "/user/group/"].

(** A creation is refused: the status is none of those the scripts take
    for a success (200, 201) or inspect for a conflict (400). *)
Definition refused (resp : Response) : Prop :=
  status_code resp <> 200 /\ status_code resp <> 201 /\ status_code resp <> 400.

(** A lookup finds nothing: an error status, or an empty list. *)
Definition nothing_found (resp : Response) : Prop :=
  status_code resp <> 200 \/ json_body resp = Some (JList []).

(** [R] is a set of states of the remote that requests do not leave and
    in which every creation in a collection is refused and every lookup
    in a collection finds nothing. *)
Definition refusing {Srv} `{Transport Srv} (R : Srv -> Prop) : Prop :=
  forall r srv, R srv ->
    R (snd (send r srv))
    /\ (In (url r) collections ->
        exists resp, fst (send r srv) = Answer resp
                     /\ if is_post r then refused resp else nothing_found resp).

(** From [st] to [st'] the run stayed within [R], kept the session and
    the object, and sent [n] requests. *)
Definition moved {Srv Obj} (R : Srv -> Prop) (n : nat) (st st' : State Srv Obj) : Prop :=
  R (remote st') /\ session st' = session st /\ self st' = self st
  /\ length (sent (trace st')) = (length (sent (trace st)) + n)%nat.

(** The tenant descriptions [seed_tenant] reads without an exception: a
    dict with a string under ["name"], and under ["users"] nothing, a
    falsy value, or a list of dicts with ["username"] and ["email"]. *)
Definition valid_user (u : json) : bool :=
  match u with
  | JDict d => bool_decide (is_Some (assoc "username" d))
               && bool_decide (is_Some (assoc "email" d))
  | _ => false
  end.

Definition valid_tenant (t : json) : bool :=
  match t with
  | JDict d =>
      match assoc "name" d with
      | Some (JStr _) =>
          match assoc "users" d with
          | None => true
          | Some (JList us) => forallb valid_user us
          | Some v => negb (truthy v)
          end
      | _ => false
      end
  | _ => false
  end.

(** ** Invariants of a run *)

(** Every run of [c] relates the state it starts from to the state it
    ends in, whether it returns or raises. *)
Definition keeps {Srv Obj A} (P : State Srv Obj -> State Srv Obj -> Prop)
    (c : M Srv Obj A) : Prop :=
  forall st, P st (snd (c st)).

(** No key of the object's cache is lost from [st] to [st']. *)
Definition keys_kept {Srv K V} `{Countable K} (st st' : State Srv (gmap K V)) : Prop :=
  forall k, is_Some (self st !! k) -> is_Some (self st' !! k).

(** [j] is a category of a listing that [load_categories] can read: a
    dict with a ["pk"] and a hashable ["name"], cached as the entry [e]. *)
Definition category_entry (j : json) (e : pykey * json) : Prop :=
  exists d name,
    j = JDict d /\ assoc "pk" d = Some (snd e) /\ assoc "name" d = Some name
    /\ to_key name = Some (fst e).

(** The listing [cats] is the body of [resp], bare or as the ["results"]
    of a page. *)
Definition lists (resp : Response) (cats : list json) : Prop :=
  json_body resp = Some (JList cats)
  \/ exists d, json_body resp = Some (JDict d) /\ assoc "results" d = Some (JList cats).

(** An item of a listing that the tenant script passes over when it looks
    for [name]: a dict whose ["name"], if any, is another one. *)
Definition named_otherwise (name : string) (x : json) : Prop :=
  exists d, x = JDict d
            /\ eq_str (match assoc "name" d with Some v => v | None => JNull end) name
               = false.

(** ** The warehouse, by position *)

(** The names [seed_warehouse] asks for when every creation succeeds, in
    the order of its loops. *)
Definition shelf_names (zone : string) (col level : Z) : list string :=
  SeedLocations.shelf_name zone col level
  :: if String.eqb (SeedLocations.column_name zone col) SeedLocations.POWER_SUPPLY_COLUMN
     then []
     else [SeedLocations.shelf_name zone col level ++ "-A";
           SeedLocations.shelf_name zone col level ++ "-B"]%string.

Definition column_names (zone : string) (col : Z) : list string :=
  SeedLocations.column_name zone col
  :: flat_map (shelf_names zone col) (SeedLocations.range1 SeedLocations.LEVELS).

Definition zone_names (zone : string) : list string :=
  SeedLocations.zone_name zone
  :: flat_map (column_names zone) (SeedLocations.range1 SeedLocations.COLUMNS_PER_ZONE).

Definition hierarchy_names : list string :=
  "Warehouse" :: flat_map zone_names SeedLocations.ZONES.

(** The bins are the names of four parts, [zone-column-level-side]. *)
Definition dashes (name : string) : nat :=
  length (List.filter (Ascii.eqb "-") (list_ascii_of_string name)).

Definition is_bin (name : string) : bool := Nat.eqb (dashes name) 3.

(** [R] is a set of states of the remote that requests do not leave and
    in which every creation of a location is answered by 201 and a dict
    with a ["pk"]. *)
Definition obliging {Srv} `{Transport Srv} (R : Srv -> Prop) : Prop :=
  forall r srv, R srv ->
    R (snd (send r srv))
    /\ (is_post r = true -> url r = "/stock/location/" ->
        exists resp d pk,
          fst (send r srv) = Answer resp /\ status_code resp = 201
          /\ json_body resp = Some (JDict d) /\ assoc "pk" d = Some pk).

(** From [st] to [st'] the run stayed within [R] and asked for the
    creation of the locations [names], in this order. *)
Definition asked {Srv Obj} (R : Srv -> Prop) (names : list string)
    (st st' : State Srv Obj) : Prop :=
  R (remote st')
  /\ created_names "/stock/location/" (trace st')
     = created_names "/stock/location/" (trace st) ++ names
  /\ printed (trace st) `prefix_of` printed (trace st').

(** A remote that answers every request by 201 and the identifier 1. *)
Definition always_created : Request -> Outcome :=
  fun _ => Answer (mkResponse 201 (Some (JDict [("pk", JNum 1)])) "").

(** The locations of a tenant: its warehouse and the standard grid. *)
Definition tenant_locations (display_name : string) : list string :=
  (display_name ++ " Warehouse")%string
  :: flat_map (fun zone =>
                 map (SeedTenants.subloc_name zone)
                     (map Z.of_nat (seq 1 (Z.to_nat SeedTenants.columns))))
              SeedTenants.zones.

(** What a tenant needs: its group and its locations. *)
Definition tenant_keys (name display_name : string) : list (Remote.Kind * string) :=
  (Remote.Group, ("tenant_" ++ name)%string)
  :: map (pair Remote.Location) (tenant_locations display_name).

Definition keys_of_tenant (t : json) : list (Remote.Kind * string) :=
  match t with
  | JDict d =>
      match assoc "name" d with
      | Some (JStr n) =>
          tenant_keys n
            (str (match assoc "display_name" d with
                  | Some x => x
                  | None => JStr (title n)
                  end))
      | _ => []
      end
  | _ => []
  end.

(** A remote that answers every request by 400 and a body that speaks
    of uniqueness without the words "already exists". *)
Definition must_be_unique : Request -> Outcome :=
  fun _ =>
    Answer (mkResponse 400
              (Some (JDict [("name", JList [JStr "This field must be unique."])]))
              "name must be unique").

(** A remote that is down: no request is answered. *)
Definition down : list Outcome := [].

(** * Properties *)

Local Open Scope string_scope.
Local Open Scope Z_scope.
Local Open Scope list_scope.
Local Open Scope seeder_scope.

#[global] Arguments assoc _ !_ : simpl nomatch.
#[global] Arguments String.eqb !_ !_ : simpl nomatch.
#[global] Arguments py_in !_ !_ : simpl nomatch.
#[global] Arguments lower !_ : simpl nomatch.
#[global] Arguments String.append : simpl never.
#[global] Arguments str_of_Z : simpl never.

(** Unfolding of the monad's operations on a given state. *)
Ltac run_monad :=
  cbv beta iota zeta delta
    [bind ret raise try_except print sleep emit get_self set_self set_session
     set_authorization set_basic session_get session_post request response_json
     dict_get getitem getitem0 py_iter] in *;
  simpl in *.

(** ** Running a computation step by step *)

Section Run.
Context {Srv Obj : Type}.

Lemma bind_run {A B} (c : M Srv Obj A) (k : A -> M Srv Obj B) st :
  bind c k st
  = match c st with
    | (Return a, st') => k a st'
    | (Raise e, st') => (Raise e, st')
    end.
Proof. reflexivity. Qed.

Lemma bind_return {A B} (c : M Srv Obj A) (k : A -> M Srv Obj B) st a st' :
  c st = (Return a, st') -> bind c k st = k a st'.
Proof. intros Hc. unfold bind. rewrite Hc. reflexivity. Qed.

Lemma bind_raise {A B} (c : M Srv Obj A) (k : A -> M Srv Obj B) st e st' :
  c st = (Raise e, st') -> bind c k st = (Raise e, st').
Proof. intros Hc. unfold bind. rewrite Hc. reflexivity. Qed.

Lemma try_except_return {A} (c : M Srv Obj A) caught handler st a st' :
  c st = (Return a, st') -> try_except c caught handler st = (Return a, st').
Proof. intros Hc. unfold try_except. rewrite Hc. reflexivity. Qed.

End Run.

(** Runs the effect-free head of a sequence: a print, a sleep, a
    return. *)
Ltac mstep := erewrite bind_return by reflexivity; cbv beta.

(** ** The lookup fallback on an empty page *)

Section EmptyPage.
Context {Srv : Type} `{Transport Srv}.


Lemma truthy_dict_with_key k d v : assoc k d = Some v -> truthy (JDict d) = true.
Proof. destruct d; [discriminate | reflexivity]. Qed.

Lemma get_existing_category_empty_page (st : State Srv unit) name resp srv' :
  send (lookup_by_name "/part/category/" name (session st)) (remote st) = (Answer resp, srv') ->
  empty_page resp ->
  fst (SeedCategories._get_existing_category name st) = Raise IndexError.
Proof.
  intros Hsend (Hst & d & Hbody & Hres).
  unfold SeedCategories._get_existing_category, lookup_by_name in *. run_monad.
  rewrite Hsend, Hst. run_monad. rewrite Hbody.
  rewrite (truthy_dict_with_key _ _ _ Hres). run_monad.
  rewrite Hres. reflexivity.
Qed.

Lemma get_existing_location_empty_page (st : State Srv (gmap string json)) name resp srv' :
  send (lookup_by_name "/stock/location/" name (session st)) (remote st) = (Answer resp, srv') ->
  empty_page resp ->
  fst (SeedLocations._get_existing_location name st) = Raise IndexError
  /\ self (snd (SeedLocations._get_existing_location name st)) = self st.
Proof.
  intros Hsend (Hst & d & Hbody & Hres).
  unfold SeedLocations._get_existing_location, lookup_by_name in *. run_monad.
  rewrite Hsend, Hst. run_monad. rewrite Hbody.
  rewrite (truthy_dict_with_key _ _ _ Hres). run_monad.
  rewrite Hres. split; reflexivity.
Qed.

Lemma create_category_empty_page (st : State Srv unit) name description r1 srv1 r2 srv2 :
  send (creation "/part/category/"
          (JDict [("name", JStr name); ("description", JStr description)])
          (session st)) (remote st) = (Answer r1, srv1) ->
  conflict_answer SeedCategories.is_conflict r1 ->
  send (lookup_by_name "/part/category/" name (session st)) srv1 = (Answer r2, srv2) ->
  empty_page r2 ->
  fst (SeedCategories.create_category name description st) = Raise IndexError.
Proof.
  intros Hpost (Hst & error & Hbody & Hconf) Hget Hpage.
  unfold SeedCategories.create_category, creation in *. run_monad.
  rewrite Hpost, Hst. run_monad. rewrite Hbody, Hconf.
  eapply get_existing_category_empty_page; simpl; eauto.
Qed.

Lemma create_location_empty_page (st : State Srv (gmap string json))
    name description parent_id r1 srv1 r2 srv2 :
  send (creation "/stock/location/"
          (SeedLocations.location_payload name description parent_id)
          (session st)) (remote st) = (Answer r1, srv1) ->
  conflict_answer SeedLocations.is_conflict r1 ->
  send (lookup_by_name "/stock/location/" name (session st)) srv1 = (Answer r2, srv2) ->
  empty_page r2 ->
  fst (SeedLocations.create_location name description parent_id st) = Raise IndexError.
Proof.
  intros Hpost (Hst & error & Hbody & Hconf) Hget Hpage.
  unfold SeedLocations.create_location, creation in *. run_monad.
  rewrite Hpost, Hst. run_monad. rewrite Hbody, Hconf.
  eapply get_existing_location_empty_page; simpl; eauto.
Qed.

End EmptyPage.

(** C9: a lookup answered by 200 and a dict whose ["results"] is the
    empty list makes both lookup helpers index an empty list: the helper
    raises [IndexError], and so does the upsert that fell back on it
    after a conflict, in place of returning [None] and letting the
    caller skip the resource. *)
Theorem empty_page_crashes_the_upsert :
  forall (Srv : Type) (T : Transport Srv) (name description : string) (parent_id : json)
         (r1 r2 : Response) (srv srv1 srv2 : Srv) (a : Auth) (t : list Event)
         (cache : gmap string json),
    empty_page r2 ->
    (send (lookup_by_name "/part/category/" name a) srv1 = (Answer r2, srv2) ->
       fst (SeedCategories._get_existing_category name (mkState srv1 t a tt))
         = Raise IndexError
       /\ (send (creation "/part/category/"
                   (JDict [("name", JStr name); ("description", JStr description)]) a) srv
             = (Answer r1, srv1) ->
           conflict_answer SeedCategories.is_conflict r1 ->
           fst (SeedCategories.create_category name description (mkState srv t a tt))
             = Raise IndexError))
    /\
    (send (lookup_by_name "/stock/location/" name a) srv1 = (Answer r2, srv2) ->
       fst (SeedLocations._get_existing_location name (mkState srv1 t a cache))
         = Raise IndexError
       /\ (send (creation "/stock/location/"
                   (SeedLocations.location_payload name description parent_id) a) srv
             = (Answer r1, srv1) ->
           conflict_answer SeedLocations.is_conflict r1 ->
           fst (SeedLocations.create_location name description parent_id
                  (mkState srv t a cache))
             = Raise IndexError)).
Proof.
  intros Srv T name description parent_id r1 r2 srv srv1 srv2 a t cache Hpage.
  split; intros Hget; split.
  - exact (get_existing_category_empty_page (mkState srv1 t a tt) name r2 srv2 Hget Hpage).
  - intros Hpost Hconf.
    exact (create_category_empty_page (mkState srv t a tt) name description
             r1 srv1 r2 srv2 Hpost Hconf Hget Hpage).
  - exact (proj1 (get_existing_location_empty_page (mkState srv1 t a cache) name r2 srv2
                    Hget Hpage)).
  - intros Hpost Hconf.
    exact (create_location_empty_page (mkState srv t a cache) name description parent_id
             r1 srv1 r2 srv2 Hpost Hconf Hget Hpage).
Qed.


Lemma empty_page_crashes_the_upsert_witness :
  fst (SeedCategories.create_category "GPU" "Graphics"
         (mkState conflict_then_empty_page [] (mkAuth None None) tt)) = Raise IndexError
  /\ fst (SeedLocations.create_location "Warehouse" "Main" JNull
            (mkState conflict_then_empty_page [] (mkAuth None None) ∅)) = Raise IndexError.
Proof.
  pose proof (empty_page_crashes_the_upsert (list Outcome) Scripted.scripted
                "GPU" "Graphics" JNull
                (mkResponse 400
                   (Some (JDict [("name", JList [JStr "Part category with this name already exists"])]))
                   "")
                (mkResponse 200 (Some (JDict [("count", JNum 0); ("results", JList [])])) "")
                conflict_then_empty_page (tl conflict_then_empty_page) []
                (mkAuth None None) [] ∅) as Hthm.
  assert (Hpage : empty_page
            (mkResponse 200 (Some (JDict [("count", JNum 0); ("results", JList [])])) "")).
  { split; [reflexivity|]. eexists. split; reflexivity. }
  destruct (Hthm Hpage) as [Hcat Hloc].
  split.
  - apply (proj2 (Hcat eq_refl)); [reflexivity|].
    split; [reflexivity|]. eexists. split; reflexivity.
  - pose proof (empty_page_crashes_the_upsert (list Outcome) Scripted.scripted
                "Warehouse" "Main" JNull
                (mkResponse 400
                   (Some (JDict [("name", JList [JStr "Part category with this name already exists"])]))
                   "")
                (mkResponse 200 (Some (JDict [("count", JNum 0); ("results", JList [])])) "")
                conflict_then_empty_page (tl conflict_then_empty_page) []
                (mkAuth None None) [] ∅ Hpage) as [_ Hloc'].
    apply (proj2 (Hloc' eq_refl)); [reflexivity|].
    split; [reflexivity|]. eexists. split; reflexivity.
Defined.

(** ** The trace *)

Lemma sent_app t1 t2 : sent (t1 ++ t2) = sent t1 ++ sent t2.
Proof. apply omap_app. Qed.

Lemma printed_app t1 t2 : printed (t1 ++ t2) = printed t1 ++ printed t2.
Proof. apply omap_app. Qed.

Lemma slept_app t1 t2 : slept (t1 ++ t2) = slept t1 ++ slept t2.
Proof. apply omap_app. Qed.

(** ** The readiness poll *)

Section Poll.
Context {Srv : Type} `{Transport Srv}.


Lemma list_find_cons_true {A} (P : A -> Prop) `{!forall x, Decision (P x)} x l :
  P x -> list_find P (x :: l) = Some (0%nat, x).
Proof. intros HP. simpl. rewrite decide_True by done. reflexivity. Qed.

Lemma list_find_cons_false {A} (P : A -> Prop) `{!forall x, Decision (P x)} x l :
  ~ P x -> list_find P (x :: l) = prod_map S id <$> list_find P l.
Proof. intros HP. simpl. rewrite decide_False by done. reflexivity. Qed.


Lemma sent_printed says : sent (map Printed says) = [].
Proof. induction says; simpl; auto. Qed.

Lemma slept_printed says : slept (map Printed says) = [].
Proof. induction says; simpl; auto. Qed.

Lemma sent_after_probe {Obj} (st : State Srv Obj) srv' says naps :
  sent (trace (after_probe st srv' says naps))
  = sent (trace st) ++ [probe (session st)].
Proof.
  unfold after_probe. simpl. rewrite sent_app. f_equal.
  change (Sent (probe (session st)) :: map Printed says ++ map Slept naps)
    with ([Sent (probe (session st))] ++ map Printed says ++ map Slept naps).
  rewrite !sent_app, sent_printed. simpl.
  induction naps; simpl; auto.
Qed.

Lemma slept_after_probe {Obj} (st : State Srv Obj) srv' says naps :
  slept (trace (after_probe st srv' says naps)) = slept (trace st) ++ naps.
Proof.
  unfold after_probe. simpl. rewrite slept_app. f_equal.
  change (Sent (probe (session st)) :: map Printed says ++ map Slept naps)
    with ([Sent (probe (session st))] ++ map Printed says ++ map Slept naps).
  rewrite !slept_app, slept_printed. simpl.
  induction naps; simpl; f_equal; auto.
Qed.

Lemma poll_shape_contract {Obj} accepted delay (wa : nat -> Z -> M Srv Obj bool) :
  poll_shape accepted delay wa ->
  forall todo attempt st,
    poll_contract accepted todo delay st (fst (wa todo attempt st)) (snd (wa todo attempt st)).
Proof.
  intros [Hzero Hstep]. induction todo as [|todo IH]; intros attempt st; unfold poll_contract.
  - destruct (Hzero attempt st) as [says ->]. simpl.
    rewrite sent_app, slept_app, sent_printed, slept_printed, !app_nil_r. done.
  - destruct (Hstep todo attempt st) as (ready & retry & ->).
    simpl probe_outcomes.
    destruct (send (probe (session st)) (remote st)) as [o srv'].
    assert (Hgo : forall st1 : State Srv Obj,
              st1 = after_probe st srv' retry [delay] ->
              answered accepted o = false ->
              match
                list_find (fun o0 => answered accepted o0 = true)
                  (o :: probe_outcomes todo (session st) srv')
              with
              | Some (i, _) =>
                  (wa todo (attempt + 1) st1).1 = Return true
                  /\ sent (trace (wa todo (attempt + 1) st1).2)
                     = sent (trace st) ++ replicate (S i) (probe (session st))
                  /\ slept (trace (wa todo (attempt + 1) st1).2)
                     = slept (trace st) ++ replicate i delay
              | None =>
                  (wa todo (attempt + 1) st1).1 = Return false
                  /\ sent (trace (wa todo (attempt + 1) st1).2)
                     = sent (trace st) ++ replicate (S todo) (probe (session st))
                  /\ slept (trace (wa todo (attempt + 1) st1).2)
                     = slept (trace st) ++ replicate (S todo) delay
              end).
    { intros st1 -> Hno.
      rewrite list_find_cons_false by (rewrite Hno; done).
      specialize (IH (attempt + 1) (after_probe st srv' retry [delay])).
      unfold poll_contract in IH.
      rewrite sent_after_probe, slept_after_probe in IH.
      change (session (after_probe st srv' retry [delay])) with (session st) in IH.
      change (remote (after_probe st srv' retry [delay])) with srv' in IH.
      destruct (list_find _ (probe_outcomes todo (session st) srv')) as [[i o']|];
        simpl; destruct IH as (Hr & Hs & Hz); rewrite Hr, Hs, Hz, <- !app_assoc;
        repeat split; reflexivity. }
    destruct o as [resp|]; [destruct (accepted (status_code resp)) eqn:Hacc|].
    + rewrite list_find_cons_true by (simpl; rewrite Hacc; done).
      simpl fst. simpl snd. rewrite sent_after_probe, slept_after_probe.
      simpl replicate. rewrite !app_nil_r. repeat split; reflexivity.
    + apply Hgo; [reflexivity | exact Hacc].
    + apply Hgo; reflexivity.
Qed.

(** Each polling loop has the shape. *)
Ltac poll_shape_proof :=
  split;
  [ intros attempt st; eexists [_]; reflexivity
  | intros todo attempt st; simpl; run_monad; unfold probe;
    destruct (send _ (remote st)) as [[resp|] srv'];
    [ destruct (_ (status_code resp)) | ];
    run_monad; unfold after_probe; rewrite <- ?app_assoc; reflexivity ].

Lemma categories_poll_shape max_retries delay :
  poll_shape (Obj := unit) SeedCategories.accepted delay
    (fun todo attempt => SeedCategories.wait_attempts todo attempt max_retries delay).
Proof.
  split.
  - intros attempt st. exists ["API failed to respond"]. reflexivity.
  - intros todo attempt st.
    exists ["API is ready (attempt " ++ str_of_Z (attempt + 1) ++ ")"]%string,
           ["Attempt " ++ str_of_Z (attempt + 1) ++ "/" ++ str_of_Z max_retries
            ++ " - Retrying in " ++ str_of_Z delay ++ "s..."]%string.
    simpl SeedCategories.wait_attempts. run_monad. unfold probe.
    destruct (send _ (remote st)) as [[resp|] srv'];
      [destruct (SeedCategories.accepted (status_code resp))|];
      run_monad; unfold after_probe, probe; simpl; rewrite <- ?app_assoc; reflexivity.
Qed.

Lemma locations_poll_shape max_retries delay :
  poll_shape (Obj := gmap string json) SeedLocations.accepted delay
    (fun todo attempt => SeedLocations.wait_attempts todo attempt max_retries delay).
Proof.
  split.
  - intros attempt st. exists ["API failed to respond"]. reflexivity.
  - intros todo attempt st.
    exists ["API is ready (attempt " ++ str_of_Z (attempt + 1) ++ ")"]%string,
           ["Attempt " ++ str_of_Z (attempt + 1) ++ "/" ++ str_of_Z max_retries
            ++ " - Retrying in " ++ str_of_Z delay ++ "s..."]%string.
    simpl SeedLocations.wait_attempts. run_monad. unfold probe.
    destruct (send _ (remote st)) as [[resp|] srv'];
      [destruct (SeedLocations.accepted (status_code resp))|];
      run_monad; unfold after_probe, probe; simpl; rewrite <- ?app_assoc; reflexivity.
Qed.

Lemma parts_poll_shape max_retries delay :
  poll_shape (Obj := gmap pykey json) SeedParts.accepted delay
    (fun todo attempt => SeedParts.wait_attempts todo attempt max_retries delay).
Proof.
  split.
  - intros attempt st. exists ["API failed to respond"]. reflexivity.
  - intros todo attempt st.
    exists ["API is ready"],
           ["Attempt " ++ str_of_Z (attempt + 1) ++ "/" ++ str_of_Z max_retries
            ++ " - Retrying in " ++ str_of_Z delay ++ "s..."]%string.
    simpl SeedParts.wait_attempts. run_monad. unfold probe.
    destruct (send _ (remote st)) as [[resp|] srv'];
      [destruct (SeedParts.accepted (status_code resp))|];
      run_monad; unfold after_probe, probe; simpl; rewrite <- ?app_assoc; reflexivity.
Qed.

Lemma tenants_poll_shape :
  poll_shape (Obj := json) is_200 5 (fun todo _ => SeedTenants.wait_attempts todo).
Proof.
  split.
  - intros attempt st. exists []. simpl. run_monad. rewrite app_nil_r.
    destruct st; reflexivity.
  - intros todo attempt st. exists ["API is ready"], [].
    simpl SeedTenants.wait_attempts. run_monad. unfold probe, is_200.
    destruct (send _ (remote st)) as [[resp|] srv'];
      [destruct (status_code resp =? 200)|];
      run_monad; unfold after_probe, probe; simpl; rewrite <- ?app_assoc; reflexivity.
Qed.

(** The contract of the four polls. *)
Lemma categories_wait_for_api max_retries delay (st : State Srv unit) :
  poll_contract SeedCategories.accepted (Z.to_nat max_retries) delay st
    (fst (SeedCategories.wait_for_api max_retries delay st))
    (snd (SeedCategories.wait_for_api max_retries delay st)).
Proof.
  pose proof (poll_shape_contract _ _ _ (categories_poll_shape max_retries delay)
                (Z.to_nat max_retries) 0
                (mkState (remote st)
                   (trace st ++ [Printed "Waiting for InvenTree API to be ready..."])
                   (session st) (self st))) as Hc.
  unfold poll_contract in *. simpl in Hc.
  rewrite sent_app, slept_app, !app_nil_r in Hc. exact Hc.
Qed.

Lemma locations_wait_for_api max_retries delay (st : State Srv (gmap string json)) :
  poll_contract SeedLocations.accepted (Z.to_nat max_retries) delay st
    (fst (SeedLocations.wait_for_api max_retries delay st))
    (snd (SeedLocations.wait_for_api max_retries delay st)).
Proof.
  pose proof (poll_shape_contract _ _ _ (locations_poll_shape max_retries delay)
                (Z.to_nat max_retries) 0
                (mkState (remote st)
                   (trace st ++ [Printed "Waiting for InvenTree API to be ready..."])
                   (session st) (self st))) as Hc.
  unfold poll_contract in *. simpl in Hc.
  rewrite sent_app, slept_app, !app_nil_r in Hc. exact Hc.
Qed.

Lemma parts_wait_for_api max_retries delay (st : State Srv (gmap pykey json)) :
  poll_contract SeedParts.accepted (Z.to_nat max_retries) delay st
    (fst (SeedParts.wait_for_api max_retries delay st))
    (snd (SeedParts.wait_for_api max_retries delay st)).
Proof.
  pose proof (poll_shape_contract _ _ _ (parts_poll_shape max_retries delay)
                (Z.to_nat max_retries) 0
                (mkState (remote st)
                   (trace st ++ [Printed "Connecting to InvenTree API..."])
                   (session st) (self st))) as Hc.
  unfold poll_contract in *. simpl in Hc.
  rewrite sent_app, slept_app, !app_nil_r in Hc. exact Hc.
Qed.

Lemma tenants_wait_attempts (st : State Srv json) :
  poll_contract is_200 12 5 st
    (fst (SeedTenants.wait_attempts 12 st)) (snd (SeedTenants.wait_attempts 12 st)).
Proof. exact (poll_shape_contract _ _ _ tenants_poll_shape 12%nat 0 st). Qed.


Lemma list_find_none_answers accepted status os :
  all_answer status os -> accepted status = false ->
  list_find (fun o => answered accepted o = true) os = None.
Proof.
  intros Hall Hno. apply list_find_None.
  eapply Forall_impl; [exact Hall|].
  intros o (resp & -> & Hst). simpl. rewrite Hst, Hno. done.
Qed.

Lemma list_find_first_answers accepted status n m a srv :
  all_answer status (probe_outcomes (S n) a srv) -> accepted status = true ->
  exists o, list_find (fun o => answered accepted o = true) (probe_outcomes (S m) a srv)
            = Some (0%nat, o).
Proof.
  intros Hall Hyes. simpl in *.
  destruct (send (probe a) srv) as [o srv'].
  apply Forall_cons in Hall as [(resp & -> & Hst) _].
  eexists. apply list_find_cons_true. simpl. rewrite Hst. done.
Qed.

End Poll.

(** C5: on a remote that answers every probe with the status 401, the
    poll of the tenant script does not return success: it probes 12
    times, sleeps 5 seconds after each probe, and [run] returns [False],
    so that the script exits with 1; [wait_for_api], in the three other
    scripts, returns success there at the first probe, without
    sleeping. *)
Theorem tenant_poll_rejects_401 :
  forall (Srv : Type) (T : Transport Srv) (user password : string) (tenants : json)
         (st : State Srv json) (st0 : State Srv unit),
    all_answer 401 (probe_outcomes 12 (session st) (remote st)) ->
    remote st0 = remote st -> session st0 = session st ->
    (fst (SeedTenants.wait_attempts 12 st) = Return false
     /\ sent (trace (snd (SeedTenants.wait_attempts 12 st)))
        = sent (trace st) ++ replicate 12 (probe (session st))
     /\ slept (trace (snd (SeedTenants.wait_attempts 12 st)))
        = slept (trace st) ++ replicate 12 5
     /\ fst (SeedTenants.run user password tenants st) = Return false
     /\ exit_status (fst (SeedTenants.main user password tenants st)) = 1)
    /\
    (fst (SeedCategories.wait_for_api 30 5 st0) = Return true
     /\ sent (trace (snd (SeedCategories.wait_for_api 30 5 st0)))
        = sent (trace st0) ++ [probe (session st0)]
     /\ slept (trace (snd (SeedCategories.wait_for_api 30 5 st0))) = slept (trace st0)).
Proof.
  intros Srv T user password tenants st st0 Hall Hremote Hsession.
  assert (Hpoll : fst (SeedTenants.wait_attempts 12 st) = Return false
     /\ sent (trace (snd (SeedTenants.wait_attempts 12 st)))
        = sent (trace st) ++ replicate 12 (probe (session st))
     /\ slept (trace (snd (SeedTenants.wait_attempts 12 st)))
        = slept (trace st) ++ replicate 12 5).
  { pose proof (tenants_wait_attempts st) as Hc. unfold poll_contract in Hc.
    rewrite (list_find_none_answers is_200 401 _ Hall eq_refl) in Hc. exact Hc. }
  assert (Hrun : fst (SeedTenants.run user password tenants st) = Return false).
  { unfold SeedTenants.run. mstep. rewrite bind_run.
    pose proof (tenants_wait_attempts
                  (mkState (remote st)
                     (trace st ++ [Printed "Waiting for InvenTree API..."])
                     (session st) (self st))) as Hc.
    unfold poll_contract in Hc. cbn [session remote] in Hc.
    rewrite (list_find_none_answers is_200 401 _ Hall eq_refl) in Hc.
    destruct Hc as (Hr' & _).
    destruct (SeedTenants.wait_attempts 12 (mkState _ _ _ _)) as [r st1].
    simpl in Hr'. subst r.
    reflexivity. }
  split.
  - destruct Hpoll as (Hr & Hs & Hz). repeat split; try assumption.
    unfold SeedTenants.main. rewrite bind_run.
    destruct (SeedTenants.run user password tenants st) as [r st1].
    simpl in Hrun. subst r. reflexivity.
  - pose proof (categories_wait_for_api 30 5 st0) as Hc. unfold poll_contract in Hc.
    rewrite <- Hremote, <- Hsession in Hall.
    destruct (list_find_first_answers SeedCategories.accepted 401 11 29
                (session st0) (remote st0) Hall eq_refl) as [o Ho].
    change (Z.to_nat 30) with 30%nat in Hc. rewrite Ho in Hc.
    destruct Hc as (Hr & Hs & Hz). simpl in Hs, Hz. rewrite app_nil_r in Hz. auto.
Qed.


Lemma tenant_poll_rejects_401_witness :
  fst (SeedTenants.run "admin" "admin123" JNull (SeedTenants.TenantSeeder unauthorized))
  = Return false
  /\ fst (SeedCategories.wait_for_api 30 5
            (mkState unauthorized [] (mkAuth None None) tt)) = Return true.
Proof.
  assert (Hall : all_answer 401
            (probe_outcomes 12 (mkAuth None None) unauthorized)).
  { repeat constructor; eexists; split; reflexivity. }
  pose proof (tenant_poll_rejects_401 (Request -> Outcome) Stateless.stateless
                "admin" "admin123" JNull (SeedTenants.TenantSeeder unauthorized)
                (mkState unauthorized [] (mkAuth None None) tt)
                Hall eq_refl eq_refl) as [(_ & _ & _ & Hrun & _) (Hcat & _)].
  split; assumption.
Defined.

(** ** Exit codes *)

Section ExitCodes.
Context {Srv : Type} `{Transport Srv}.

(** Destructs the computation at the head of the goal, with its result
    given by the hypothesis [Hc]. *)
Ltac run_with Hc := rewrite bind_run, Hc; cbv beta iota delta [negb].

Lemma categories_exit_poll (st : State Srv unit) :
  fst (SeedCategories.wait_for_api 30 5 st) = Return false ->
  exit_status (fst (SeedCategories.main st)) = 1.
Proof.
  intros Hpoll. unfold SeedCategories.main. rewrite bind_run.
  destruct (SeedCategories.wait_for_api 30 5 st) as [r st1].
  simpl in Hpoll. subst r. reflexivity.
Qed.

Lemma locations_exit_poll (st : State Srv (gmap string json)) :
  fst (SeedLocations.wait_for_api 30 5 st) = Return false ->
  exit_status (fst (SeedLocations.main st)) = 1.
Proof.
  intros Hpoll. unfold SeedLocations.main. rewrite bind_run.
  destruct (SeedLocations.wait_for_api 30 5 st) as [r st1].
  simpl in Hpoll. subst r. reflexivity.
Qed.

Lemma parts_exit_poll (st : State Srv (gmap pykey json)) :
  fst (SeedParts.wait_for_api 15 3 st) = Return false ->
  exit_status (fst (SeedParts.main st)) = 1.
Proof.
  intros Hpoll. unfold SeedParts.main. rewrite bind_run.
  destruct (SeedParts.wait_for_api 15 3 st) as [r st1].
  simpl in Hpoll. subst r. reflexivity.
Qed.

Lemma tenants_exit_poll user password tenants (st : State Srv json) :
  fst (SeedTenants.wait_attempts 12 (said "Waiting for InvenTree API..." st))
  = Return false ->
  exit_status (fst (SeedTenants.main user password tenants st)) = 1.
Proof.
  intros Hpoll. unfold SeedTenants.main, SeedTenants.run.
  rewrite bind_run. mstep. rewrite bind_run. unfold said in Hpoll.
  destruct (SeedTenants.wait_attempts 12 (mkState _ _ _ _)) as [r st1].
  simpl in Hpoll. subst r. reflexivity.
Qed.

Lemma tenants_exit_authentication user password tenants (st st1 st2 : State Srv json) :
  SeedTenants.wait_attempts 12 (said "Waiting for InvenTree API..." st)
  = (Return true, st1) ->
  SeedTenants.authenticate user password st1 = (Return false, st2) ->
  exit_status (fst (SeedTenants.main user password tenants st)) = 1.
Proof.
  intros Hpoll Hauth. unfold SeedTenants.main, SeedTenants.run.
  rewrite bind_run. mstep. unfold said in Hpoll.
  run_with Hpoll. run_with Hauth. reflexivity.
Qed.

Lemma tenants_exit_success user password tenants (st st1 : State Srv json) :
  SeedTenants.run user password tenants st = (Return true, st1) ->
  exit_status (fst (SeedTenants.main user password tenants st)) = 0.
Proof. intros Hrun. unfold SeedTenants.main. run_with Hrun. reflexivity. Qed.

Lemma categories_seed_true (st : State Srv unit) b st1 :
  SeedCategories.seed_categories st = (Return b, st1) -> b = true.
Proof.
  unfold SeedCategories.seed_categories. rewrite bind_run.
  destruct (SeedCategories.seed_each _ _ st) as [[created|e] st2]; [|discriminate].
  cbv beta iota. intros Hs. inversion Hs. reflexivity.
Qed.

(** The token request decides nothing: whatever it returns, the category
    script exits with 0 once the poll succeeded and the calls returned. *)
Lemma categories_exit_after_poll (st st1 st2 st3 : State Srv unit) token b :
  SeedCategories.wait_for_api 30 5 st = (Return true, st1) ->
  SeedCategories.get_api_token st1 = (Return token, st2) ->
  SeedCategories.seed_categories st2 = (Return b, st3) ->
  exit_status (fst (SeedCategories.main st)) = 0.
Proof.
  intros Hpoll Htoken Hseed. pose proof (categories_seed_true _ _ _ Hseed) as ->.
  unfold SeedCategories.main. run_with Hpoll. run_with Htoken. run_with Hseed.
  reflexivity.
Qed.

Lemma parts_exit_after_poll (st st1 st2 st3 st4 : State Srv (gmap pykey json)) token :
  SeedParts.wait_for_api 15 3 st = (Return true, st1) ->
  SeedParts.get_api_token st1 = (Return token, st2) ->
  SeedParts.load_categories st2 = (Return tt, st3) ->
  SeedParts.seed st3 = (Return tt, st4) ->
  exit_status (fst (SeedParts.main st)) = 0.
Proof.
  intros Hpoll Htoken Hload Hseed.
  unfold SeedParts.main. run_with Hpoll. run_with Htoken. run_with Hload.
  run_with Hseed. reflexivity.
Qed.

Lemma locations_exit_after_poll (st st1 st2 st3 : State Srv (gmap string json)) token b :
  SeedLocations.wait_for_api 30 5 st = (Return true, st1) ->
  SeedLocations.get_api_token st1 = (Return token, st2) ->
  SeedLocations.seed_warehouse st2 = (Return b, st3) ->
  exit_status (fst (SeedLocations.main st)) = (if b then 0 else 1).
Proof.
  intros Hpoll Htoken Hseed.
  unfold SeedLocations.main. run_with Hpoll. run_with Htoken. run_with Hseed.
  destruct b; reflexivity.
Qed.

End ExitCodes.

(** C7, as amended: every script exits with 1 when its readiness poll
    fails; the tenant script exits with 1 also when [authenticate]
    fails, and with 0 when [run] returns [True]; in the three other
    scripts the result of [get_api_token] decides nothing: once the poll
    succeeded and the calls returned, the category and the parts script
    exit with 0, and the warehouse script exits with 0 when
    [seed_warehouse] returns [True] and with 1 when it returns [False]. *)
Theorem exit_code_contract :
  forall (Srv : Type) (T : Transport Srv),
    (forall st : State Srv unit,
        fst (SeedCategories.wait_for_api 30 5 st) = Return false ->
        exit_status (fst (SeedCategories.main st)) = 1)
    /\ (forall st : State Srv (gmap string json),
        fst (SeedLocations.wait_for_api 30 5 st) = Return false ->
        exit_status (fst (SeedLocations.main st)) = 1)
    /\ (forall st : State Srv (gmap pykey json),
        fst (SeedParts.wait_for_api 15 3 st) = Return false ->
        exit_status (fst (SeedParts.main st)) = 1)
    /\ (forall user password tenants (st : State Srv json),
        fst (SeedTenants.wait_attempts 12 (said "Waiting for InvenTree API..." st))
        = Return false ->
        exit_status (fst (SeedTenants.main user password tenants st)) = 1)
    /\ (forall user password tenants (st st1 st2 : State Srv json),
        SeedTenants.wait_attempts 12 (said "Waiting for InvenTree API..." st)
        = (Return true, st1) ->
        SeedTenants.authenticate user password st1 = (Return false, st2) ->
        exit_status (fst (SeedTenants.main user password tenants st)) = 1)
    /\ (forall user password tenants (st st1 : State Srv json),
        SeedTenants.run user password tenants st = (Return true, st1) ->
        exit_status (fst (SeedTenants.main user password tenants st)) = 0)
    /\ (forall (st st1 st2 st3 : State Srv unit) token b,
        SeedCategories.wait_for_api 30 5 st = (Return true, st1) ->
        SeedCategories.get_api_token st1 = (Return token, st2) ->
        SeedCategories.seed_categories st2 = (Return b, st3) ->
        exit_status (fst (SeedCategories.main st)) = 0)
    /\ (forall (st st1 st2 st3 st4 : State Srv (gmap pykey json)) token,
        SeedParts.wait_for_api 15 3 st = (Return true, st1) ->
        SeedParts.get_api_token st1 = (Return token, st2) ->
        SeedParts.load_categories st2 = (Return tt, st3) ->
        SeedParts.seed st3 = (Return tt, st4) ->
        exit_status (fst (SeedParts.main st)) = 0)
    /\ (forall (st st1 st2 st3 : State Srv (gmap string json)) token b,
        SeedLocations.wait_for_api 30 5 st = (Return true, st1) ->
        SeedLocations.get_api_token st1 = (Return token, st2) ->
        SeedLocations.seed_warehouse st2 = (Return b, st3) ->
        exit_status (fst (SeedLocations.main st)) = (if b then 0 else 1)).
Proof.
  intros Srv T. repeat split.
  - apply categories_exit_poll.
  - apply locations_exit_poll.
  - apply parts_exit_poll.
  - apply tenants_exit_poll.
  - apply tenants_exit_authentication.
  - apply tenants_exit_success.
  - apply categories_exit_after_poll.
  - apply parts_exit_after_poll.
  - apply locations_exit_after_poll.
Qed.

Lemma exit_code_contract_witness :
  exit_status (fst (SeedCategories.main (SeedCategories.CategorySeeder down "admin" "admin123"))) = 1
  /\ exit_status (fst (SeedLocations.main (SeedLocations.InvenTreeSeeder down "admin" "admin123"))) = 1
  /\ exit_status (fst (SeedParts.main (SeedParts.PartsSeeder down "admin" "admin123"))) = 1
  /\ exit_status (fst (SeedTenants.main "admin" "admin123" JNull (SeedTenants.TenantSeeder down))) = 1
  /\ exit_status (fst (SeedTenants.main "admin" "wrong" JNull
                         (SeedTenants.TenantSeeder wrong_credentials))) = 1
  /\ exit_status (fst (SeedTenants.main "admin" "admin123" JNull
                         (SeedTenants.TenantSeeder Remote.empty))) = 0
  /\ exit_status (fst (SeedCategories.main
                         (SeedCategories.CategorySeeder wrong_credentials "admin" "wrong"))) = 0
  /\ exit_status (fst (SeedParts.main
                         (SeedParts.PartsSeeder wrong_credentials "admin" "wrong"))) = 0
  /\ exit_status (fst (SeedLocations.main
                         (SeedLocations.InvenTreeSeeder wrong_credentials "admin" "wrong"))) = 1.
Proof.
  destruct (exit_code_contract (list Outcome) Scripted.scripted)
    as (Hc & Hl & Hp & Ht & _).
  destruct (exit_code_contract (Request -> Outcome) Stateless.stateless)
    as (_ & _ & _ & _ & Hauth & _ & Hcat & Hparts & Hloc).
  destruct (exit_code_contract Remote.Server Remote.remote_transport)
    as (_ & _ & _ & _ & _ & Hok & _).
  refine (conj _ (conj _ (conj _ (conj _ (conj _ (conj _ (conj _ (conj _ _)))))))).
  - apply Hc. vm_compute. reflexivity.
  - apply Hl. vm_compute. reflexivity.
  - apply Hp. vm_compute. reflexivity.
  - apply Ht. vm_compute. reflexivity.
  - pose (st := SeedTenants.TenantSeeder wrong_credentials).
    pose (st1 := snd (SeedTenants.wait_attempts 12 (said "Waiting for InvenTree API..." st))).
    pose (st2 := snd (SeedTenants.authenticate "admin" "wrong" st1)).
    apply (Hauth "admin" "wrong" JNull st st1 st2); vm_compute; reflexivity.
  - pose (st := SeedTenants.TenantSeeder Remote.empty).
    apply (Hok "admin" "admin123" JNull st
             (snd (SeedTenants.run "admin" "admin123" JNull st)));
      vm_compute; reflexivity.
  - pose (st := SeedCategories.CategorySeeder wrong_credentials "admin" "wrong").
    pose (st1 := snd (SeedCategories.wait_for_api 30 5 st)).
    pose (st2 := snd (SeedCategories.get_api_token st1)).
    pose (st3 := snd (SeedCategories.seed_categories st2)).
    eapply (Hcat st st1 st2 st3); vm_compute; reflexivity.
  - pose (st := SeedParts.PartsSeeder wrong_credentials "admin" "wrong").
    pose (st1 := snd (SeedParts.wait_for_api 15 3 st)).
    pose (st2 := snd (SeedParts.get_api_token st1)).
    pose (st3 := snd (SeedParts.load_categories st2)).
    pose (st4 := snd (SeedParts.seed st3)).
    eapply (Hparts st st1 st2 st3 st4); vm_compute; reflexivity.
  - pose (st := SeedLocations.InvenTreeSeeder wrong_credentials "admin" "wrong").
    pose (st1 := snd (SeedLocations.wait_for_api 30 5 st)).
    pose (st2 := snd (SeedLocations.get_api_token st1)).
    pose (st3 := snd (SeedLocations.seed_warehouse st2)).
    eapply (Hloc st st1 st2 st3 _ false); vm_compute; reflexivity.
Defined.

(** C7 fails as stated: against a remote that is ready and rejects the
    credentials (401 on every request but the probe), the category
    script gets no token, has every creation rejected, and exits
    with 0. *)
Lemma rejected_credentials_exit_0 :
  let st := SeedCategories.CategorySeeder wrong_credentials "admin" "wrong" in
  exit_status (fst (SeedCategories.main st)) = 0
  /\ Forall (fun r => url r = "/"
                      \/ exists resp, wrong_credentials r = Answer resp
                                      /\ status_code resp = 401)
            (sent (trace (snd (SeedCategories.main st))))
  /\ session (snd (SeedCategories.main st)) = mkAuth (Some ("admin", "wrong")) None.
Proof.
  vm_compute. split; [reflexivity|]. split; [|reflexivity].
  repeat (apply Forall_cons_2;
            [first [left; reflexivity | right; eexists; split; reflexivity]|]).
  apply Forall_nil_2.
Qed.

(** ** Seeding against a remote that refuses every creation *)

Section NeverFalse.
Context {Srv Obj : Type}.

(** A sequence whose continuation never returns [False] never does. *)
Lemma bind_never_false {A} (c : M Srv Obj A) (k : A -> M Srv Obj bool) st :
  (forall a st', fst (k a st') <> Return false) ->
  fst (bind c k st) <> Return false.
Proof.
  intros Hk. rewrite bind_run. destruct (c st) as [[a|e] st']; [apply Hk|discriminate].
Qed.

End NeverFalse.

Section Refusing.
Context {Srv : Type} `{Transport Srv}.
Context (R : Srv -> Prop) (HR : refusing R).

Lemma post_refused {Obj} u body (st : State Srv Obj) :
  R (remote st) -> In u collections ->
  exists resp st',
    session_post u body st = (Return resp, st')
    /\ refused resp /\ R (remote st')
    /\ session st' = session st /\ self st' = self st
    /\ trace st' = trace st ++ [Sent (creation u body (session st))].
Proof.
  intros HRst Hu. unfold session_post, request, creation.
  destruct (HR (mkRequest POST u [] (Some body) (session st)) (remote st) HRst)
    as [Hkeep Hans].
  destruct (Hans Hu) as (resp & Hresp & Href). simpl in Href.
  destruct (send _ (remote st)) as [o srv']. simpl in *. subst o.
  exists resp. eexists. split; [reflexivity|]. simpl. auto.
Qed.

Lemma get_nothing_found {Obj} u ps (st : State Srv Obj) :
  R (remote st) -> In u collections ->
  exists resp st',
    session_get u ps st = (Return resp, st')
    /\ nothing_found resp /\ R (remote st')
    /\ session st' = session st /\ self st' = self st
    /\ trace st' = trace st ++ [Sent (mkRequest GET u ps None (session st))].
Proof.
  intros HRst Hu. unfold session_get, request.
  destruct (HR (mkRequest GET u ps None (session st)) (remote st) HRst)
    as [Hkeep Hans].
  destruct (Hans Hu) as (resp & Hresp & Href). simpl in Href.
  destruct (send _ (remote st)) as [o srv']. simpl in *. subst o.
  exists resp. eexists. split; [reflexivity|]. simpl. auto.
Qed.

Lemma create_category_refused name description (st : State Srv unit) :
  R (remote st) ->
  exists st', SeedCategories.create_category name description st = (Return JNull, st')
              /\ R (remote st').
Proof.
  intros HRst. unfold SeedCategories.create_category.
  destruct (post_refused "/part/category/"
              (JDict [("name", JStr name); ("description", JStr description)]) st HRst)
    as (resp & st' & Hpost & (H200 & H201 & H400) & HR' & _);
    [simpl; auto|].
  rewrite bind_run, Hpost. cbv beta iota.
  apply Z.eqb_neq in H201, H400. rewrite H201, H400.
  eexists. split; [reflexivity|]. exact HR'.
Qed.

Lemma seed_each_refused cats created (st : State Srv unit) :
  R (remote st) ->
  exists st', SeedCategories.seed_each cats created st = (Return created, st')
              /\ R (remote st').
Proof.
  revert created st. induction cats as [|[name description] cats IH]; intros created st HRst.
  - exists st. split; [reflexivity | exact HRst].
  - destruct (create_category_refused name description st HRst) as (st1 & Hc & HR1).
    simpl SeedCategories.seed_each. rewrite bind_run, Hc. cbv beta iota.
    simpl truthy. cbv iota. apply IH, HR1.
Qed.

End Refusing.

Lemma read_only_refusing : refusing ReadOnly.bare.
Proof.
  intros [m u ps body a] [[db nx]] Hbare. unfold ReadOnly.bare in *.
  simpl in Hbare. subst db.
  unfold send, ReadOnly.read_only_transport, ReadOnly.handle, Remote.handle,
    Remote.select, collections, is_post.
  cbn [meth url params payload ReadOnly.store Remote.db].
  split.
  - destruct m, (Remote.kind_of_url u); cbn; try reflexivity;
      repeat (destruct (String.eqb u _); cbn; try reflexivity).
  - intros Hu. cbn in Hu.
    destruct Hu as [<-|[<-|[<-|[<-|[]]]]]; destruct m; cbn;
      eexists; (split; [reflexivity|]);
      first [ right; reflexivity | repeat split; discriminate ].
Qed.



(** ** The tenant script against a remote that refuses every creation *)

Section Moved.
Context {Srv Obj : Type} (R : Srv -> Prop).
Implicit Types st : State Srv Obj.

Lemma moved_refl st : R (remote st) -> moved R 0 st st.
Proof. intros HR. repeat split; auto. Qed.

Lemma moved_trans n m st st1 st2 :
  moved R n st st1 -> moved R m st1 st2 -> moved R (n + m) st st2.
Proof.
  intros (_ & Hs1 & Ho1 & Hn1) (HR2 & Hs2 & Ho2 & Hn2).
  repeat split; [exact HR2|congruence|congruence|].
  rewrite Hn2, Hn1. apply eq_sym, Nat.add_assoc.
Qed.

Lemma moved_said n s st st1 : moved R n st st1 -> moved R n st (said s st1).
Proof.
  intros (HR1 & Hs1 & Ho1 & Hn1). repeat split; auto.
  unfold said. simpl. rewrite sent_app, app_nil_r. exact Hn1.
Qed.

Lemma moved_within n st st1 : moved R n st st1 -> R (remote st1).
Proof. intros (HR1 & _). exact HR1. Qed.

Lemma for_each_moved {A} (l : list A) (body : A -> M Srv Obj unit) st :
  R (remote st) ->
  (forall x st0, In x l -> R (remote st0) ->
     exists st1, body x st0 = (Return tt, st1) /\ moved R 0 st0 st1) ->
  exists st', for_each l body st = (Return tt, st') /\ moved R 0 st st'.
Proof.
  revert st. induction l as [|x l IH]; intros st HRst Hbody.
  - exists st. split; [reflexivity | apply moved_refl, HRst].
  - destruct (Hbody x st (or_introl eq_refl) HRst) as (st1 & Hx & Hm1).
    destruct (IH st1 (moved_within _ _ _ Hm1)) as (st2 & Hl & Hm2).
    { intros y st0 Hy. apply Hbody. right. exact Hy. }
    exists st2. split.
    + simpl for_each. rewrite bind_run, Hx. exact Hl.
    + apply (moved_trans 0 0 _ _ _ Hm1 Hm2).
Qed.

End Moved.

Section RefusedTenant.
Context {Srv : Type} `{Transport Srv}.
Context (R : Srv -> Prop) (HR : refusing R).
Implicit Types st : State Srv json.

Lemma post_moved u body st :
  R (remote st) -> In u collections ->
  exists resp st',
    session_post u body st = (Return resp, st') /\ refused resp /\ moved R 1 st st'.
Proof.
  intros HRst Hu.
  destruct (post_refused R HR u body st HRst Hu)
    as (resp & st' & Hp & Href & HR' & Hs & Ho & Ht).
  exists resp, st'. repeat split; auto; try apply Href.
  rewrite Ht, sent_app, length_app. reflexivity.
Qed.

Lemma get_moved u ps st :
  R (remote st) -> In u collections ->
  exists resp st',
    session_get u ps st = (Return resp, st') /\ nothing_found resp /\ moved R 1 st st'.
Proof.
  intros HRst Hu.
  destruct (get_nothing_found R HR u ps st HRst Hu)
    as (resp & st' & Hp & Href & HR' & Hs & Ho & Ht).
  exists resp, st'. repeat split; auto.
  rewrite Ht, sent_app, length_app. reflexivity.
Qed.

Lemma lookup_named_nothing_found what resp name st :
  nothing_found resp ->
  SeedTenants.lookup_named what resp name st = (Return None, st).
Proof.
  intros Hnf. unfold SeedTenants.lookup_named.
  destruct (status_code resp =? 200) eqn:E; [|reflexivity].
  destruct Hnf as [Hne|Hbody].
  - apply Z.eqb_eq in E. contradiction.
  - unfold response_json. rewrite Hbody. reflexivity.
Qed.

Lemma get_or_create_group_refused name st :
  R (remote st) ->
  exists st', SeedTenants.get_or_create_group name st = (Return JNull, st')
              /\ moved R 2 st st'.
Proof.
  intros HRst. unfold SeedTenants.get_or_create_group.
  destruct (get_moved "/user/group/" [("name", JStr name)] st HRst)
    as (resp & st1 & Hg & Hnf & Hm1); [simpl; auto|].
  rewrite bind_run, Hg. cbv beta iota.
  rewrite bind_run, lookup_named_nothing_found by exact Hnf. cbv beta iota.
  destruct (post_moved "/user/group/" (JDict [("name", JStr name)]) st1
              (moved_within _ _ _ _ Hm1))
    as (resp2 & st2 & Hp & (H200 & H201 & _) & Hm2); [simpl; auto|].
  rewrite bind_run, Hp. cbv beta iota.
  apply Z.eqb_neq in H200, H201. rewrite H200, H201. cbv beta iota delta [orb].
  eexists. split; [reflexivity|].
  apply moved_said. apply (moved_trans _ 1 1 _ _ _ Hm1 Hm2).
Qed.

Lemma get_or_create_location_refused name description parent st :
  R (remote st) ->
  exists st',
    SeedTenants.get_or_create_location name description parent st = (Return JNull, st')
    /\ moved R 2 st st'.
Proof.
  intros HRst. unfold SeedTenants.get_or_create_location.
  destruct (get_moved "/stock/location/"
              ([("name", JStr name)] ++ (if truthy parent then [("parent", parent)] else []))
              st HRst)
    as (resp & st1 & Hg & Hnf & Hm1); [simpl; auto|].
  rewrite bind_run, Hg. cbv beta iota.
  rewrite bind_run, lookup_named_nothing_found by exact Hnf. cbv beta iota.
  destruct (post_moved "/stock/location/"
              (JDict ([("name", JStr name); ("description", description)]
                      ++ (if truthy parent then [("parent", parent)] else [])))
              st1 (moved_within _ _ _ _ Hm1))
    as (resp2 & st2 & Hp & (H200 & H201 & _) & Hm2); [simpl; auto|].
  rewrite bind_run, Hp. cbv beta iota.
  apply Z.eqb_neq in H200, H201. rewrite H200, H201. cbv beta iota delta [orb].
  eexists. split; [reflexivity|].
  apply moved_said. apply (moved_trans _ 1 1 _ _ _ Hm1 Hm2).
Qed.

Lemma user_note_moved user st :
  R (remote st) -> valid_user user = true ->
  exists st',
    (let* username := getitem user "username" in
     let* email := getitem user "email" in
     print ("createsuperuser --username " ++ str username
            ++ " --email " ++ str email)) st = (Return tt, st')
    /\ moved R 0 st st'.
Proof.
  intros HRst Hv. destruct user as [| | | | |d]; try discriminate.
  simpl in Hv. apply andb_prop in Hv as [Hu He].
  apply bool_decide_eq_true in Hu as [username Hu], He as [email He].
  unfold getitem. rewrite Hu, He.
  eexists. split; [reflexivity|]. apply moved_said, moved_refl, HRst.
Qed.

Lemma seed_tenant_refused tenant st :
  R (remote st) -> valid_tenant tenant = true ->
  exists st', SeedTenants.seed_tenant tenant st = (Return true, st')
              /\ moved R 4 st st'.
Proof.
  intros HRst Hv. destruct tenant as [| | | | |d]; try discriminate.
  simpl in Hv. destruct (assoc "name" d) as [[| | |n| |]|] eqn:Hname; try discriminate.
  unfold SeedTenants.seed_tenant.
  rewrite bind_run. unfold getitem at 1. rewrite Hname. cbv beta iota delta [ret].
  do 4 mstep. rewrite bind_run.
  match goal with |- context [SeedTenants.get_or_create_group ?g ?s0] =>
    assert (Hm0 : moved R 0 st s0) by (apply (moved_said R 0 _ st), moved_refl, HRst);
    destruct (get_or_create_group_refused g s0 (moved_within _ _ _ _ Hm0))
      as (st1 & Hg & Hm1)
  end.
  rewrite Hg. cbv beta iota. rewrite bind_run.
  match goal with |- context [SeedTenants.get_or_create_location ?a ?b ?c st1] =>
    destruct (get_or_create_location_refused a b c st1 (moved_within _ _ _ _ Hm1))
      as (st2 & Hl & Hm2)
  end.
  rewrite Hl. cbv beta iota.
  assert (Hm : moved R 4 st st2).
  { apply (moved_trans _ 0 4 _ _ _ Hm0), (moved_trans _ 2 2 _ _ _ Hm1 Hm2). }
  clear Hg Hl Hm1 Hm2.
  simpl truthy. cbv iota. do 2 mstep.
  destruct (assoc "users" d) as [users|].
  - destruct (truthy users) eqn:Hu.
    + destruct users as [| | | |us|]; try discriminate.
      destruct (for_each_moved R us
                  (fun user =>
                     let* username := getitem user "username" in
                     let* email := getitem user "email" in
                     print ("createsuperuser --username " ++ str username
                            ++ " --email " ++ str email))
                  (said "To create tenant users, use InvenTree admin panel or run:" st2))
        as (st3 & Hloop & Hm3).
      { apply Hm. }
      { intros user st0 Hin HR0. apply user_note_moved; [exact HR0|].
        rewrite forallb_forall in Hv. apply Hv, Hin. }
      erewrite bind_return; [|mstep; mstep; exact Hloop].
      eexists. split; [reflexivity|].
      apply (moved_trans _ 4 0 _ _ _ (moved_said R 4 _ _ _ Hm) Hm3).
    + mstep. eexists. split; [reflexivity | exact Hm].
  - simpl truthy. cbv iota. mstep. eexists. split; [reflexivity | exact Hm].
Qed.

End RefusedTenant.

(** X2: [seed_tenant] reports success whatever happened: it never returns
    [False], and for a tenant description it can read, against a remote
    that refuses every creation, it returns [True] after four requests:
    the lookup and the creation of the group and of the tenant's
    warehouse, and nothing for the sublocations. *)
Theorem seed_tenant_reports_success :
  forall (Srv : Type) (T : Transport Srv),
    (forall tenant (st : State Srv json),
        fst (SeedTenants.seed_tenant tenant st) <> Return false)
    /\ (forall (R : Srv -> Prop) tenant (st : State Srv json),
           refusing R -> R (remote st) -> valid_tenant tenant = true ->
           exists st',
             SeedTenants.seed_tenant tenant st = (Return true, st')
             /\ moved R 4 st st').
Proof.
  intros Srv T. split.
  - intros tenant st. unfold SeedTenants.seed_tenant.
    repeat (apply bind_never_false; intros). discriminate.
  - intros R tenant st HR HRst Hv. apply seed_tenant_refused; assumption.
Qed.

Lemma seed_tenant_reports_success_witness :
  exists st',
    SeedTenants.seed_tenant
      (JDict [("name", JStr "demo"); ("display_name", JStr "Demo Tenant");
              ("users", JList [JDict [("username", JStr "demo_user");
                                      ("email", JStr "demo@inventory.local")]])])
      (SeedTenants.TenantSeeder ReadOnly.empty)
    = (Return true, st')
    /\ moved ReadOnly.bare 4 (SeedTenants.TenantSeeder ReadOnly.empty) st'.
Proof.
  apply (proj2 (seed_tenant_reports_success ReadOnly.Server
                  ReadOnly.read_only_transport) ReadOnly.bare).
  - exact read_only_refusing.
  - reflexivity.
  - reflexivity.
Defined.

(** ** Authentication *)

Section Authentication.
Context {Srv : Type} `{Transport Srv}.

(** X3: [authenticate] never raises: whatever the remote answers, or if
    nothing answers, it returns a boolean after one or two requests, and
    when it returns [False] the session is left with the basic
    credentials set. *)
Theorem authenticate_never_raises user password (st : State Srv json) :
  exists b st',
    SeedTenants.authenticate user password st = (Return b, st')
    /\ (1 <= length (sent (trace st')) - length (sent (trace st)) <= 2)%nat
    /\ (b = false -> basic (session st') = Some (user, password)).
Proof.
  unfold SeedTenants.authenticate. run_monad.
  repeat match goal with
         | |- context [send ?r ?s] => destruct (send r s) as [[?|] ?]; run_monad
         | |- context [if ?b then _ else _] => destruct b eqn:?; run_monad
         | |- context [match json_body ?r with _ => _ end] =>
             destruct (json_body r) as [[]|]; run_monad
         end;
    (eexists; eexists; split; [reflexivity|]; simpl;
     rewrite ?sent_app, ?length_app; simpl; split; [lia | intros; done]).
Qed.

(** X4: [authenticate] does not check that the answer holds a token: a
    200 answer to the token request whose body is a dict without
    ["token"] makes it return [True], with the token [None] and the
    header ["Token None"] on the session, after that single request. *)
Theorem authenticate_accepts_missing_token user password (st : State Srv json)
    resp srv' d :
  send (creation "/user/token/"
          (JDict [("username", JStr user); ("password", JStr password)]) (session st))
       (remote st) = (Answer resp, srv') ->
  status_code resp = 200 ->
  json_body resp = Some (JDict d) ->
  assoc "token" d = None ->
  exists st',
    SeedTenants.authenticate user password st = (Return true, st')
    /\ self st' = JNull
    /\ authorization (session st') = Some "Token None"
    /\ length (sent (trace st')) = S (length (sent (trace st))).
Proof.
  intros Hsend Hstatus Hbody Htoken.
  unfold SeedTenants.authenticate, creation in *. run_monad.
  rewrite Hsend, Hstatus. run_monad. rewrite Hbody. run_monad. rewrite Htoken.
  eexists. split; [reflexivity|]. simpl.
  rewrite !sent_app, !length_app. simpl. repeat split. lia.
Qed.

End Authentication.

Lemma authenticate_accepts_missing_token_witness :
  exists st',
    SeedTenants.authenticate "admin" "admin123"
      (SeedTenants.TenantSeeder
         (fun _ : Request => Answer (mkResponse 200 (Some (JDict [])) "")))
    = (Return true, st')
    /\ self st' = JNull
    /\ authorization (session st') = Some "Token None"
    /\ length (sent (trace st')) = 1%nat.
Proof.
  apply (authenticate_accepts_missing_token (H := Stateless.stateless)
           "admin" "admin123"
           (SeedTenants.TenantSeeder
              (fun _ : Request => Answer (mkResponse 200 (Some (JDict [])) "")))
           (mkResponse 200 (Some (JDict [])) "")
           (fun _ : Request => Answer (mkResponse 200 (Some (JDict [])) "")) []);
    reflexivity.
Defined.


(** ** The token request of the three class-based scripts *)

Ltac token_cases :=
  run_monad;
  repeat match goal with
         | |- context [send ?r ?s] => destruct (send r s) as [[?|] ?]; run_monad
         | |- context [if ?b then _ else _] => destruct b eqn:?; run_monad
         | |- context [match json_body ?r with _ => _ end] =>
             destruct (json_body r) as [[]|]; run_monad
         end;
  intros Hrun; inversion Hrun; subst; simpl;
  rewrite ?sent_app, ?length_app; simpl;
  (split; [reflexivity|]); (split; [lia|]);
  first [ right; split; reflexivity
        | left; split; [assumption | reflexivity] ].

(** X5: when [get_api_token] returns, it has sent one request and kept the
    basic credentials; either it returns a truthy token and has put
    ["Token <token>"] in the session's [Authorization] header, or it
    returns [None] and has left the session as it was: a 200 answer
    without a token is not an error. *)
Theorem get_api_token_installs_token :
  forall (Srv : Type) (T : Transport Srv),
    (forall (st st' : State Srv unit) token,
        SeedCategories.get_api_token st = (Return token, st') ->
        basic (session st') = basic (session st)
        /\ length (sent (trace st')) = S (length (sent (trace st)))
        /\ (truthy token = true
            /\ authorization (session st') = Some ("Token " ++ str token)%string
            \/ token = JNull /\ session st' = session st))
    /\ (forall (st st' : State Srv (gmap string json)) token,
        SeedLocations.get_api_token st = (Return token, st') ->
        basic (session st') = basic (session st)
        /\ length (sent (trace st')) = S (length (sent (trace st)))
        /\ (truthy token = true
            /\ authorization (session st') = Some ("Token " ++ str token)%string
            \/ token = JNull /\ session st' = session st))
    /\ (forall (st st' : State Srv (gmap pykey json)) token,
        SeedParts.get_api_token st = (Return token, st') ->
        basic (session st') = basic (session st)
        /\ length (sent (trace st')) = S (length (sent (trace st)))
        /\ (truthy token = true
            /\ authorization (session st') = Some ("Token " ++ str token)%string
            \/ token = JNull /\ session st' = session st)).
Proof.
  intros Srv T. split; [|split]; intros st st' token.
  - unfold SeedCategories.get_api_token. token_cases.
  - unfold SeedLocations.get_api_token. token_cases.
  - unfold SeedParts.get_api_token. token_cases.
Qed.

Lemma get_api_token_installs_token_witness :
  basic (session (snd (SeedCategories.get_api_token
                         (SeedCategories.CategorySeeder Remote.empty "admin" "admin123"))))
  = Some ("admin", "admin123")
  /\ authorization (session (snd (SeedCategories.get_api_token
                         (SeedCategories.CategorySeeder Remote.empty "admin" "admin123"))))
     = Some "Token inventree-token".
Proof.
  destruct (proj1 (get_api_token_installs_token Remote.Server Remote.remote_transport)
              (SeedCategories.CategorySeeder Remote.empty "admin" "admin123")
              (snd (SeedCategories.get_api_token
                      (SeedCategories.CategorySeeder Remote.empty "admin" "admin123")))
              (JStr "inventree-token"))
    as (Hbasic & _ & [[_ Hauth]|[Hnone _]]).
  - vm_compute. reflexivity.
  - split; [exact Hbasic | exact Hauth].
  - discriminate Hnone.
Defined.

(** ** The warehouse script against a remote that refuses every creation *)

Section RefusedWarehouse.
Context {Srv : Type} `{Transport Srv}.
Context (R : Srv -> Prop) (HR : refusing R).
Implicit Types st : State Srv (gmap string json).

Lemma create_location_refused name description parent_id st :
  R (remote st) ->
  exists st',
    SeedLocations.create_location name description parent_id st = (Return JNull, st')
    /\ moved R 1 st st'.
Proof.
  intros HRst. unfold SeedLocations.create_location.
  destruct (post_refused R HR "/stock/location/"
              (SeedLocations.location_payload name description parent_id) st HRst)
    as (resp & st1 & Hp & (H200 & H201 & H400) & HR1 & Hs & Ho & Ht); [simpl; auto|].
  rewrite bind_run, Hp. cbv beta iota.
  apply Z.eqb_neq in H201, H400. rewrite H201, H400.
  eexists. split; [reflexivity|].
  apply moved_said. repeat split; auto.
  rewrite Ht, sent_app, length_app. reflexivity.
Qed.

Lemma seed_warehouse_refused st :
  R (remote st) ->
  exists st', SeedLocations.seed_warehouse st = (Return false, st') /\ moved R 1 st st'.
Proof.
  intros HRst. unfold SeedLocations.seed_warehouse. mstep. rewrite bind_run.
  match goal with |- context [SeedLocations.create_location ?a ?b ?c ?s0] =>
    assert (Hm0 : moved R 0 st s0) by (apply (moved_said R 0 _ st), moved_refl, HRst);
    destruct (create_location_refused a b c s0 (moved_within _ _ _ _ Hm0))
      as (st1 & Hc & Hm1)
  end.
  rewrite Hc. cbv beta iota. simpl truthy. cbv beta iota delta [negb].
  eexists. split; [reflexivity|].
  apply moved_said, (moved_trans _ 0 1 _ _ _ Hm0 Hm1).
Qed.

End RefusedWarehouse.



(** ** Conflicts the warehouse script does not recognise *)

Section UniqueConflict.
Context {Srv : Type} `{Transport Srv}.


End UniqueConflict.


(** ** The caches only grow *)

Section CacheKeys.
Context {Srv K V : Type} `{Countable K} `{Transport Srv}.
#[local] Abbreviation Cache := (gmap K V).
Implicit Types st : State Srv Cache.

Lemma keys_kept_same st st' : self st' = self st -> keys_kept st st'.
Proof. intros Hs k. rewrite Hs. auto. Qed.

Lemma keys_kept_trans st st1 st2 :
  keys_kept st st1 -> keys_kept st1 st2 -> keys_kept st st2.
Proof. intros H1 H2 k Hk. apply H2, H1, Hk. Qed.

Lemma keeps_ret {A} (a : A) : keeps keys_kept (ret (Srv := Srv) (Obj := Cache) a).
Proof. intros st. apply keys_kept_same. reflexivity. Qed.

Lemma keeps_raise {A} e : keeps keys_kept (raise (Srv := Srv) (Obj := Cache) (A := A) e).
Proof. intros st. apply keys_kept_same. reflexivity. Qed.

Lemma keeps_bind {A B} (c : M Srv Cache A) (k : A -> M Srv Cache B) :
  keeps keys_kept c -> (forall a, keeps keys_kept (k a)) -> keeps keys_kept (bind c k).
Proof.
  intros Hc Hk st. unfold bind. specialize (Hc st).
  destruct (c st) as [[a|e] st1]; simpl in *; [|exact Hc].
  apply keys_kept_trans with st1; [exact Hc | apply Hk].
Qed.

Lemma keeps_try_except {A} (c : M Srv Cache A) caught handler :
  keeps keys_kept c -> keeps keys_kept handler ->
  keeps keys_kept (try_except c caught handler).
Proof.
  intros Hc Hh st. unfold try_except. specialize (Hc st).
  destruct (c st) as [[a|e] st1]; simpl in *; [exact Hc|].
  destruct (caught e); [|exact Hc].
  apply keys_kept_trans with st1; [exact Hc | apply Hh].
Qed.

Lemma keeps_for_each {A} (l : list A) (body : A -> M Srv Cache unit) :
  (forall x, keeps keys_kept (body x)) -> keeps keys_kept (for_each l body).
Proof.
  intros Hbody. induction l as [|x l IH]; simpl.
  - apply keeps_ret.
  - apply keeps_bind; [apply Hbody | intros _; exact IH].
Qed.

Lemma keeps_emit e : keeps keys_kept (emit (Srv := Srv) (Obj := Cache) e).
Proof. intros st. apply keys_kept_same. reflexivity. Qed.

Lemma keeps_print s : keeps keys_kept (print (Srv := Srv) (Obj := Cache) s).
Proof. apply keeps_emit. Qed.

Lemma keeps_sleep d : keeps keys_kept (sleep (Srv := Srv) (Obj := Cache) d).
Proof. apply keeps_emit. Qed.

Lemma keeps_get_self : keeps keys_kept (get_self (Srv := Srv) (Obj := Cache)).
Proof. intros st. apply keys_kept_same. reflexivity. Qed.

Lemma keeps_set_authorization h :
  keeps keys_kept (set_authorization (Srv := Srv) (Obj := Cache) h).
Proof. intros st. apply keys_kept_same. reflexivity. Qed.

Lemma keeps_request m u ps body :
  keeps keys_kept (request (Srv := Srv) (Obj := Cache) m u ps body).
Proof.
  intros st. unfold request. destruct (send _ (remote st)) as [[resp|] srv'];
    apply keys_kept_same; reflexivity.
Qed.

Lemma keeps_session_get u ps :
  keeps keys_kept (session_get (Srv := Srv) (Obj := Cache) u ps).
Proof. apply keeps_request. Qed.

Lemma keeps_session_post u body :
  keeps keys_kept (session_post (Srv := Srv) (Obj := Cache) u body).
Proof. apply keeps_request. Qed.

Lemma keeps_response_json r :
  keeps keys_kept (response_json (Srv := Srv) (Obj := Cache) r).
Proof. unfold response_json. destruct (json_body r); [apply keeps_ret | apply keeps_raise]. Qed.

Lemma keeps_getitem v k : keeps keys_kept (getitem (Srv := Srv) (Obj := Cache) v k).
Proof.
  unfold getitem. destruct v as [| | | | |d]; try apply keeps_raise.
  destruct (assoc k d); [apply keeps_ret | apply keeps_raise].
Qed.

Lemma keeps_getitem0 v : keeps keys_kept (getitem0 (Srv := Srv) (Obj := Cache) v).
Proof.
  unfold getitem0. destruct v as [| | |[|]|[|]|]; first [apply keeps_raise | apply keeps_ret].
Qed.

Lemma keeps_dict_get v k d : keeps keys_kept (dict_get (Srv := Srv) (Obj := Cache) v k d).
Proof. unfold dict_get. destruct v; first [apply keeps_raise | apply keeps_ret]. Qed.

Lemma keeps_py_iter v : keeps keys_kept (py_iter (Srv := Srv) (Obj := Cache) v).
Proof. unfold py_iter. destruct v; first [apply keeps_raise | apply keeps_ret]. Qed.

(** [cache[k] = v] keeps every key. *)
Lemma keeps_insert (k : K) (v : V) :
  keeps keys_kept
    (bind (get_self (Srv := Srv) (Obj := Cache)) (fun cache => set_self (<[k := v]> cache))).
Proof.
  intros st k' Hk'. simpl. destruct (decide (k = k')) as [->|Hne].
  - rewrite lookup_insert_eq. eauto.
  - rewrite lookup_insert_ne by exact Hne. exact Hk'.
Qed.

End CacheKeys.

Create HintDb keeps.

#[local] Hint Resolve keeps_ret keeps_raise keeps_print keeps_sleep keeps_get_self
  keeps_set_authorization keeps_session_get keeps_session_post keeps_response_json
  keeps_getitem keeps_getitem0 keeps_dict_get keeps_py_iter keeps_insert : keeps.

(** Goes through a computation, one construct at a time. *)
Ltac keeps_through :=
  repeat first
    [ solve [auto with keeps]
    | apply keeps_bind; [|intros]
    | apply keeps_try_except
    | apply keeps_for_each; intros
    | match goal with
      | |- keeps _ (if ?b then _ else _) => destruct b
      | |- keeps _ (match ?x with _ => _ end) => destruct x
      end ].

Section WarehouseCache.
Context {Srv : Type} `{Transport Srv}.
#[local] Abbreviation LM := (M Srv (gmap string json)).

Lemma keeps_cache_location name pk :
  keeps keys_kept (SeedLocations.cache_location name pk : LM unit).
Proof. unfold SeedLocations.cache_location. apply keeps_insert. Qed.

Lemma keeps_get_existing_location name :
  keeps keys_kept (SeedLocations._get_existing_location name : LM json).
Proof.
  pose proof keeps_cache_location.
  unfold SeedLocations._get_existing_location. keeps_through.
Qed.

Lemma keeps_create_location name description parent_id :
  keeps keys_kept (SeedLocations.create_location name description parent_id : LM json).
Proof.
  pose proof keeps_cache_location. pose proof keeps_get_existing_location.
  unfold SeedLocations.create_location. keeps_through.
Qed.

Lemma keeps_seed_shelf zone col ps column_id level :
  keeps keys_kept (SeedLocations.seed_shelf zone col ps column_id level : LM unit).
Proof.
  pose proof keeps_create_location.
  unfold SeedLocations.seed_shelf. keeps_through.
Qed.

Lemma keeps_seed_column zone zone_id col :
  keeps keys_kept (SeedLocations.seed_column zone zone_id col : LM unit).
Proof.
  pose proof keeps_create_location. pose proof keeps_seed_shelf.
  unfold SeedLocations.seed_column. keeps_through.
Qed.

Lemma keeps_seed_zone warehouse_id zone :
  keeps keys_kept (SeedLocations.seed_zone warehouse_id zone : LM unit).
Proof.
  pose proof keeps_create_location. pose proof keeps_seed_column.
  unfold SeedLocations.seed_zone. keeps_through.
Qed.

Lemma keeps_seed_warehouse : keeps keys_kept (SeedLocations.seed_warehouse : LM bool).
Proof.
  pose proof keeps_create_location. pose proof keeps_seed_zone.
  unfold SeedLocations.seed_warehouse. keeps_through.
Qed.

Lemma keeps_locations_wait_attempts todo attempt max_retries delay :
  keeps keys_kept (SeedLocations.wait_attempts todo attempt max_retries delay : LM bool).
Proof.
  revert attempt. induction todo as [|todo IH]; intros attempt; simpl; keeps_through.
Qed.

Lemma keeps_locations_main : keeps keys_kept (SeedLocations.main : LM unit).
Proof.
  pose proof keeps_locations_wait_attempts. pose proof keeps_seed_warehouse.
  unfold SeedLocations.main, SeedLocations.wait_for_api, SeedLocations.get_api_token.
  keeps_through.
Qed.

End WarehouseCache.

Section PartsCache.
Context {Srv : Type} `{Transport Srv}.
#[local] Abbreviation PM := (M Srv (gmap pykey json)).

Lemma keeps_cache_category key pk :
  keeps keys_kept (SeedParts.cache_category key pk : PM unit).
Proof.
  unfold SeedParts.cache_category. destruct (to_key key); [apply keeps_insert|].
  apply keeps_raise.
Qed.

Lemma keeps_load_categories : keeps keys_kept (SeedParts.load_categories : PM unit).
Proof.
  pose proof keeps_cache_category.
  unfold SeedParts.load_categories. keeps_through.
Qed.

Lemma keeps_parts_create_category name description :
  keeps keys_kept (SeedParts.create_category name description : PM json).
Proof.
  pose proof keeps_cache_category. pose proof keeps_load_categories.
  unfold SeedParts.create_category. keeps_through.
Qed.

Lemma keeps_create_part name description category_id min_stock :
  keeps keys_kept (SeedParts.create_part name description category_id min_stock : PM bool).
Proof. unfold SeedParts.create_part. keeps_through. Qed.

Lemma keeps_seed_parts_of cat_id parts total :
  keeps keys_kept (SeedParts.seed_parts_of cat_id parts total : PM Z).
Proof.
  pose proof keeps_create_part.
  revert total. induction parts as [|[[name description] min_stock] parts IH];
    intros total; simpl; keeps_through.
Qed.

Lemma keeps_parts_seed_each cats total :
  keeps keys_kept (SeedParts.seed_each cats total : PM Z).
Proof.
  pose proof keeps_parts_create_category. pose proof keeps_seed_parts_of.
  revert total. induction cats as [|[category_name parts] cats IH];
    intros total; simpl; keeps_through.
Qed.

Lemma keeps_parts_wait_attempts todo attempt max_retries delay :
  keeps keys_kept (SeedParts.wait_attempts todo attempt max_retries delay : PM bool).
Proof.
  revert attempt. induction todo as [|todo IH]; intros attempt; simpl; keeps_through.
Qed.

Lemma keeps_parts_main : keeps keys_kept (SeedParts.main : PM unit).
Proof.
  pose proof keeps_parts_wait_attempts. pose proof keeps_parts_seed_each.
  pose proof keeps_load_categories.
  unfold SeedParts.main, SeedParts.seed, SeedParts.wait_for_api, SeedParts.get_api_token.
  keeps_through.
Qed.

End PartsCache.

(** X8: the name caches never lose a key: whatever the remote answers,
    and whether the call returns or raises, every name cached before
    [create_location], [load_categories], the parts script's
    [create_category], or a whole run of the warehouse or of the parts
    script, is still cached after it. *)
Theorem caches_never_lose_a_key :
  forall (Srv : Type) (T : Transport Srv),
    (forall name description parent_id,
        keeps keys_kept
          (SeedLocations.create_location (Srv := Srv) name description parent_id))
    /\ keeps keys_kept (SeedLocations.main (Srv := Srv))
    /\ keeps keys_kept (SeedParts.load_categories (Srv := Srv))
    /\ (forall name description,
           keeps keys_kept (SeedParts.create_category (Srv := Srv) name description))
    /\ keeps keys_kept (SeedParts.main (Srv := Srv)).
Proof.
  intros Srv T. split; [|split; [|split; [|split]]].
  - apply keeps_create_location.
  - apply keeps_locations_main.
  - apply keeps_load_categories.
  - apply keeps_parts_create_category.
  - apply keeps_parts_main.
Qed.

(** ** Loading the categories *)

Section LoadCategories.
Context {Srv : Type} `{Transport Srv}.
Implicit Types st : State Srv (gmap pykey json).

Lemma load_loop jcats entries st :
  Forall2 category_entry jcats entries ->
  for_each jcats
    (fun cat =>
       let* pk := getitem cat "pk" in
       let* name := getitem cat "name" in
       SeedParts.cache_category name pk) st
  = (Return tt,
     mkState (remote st) (trace st) (session st)
       (foldl (fun m e => <[fst e := snd e]> m) (self st) entries)).
Proof.
  intros Hall. revert st. induction Hall as [|j e jcats entries Hje _ IH]; intros st.
  - destruct st; reflexivity.
  - destruct Hje as (d & name & -> & Hpk & Hname & Hkey).
    simpl for_each. unfold getitem. rewrite Hpk, Hname.
    cbv beta iota delta [bind ret]. unfold SeedParts.cache_category. rewrite Hkey.
    cbv beta iota delta [bind ret get_self set_self]. rewrite IH. reflexivity.
Qed.

(** The loop raises nothing but what [except Exception] catches, and
    sends nothing. *)
Lemma load_loop_caught jcats st :
  exists r st',
    for_each jcats
      (fun cat =>
         let* pk := getitem cat "pk" in
         let* name := getitem cat "name" in
         SeedParts.cache_category name pk) st = (r, st')
    /\ trace st' = trace st
    /\ (r = Return tt \/ exists e, r = Raise e /\ is_Exception e = true).
Proof.
  revert st. induction jcats as [|j jcats IH]; intros st.
  - exists (Return tt), st. auto.
  - simpl for_each. unfold getitem, SeedParts.cache_category.
    cbv beta iota delta [bind ret raise get_self set_self].
    destruct j as [| | | | |d];
      try (eexists; eexists; split; [reflexivity|]; split; [reflexivity|];
           right; eexists; split; reflexivity).
    destruct (assoc "pk" d) as [pk|];
      [|eexists; eexists; split; [reflexivity|]; split; [reflexivity|];
        right; eexists; split; reflexivity].
    destruct (assoc "name" d) as [name|];
      [|eexists; eexists; split; [reflexivity|]; split; [reflexivity|];
        right; eexists; split; reflexivity].
    destruct (to_key name) as [k|];
      [|eexists; eexists; split; [reflexivity|]; split; [reflexivity|];
        right; eexists; split; reflexivity].
    cbv beta iota.
    destruct (IH (mkState (remote st) (trace st) (session st) (<[k := pk]> (self st))))
      as (r & st' & Hloop & Htrace & Hr).
    exists r, st'. split; [exact Hloop|]. split; [exact Htrace | exact Hr].
Qed.

(** X9: [load_categories] never raises: whatever the remote answers, or
    if nothing answers, it returns after its single request. *)
Theorem load_categories_never_raises st :
  exists st',
    SeedParts.load_categories st = (Return tt, st')
    /\ sent (trace st')
       = sent (trace st)
         ++ [mkRequest GET "/part/category/?limit=100" [] None (session st)].
Proof.
  unfold SeedParts.load_categories, try_except.
  rewrite bind_run. unfold session_get, request.
  destruct (send _ (remote st)) as [[resp|] srv1]; cbv beta iota.
  2: { simpl. eexists. split; [reflexivity|]. simpl.
       rewrite !sent_app. simpl. rewrite app_nil_r. reflexivity. }
  destruct (status_code resp =? 200).
  2: { eexists. split; [reflexivity|]. simpl. rewrite sent_app. reflexivity. }
  rewrite bind_run. unfold response_json.
  destruct (json_body resp) as [data|].
  2: { simpl. eexists. split; [reflexivity|]. simpl.
       rewrite !sent_app. simpl. rewrite app_nil_r. reflexivity. }
  cbv beta iota delta [ret]. rewrite bind_run.
  assert (Hcats : exists categories : json,
             forall s : State Srv (gmap pykey json),
               (if isinstance_dict data then dict_get data "results" data else ret data) s
               = (Return categories, s)).
  { destruct data; simpl; eexists; intros ?; reflexivity. }
  destruct Hcats as (categories & ->). cbv beta iota. rewrite bind_run.
  unfold py_iter.
  destruct categories as [| | |s|cats|d];
    try (simpl; eexists; split; [reflexivity|]; simpl;
         rewrite !sent_app; simpl; rewrite app_nil_r; reflexivity);
    cbv beta iota delta [ret]; rewrite bind_run;
    match goal with |- context [for_each ?l ?body ?s0] =>
      destruct (load_loop_caught l s0) as (r & st' & -> & Htrace & [->|(e & -> & He)])
    end;
    cbv beta iota; rewrite ?He; simpl;
    (eexists; split; [reflexivity|]); simpl; rewrite Htrace; simpl;
    rewrite !sent_app; simpl; rewrite ?app_nil_r; reflexivity.
Qed.

(** X10: [load_categories] caches a listing entry by entry, in order: on
    a 200 answer that lists categories with a ["pk"] and a hashable
    ["name"], bare or as the ["results"] of a page, the cache ends as the
    old one with each entry inserted in turn, so that an identifier
    cached before, or listed earlier under the same name, is
    overwritten. *)
Theorem load_categories_later_entries_win st resp srv' jcats entries :
  send (mkRequest GET "/part/category/?limit=100" [] None (session st)) (remote st)
  = (Answer resp, srv') ->
  status_code resp = 200 ->
  lists resp jcats ->
  Forall2 category_entry jcats entries ->
  exists st',
    SeedParts.load_categories st = (Return tt, st')
    /\ self st' = foldl (fun m e => <[fst e := snd e]> m) (self st) entries.
Proof.
  intros Hsend Hstatus Hlists Hall.
  unfold SeedParts.load_categories, try_except.
  rewrite bind_run. unfold session_get, request. rewrite Hsend. cbv beta iota zeta.
  rewrite Hstatus. change (200 =? 200) with true. cbv beta iota.
  rewrite bind_run. unfold response_json.
  assert (Hdata : exists data,
             json_body resp = Some data
             /\ forall s : State Srv (gmap pykey json),
                 (if isinstance_dict data then dict_get data "results" data else ret data) s
                 = (Return (JList jcats), s)).
  { destruct Hlists as [Hb|(d & Hb & Hres)]; eexists; (split; [exact Hb|]); intros ?.
    - reflexivity.
    - simpl. unfold dict_get. rewrite Hres. reflexivity. }
  destruct Hdata as (data & -> & Hcats).
  cbv beta iota delta [ret]. rewrite bind_run, Hcats. cbv beta iota.
  rewrite bind_run. unfold py_iter. cbv beta iota delta [ret].
  rewrite bind_run, (load_loop _ _ _ Hall). cbv beta iota.
  eexists. split; reflexivity.
Qed.

End LoadCategories.

Lemma load_categories_later_entries_win_witness :
  exists st',
    SeedParts.load_categories
      (SeedParts.PartsSeeder
         (fun _ : Request =>
            Answer (mkResponse 200
                      (Some (JList [JDict [("pk", JNum 1); ("name", JStr "CPU")];
                                    JDict [("pk", JNum 2); ("name", JStr "CPU")]]))
                      ""))
         "admin" "admin123")
    = (Return tt, st')
    /\ self st' = <[KStr "CPU" := JNum 2]> (<[KStr "CPU" := JNum 1]> ∅).
Proof.
  apply (load_categories_later_entries_win (H := Stateless.stateless)
           (SeedParts.PartsSeeder
              (fun _ : Request =>
                 Answer (mkResponse 200
                           (Some (JList [JDict [("pk", JNum 1); ("name", JStr "CPU")];
                                         JDict [("pk", JNum 2); ("name", JStr "CPU")]]))
                           ""))
              "admin" "admin123")
           (mkResponse 200
              (Some (JList [JDict [("pk", JNum 1); ("name", JStr "CPU")];
                            JDict [("pk", JNum 2); ("name", JStr "CPU")]]))
              "")
           (fun _ : Request =>
              Answer (mkResponse 200
                        (Some (JList [JDict [("pk", JNum 1); ("name", JStr "CPU")];
                                      JDict [("pk", JNum 2); ("name", JStr "CPU")]]))
                        ""))
           [JDict [("pk", JNum 1); ("name", JStr "CPU")];
            JDict [("pk", JNum 2); ("name", JStr "CPU")]]
           [(KStr "CPU", JNum 1); (KStr "CPU", JNum 2)]).
  - reflexivity.
  - reflexivity.
  - left. reflexivity.
  - repeat constructor; eexists; eexists; repeat split; reflexivity.
Defined.

(** ** The parts script: categories and parts *)

Section PartsCategories.
Context {Srv : Type} `{Transport Srv}.
Implicit Types st : State Srv (gmap pykey json).

(** X11: a category the parts script created is served from the cache:
    when the creation is answered by 201 and a dict with a ["pk"],
    [create_category] returns that identifier, and every later call for
    the same name returns it again without any request, the state
    unchanged. *)
Theorem created_category_is_cached st resp srv' d pk name description :
  self st !! KStr name = None ->
  send (creation "/part/category/"
          (JDict [("name", JStr name); ("description", JStr description)]) (session st))
       (remote st) = (Answer resp, srv') ->
  status_code resp = 201 ->
  json_body resp = Some (JDict d) ->
  assoc "pk" d = Some pk ->
  exists st',
    SeedParts.create_category name description st = (Return pk, st')
    /\ self st' !! KStr name = Some pk
    /\ forall description',
         SeedParts.create_category name description' st' = (Return pk, st').
Proof.
  intros Hmiss Hsend Hstatus Hbody Hpk.
  unfold SeedParts.create_category at 1. unfold creation in Hsend.
  rewrite bind_run. cbv beta iota delta [get_self]. rewrite Hmiss.
  rewrite bind_run. unfold session_post, request. rewrite Hsend. cbv beta iota zeta.
  rewrite Hstatus. change (201 =? 201) with true. cbv beta iota.
  unfold response_json. rewrite Hbody. cbv beta iota delta [bind ret].
  unfold getitem. rewrite Hpk.
  unfold SeedParts.cache_category. simpl to_key.
  cbv beta iota delta [bind ret get_self set_self print emit].
  cbn [remote trace session self].
  eexists. split; [reflexivity|]. cbn [self]. split.
  - apply lookup_insert_eq.
  - intros description'. unfold SeedParts.create_category.
    rewrite bind_run. cbv beta iota delta [get_self]. cbn [self].
    rewrite lookup_insert_eq. reflexivity.
Qed.

(** X12: [create_part] never looks a part up: whatever the remote
    answers, or if nothing answers, it sends the creation and nothing
    else, and leaves the cache as it was; on a 400 answer that reports a
    conflict it returns [True], the existing part's identifier unread. *)
Theorem create_part_never_looks_up st name description category_id min_stock :
  (sent (trace (snd (SeedParts.create_part name description category_id min_stock st)))
   = sent (trace st)
     ++ [creation "/part/"
           (SeedParts.part_payload name description category_id min_stock) (session st)]
   /\ self (snd (SeedParts.create_part name description category_id min_stock st))
      = self st)
  /\ forall resp srv' error,
       send (creation "/part/"
               (SeedParts.part_payload name description category_id min_stock)
               (session st)) (remote st) = (Answer resp, srv') ->
       status_code resp = 400 ->
       json_body resp = Some error ->
       SeedParts.is_conflict error = true ->
       fst (SeedParts.create_part name description category_id min_stock st)
       = Return true.
Proof.
  unfold SeedParts.create_part, creation. split.
  - run_monad.
    destruct (send _ (remote st)) as [[resp|] srv1]; run_monad;
      repeat match goal with
             | |- context [match ?x with _ => _ end] =>
                 lazymatch x with
                 | context [match _ with _ => _ end] => fail
                 | _ => destruct x eqn:?; run_monad
                 end
             end;
      rewrite ?sent_app; simpl; rewrite ?app_nil_r; split; reflexivity.
  - intros resp srv' error Hsend Hstatus Hbody Hconflict. run_monad.
    rewrite Hsend. run_monad. rewrite Hstatus. run_monad. rewrite Hbody. run_monad.
    rewrite Hconflict. reflexivity.
Qed.

End PartsCategories.

Lemma created_category_is_cached_witness :
  exists st',
    SeedParts.create_category "CPU" "Computer CPU components"
      (SeedParts.PartsSeeder Remote.empty "admin" "admin123")
    = (Return (JNum 1), st')
    /\ self st' !! KStr "CPU" = Some (JNum 1)
    /\ forall description',
         SeedParts.create_category "CPU" description' st' = (Return (JNum 1), st').
Proof.
  apply (created_category_is_cached (H := Remote.remote_transport)
           (SeedParts.PartsSeeder Remote.empty "admin" "admin123")
           (mkResponse 201
              (Some (JDict [("pk", JNum 1); ("name", JStr "CPU");
                            ("description", JStr "Computer CPU components")]))
              "")
           (Remote.mkServer
              [Remote.mkResource Remote.Category 1 "CPU"
                 [("name", JStr "CPU");
                  ("description", JStr "Computer CPU components")]] 2)
           [("pk", JNum 1); ("name", JStr "CPU");
            ("description", JStr "Computer CPU components")]);
    reflexivity.
Defined.

Lemma create_part_never_looks_up_witness :
  fst (SeedParts.create_part "Intel Core i5" "6 cores" (JNum 1) 5
         (SeedParts.PartsSeeder
            (Remote.mkServer
               [Remote.mkResource Remote.Part 1 "Intel Core i5" []] 2)
            "admin" "admin123"))
  = Return true.
Proof.
  eapply (proj2 (create_part_never_looks_up (H := Remote.remote_transport)
                   (SeedParts.PartsSeeder
                      (Remote.mkServer
                         [Remote.mkResource Remote.Part 1 "Intel Core i5" []] 2)
                      "admin" "admin123")
                   "Intel Core i5" "6 cores" (JNum 1) 5));
    vm_compute; reflexivity.
Defined.

(** ** The tenant script looks before it creates *)

Section LookupFirst.
Context {Srv : Type} `{Transport Srv}.
Implicit Types st : State Srv json.

Lemma find_named_found what name pre d post pk st :
  Forall (named_otherwise name) pre ->
  assoc "name" d = Some (JStr name) ->
  assoc "pk" d = Some pk ->
  SeedTenants.find_named what name (pre ++ JDict d :: post) st
  = (Return (Some pk),
     said (what ++ " '" ++ name ++ "' already exists (ID: " ++ str pk ++ ")")%string st).
Proof.
  intros Hpre Hname Hpk. induction Hpre as [|x pre (dx & -> & Hx) _ IH].
  - simpl. mstep. rewrite Hname, Hpk. cbv beta iota delta [eq_str].
    rewrite String.eqb_refl. reflexivity.
  - simpl. mstep. rewrite Hx. exact IH.
Qed.

Lemma lookup_named_found what resp name pre d post pk st :
  status_code resp = 200 ->
  json_body resp = Some (JList (pre ++ JDict d :: post)) ->
  Forall (named_otherwise name) pre ->
  assoc "name" d = Some (JStr name) ->
  assoc "pk" d = Some pk ->
  SeedTenants.lookup_named what resp name st
  = (Return (Some pk),
     said (what ++ " '" ++ name ++ "' already exists (ID: " ++ str pk ++ ")")%string st).
Proof.
  intros Hstatus Hbody Hpre Hname Hpk. unfold SeedTenants.lookup_named.
  rewrite Hstatus. change (200 =? 200) with true. cbv beta iota.
  rewrite bind_run. unfold response_json. rewrite Hbody. cbv beta iota delta [ret].
  destruct (pre ++ JDict d :: post) as [|x l] eqn:Hl.
  - destruct pre; discriminate.
  - rewrite <- Hl. apply find_named_found; assumption.
Qed.

(** X13: the tenant script looks before it creates: when the lookup is
    answered by 200 and a list whose first item of that name has a
    ["pk"], [get_or_create_location] and [get_or_create_group] return
    this identifier after the single lookup request, and no creation is
    sent. *)
Theorem existing_resource_is_not_recreated resp pre d post pk name :
  status_code resp = 200 ->
  json_body resp = Some (JList (pre ++ JDict d :: post)) ->
  Forall (named_otherwise name) pre ->
  assoc "name" d = Some (JStr name) ->
  assoc "pk" d = Some pk ->
  (forall st description parent srv',
      send (mkRequest GET "/stock/location/"
              ([("name", JStr name)]
               ++ (if truthy parent then [("parent", parent)] else []))
              None (session st)) (remote st) = (Answer resp, srv') ->
      exists st',
        SeedTenants.get_or_create_location name description parent st = (Return pk, st')
        /\ remote st' = srv'
        /\ sent (trace st')
           = sent (trace st)
             ++ [mkRequest GET "/stock/location/"
                   ([("name", JStr name)]
                    ++ (if truthy parent then [("parent", parent)] else []))
                   None (session st)])
  /\ (forall st srv',
      send (lookup_by_name "/user/group/" name (session st)) (remote st)
      = (Answer resp, srv') ->
      exists st',
        SeedTenants.get_or_create_group name st = (Return pk, st')
        /\ remote st' = srv'
        /\ sent (trace st')
           = sent (trace st) ++ [lookup_by_name "/user/group/" name (session st)]).
Proof.
  intros Hstatus Hbody Hpre Hname Hpk. split.
  - intros st description parent srv' Hsend.
    unfold SeedTenants.get_or_create_location.
    rewrite bind_run. unfold session_get, request. rewrite Hsend. cbv beta iota zeta.
    rewrite bind_run.
    rewrite (lookup_named_found _ _ _ _ _ _ _ _ Hstatus Hbody Hpre Hname Hpk).
    cbv beta iota. eexists. split; [reflexivity|]. unfold said. simpl.
    rewrite !sent_app. simpl. rewrite app_nil_r. split; reflexivity.
  - intros st srv' Hsend. unfold lookup_by_name in *.
    unfold SeedTenants.get_or_create_group.
    rewrite bind_run. unfold session_get, request. rewrite Hsend. cbv beta iota zeta.
    rewrite bind_run.
    rewrite (lookup_named_found _ _ _ _ _ _ _ _ Hstatus Hbody Hpre Hname Hpk).
    cbv beta iota. eexists. split; [reflexivity|]. unfold said. simpl.
    rewrite !sent_app. simpl. rewrite app_nil_r. split; reflexivity.
Qed.

End LookupFirst.

Lemma existing_resource_is_not_recreated_witness :
  exists st',
    SeedTenants.get_or_create_location "Demo Tenant Warehouse" (JStr "") JNull
      (SeedTenants.TenantSeeder
         (Remote.mkServer
            [Remote.mkResource Remote.Location 1 "Demo Tenant Warehouse"
               [("name", JStr "Demo Tenant Warehouse")]] 2))
    = (Return (JNum 1), st')
    /\ remote st'
       = Remote.mkServer
            [Remote.mkResource Remote.Location 1 "Demo Tenant Warehouse"
               [("name", JStr "Demo Tenant Warehouse")]] 2
    /\ length (sent (trace st')) = 1%nat.
Proof.
  destruct (proj1 (existing_resource_is_not_recreated (H := Remote.remote_transport)
              (mkResponse 200
                 (Some (JList [JDict [("pk", JNum 1);
                                      ("name", JStr "Demo Tenant Warehouse")]])) "")
              [] [("pk", JNum 1); ("name", JStr "Demo Tenant Warehouse")] []
              (JNum 1) "Demo Tenant Warehouse"
              eq_refl eq_refl (Forall_nil_2 _) eq_refl eq_refl)
              (SeedTenants.TenantSeeder
                 (Remote.mkServer
                    [Remote.mkResource Remote.Location 1 "Demo Tenant Warehouse"
                       [("name", JStr "Demo Tenant Warehouse")]] 2))
              (JStr "") JNull
              (Remote.mkServer
                 [Remote.mkResource Remote.Location 1 "Demo Tenant Warehouse"
                    [("name", JStr "Demo Tenant Warehouse")]] 2)
              eq_refl)
    as (st' & Hrun & Hremote & Hsent).
  exists st'. split; [exact Hrun|]. split; [exact Hremote|].
  rewrite Hsent. reflexivity.
Defined.

(** ** The readiness polls *)


(** ** The category script against the model application *)

Section CategoriesOnRemote.
Implicit Types st : State Remote.Server unit.
Implicit Types s : Remote.Server.

Lemma select_present k n s :
  Remote.present k n s = true ->
  exists r l, Remote.select k [("name", JStr n)] s = r :: l.
Proof.
  unfold Remote.present, Remote.select, Remote.is_named.
  induction (Remote.db s) as [|r l IH]; simpl; [discriminate|].
  intros Hex. rewrite filter_cons. destruct (decide _) as [Hd|Hd]; [eauto|].
  apply orb_prop in Hex as [Hr|Hex]; [|exact (IH Hex)].
  exfalso. apply Hd. apply andb_prop in Hr as [Ek En].
  rewrite Ek. simpl. rewrite String.eqb_sym, En. done.
Qed.

Lemma create_category_present name description st :
  Remote.present Remote.Category name (remote st) = true ->
  exists v st',
    SeedCategories.create_category name description st = (Return v, st')
    /\ truthy v = true /\ remote st' = remote st.
Proof.
  intros Hp. destruct (select_present _ _ _ Hp) as (r & l & Hsel).
  unfold SeedCategories.create_category. run_monad.
  unfold send, Remote.remote_transport, Remote.handle. simpl.
  rewrite Hp. simpl.
  unfold SeedCategories._get_existing_category. run_monad.
  unfold send, Remote.remote_transport, Remote.handle. simpl.
  rewrite Hsel. simpl. eexists. eexists. repeat split.
Qed.

Lemma create_category_absent name description st :
  Remote.present Remote.Category name (remote st) = false ->
  exists v st',
    SeedCategories.create_category name description st = (Return v, st')
    /\ truthy v = true
    /\ remote st'
       = Remote.mkServer
           (Remote.db (remote st)
            ++ [Remote.mkResource Remote.Category (Remote.next_pk (remote st)) name
                  [("name", JStr name); ("description", JStr description)]])
           (Remote.next_pk (remote st) + 1).
Proof.
  intros Hp. unfold SeedCategories.create_category. run_monad.
  unfold send, Remote.remote_transport, Remote.handle. simpl.
  rewrite Hp. simpl. eexists. eexists. repeat split.
Qed.

Lemma extends_refl s : Remote.extends s s.
Proof. split; [reflexivity | auto]. Qed.

Lemma extends_trans s1 s2 s3 :
  Remote.extends s1 s2 -> Remote.extends s2 s3 -> Remote.extends s1 s3.
Proof. intros [Hp1 Hw1] [Hp2 Hw2]. split; [etrans; eassumption | auto]. Qed.

Lemma present_extends k n s s' :
  Remote.extends s s' -> Remote.present k n s = true -> Remote.present k n s' = true.
Proof.
  intros [[l Hl] _]. unfold Remote.present. rewrite Hl, existsb_app.
  intros ->. reflexivity.
Qed.

Lemma absent_key k n s :
  Remote.present k n s = false -> (k, n) ∉ map Remote.key (Remote.db s).
Proof.
  unfold Remote.present, Remote.is_named, Remote.key.
  induction (Remote.db s) as [|r l IH]; simpl; intros Hex.
  - apply not_elem_of_nil.
  - apply orb_false_elim in Hex as [Hr Hl].
    apply not_elem_of_cons. split; [|exact (IH Hl)].
    intros Heq. inversion Heq; subst.
    rewrite bool_decide_eq_true_2, String.eqb_refl in Hr by reflexivity. discriminate.
Qed.

Lemma extends_create k n d s :
  Remote.present k n s = false ->
  Remote.extends s
    (Remote.mkServer (Remote.db s ++ [Remote.mkResource k (Remote.next_pk s) n d])
       (Remote.next_pk s + 1)).
Proof.
  intros Hp. split; [apply prefix_app_r; reflexivity|].
  intros (Hpk & Hnext & Hnodup). unfold Remote.wf. simpl. repeat split.
  - apply Forall_app. split.
    + eapply Forall_impl; [exact Hpk|]. simpl. intros r Hr. lia.
    + repeat constructor; simpl; lia.
  - lia.
  - rewrite map_app. simpl. apply NoDup_app. repeat split.
    + exact Hnodup.
    + intros x Hx Hin. apply list_elem_of_singleton in Hin. subst x.
      exact (absent_key _ _ _ Hp Hx).
    + apply NoDup_singleton.
Qed.

Lemma create_category_remote name description st :
  exists v st',
    SeedCategories.create_category name description st = (Return v, st')
    /\ truthy v = true
    /\ Remote.extends (remote st) (remote st')
    /\ Remote.present Remote.Category name (remote st') = true
    /\ (Remote.present Remote.Category name (remote st) = true -> remote st' = remote st).
Proof.
  destruct (Remote.present Remote.Category name (remote st)) eqn:Hp.
  - destruct (create_category_present name description st Hp) as (v & st' & Hc & Hv & Hr).
    exists v, st'. rewrite Hr.
    split; [exact Hc|]. split; [exact Hv|]. split; [apply extends_refl|].
    split; [exact Hp | reflexivity].
  - destruct (create_category_absent name description st Hp) as (v & st' & Hc & Hv & Hr).
    exists v, st'. rewrite Hr.
    split; [exact Hc|]. split; [exact Hv|]. split; [apply extends_create, Hp|].
    split; [|discriminate].
    unfold Remote.present, Remote.is_named. simpl.
    rewrite existsb_app. simpl. rewrite String.eqb_refl. apply orb_true_r.
Qed.

Lemma seed_each_remote cats created st :
  exists n st',
    SeedCategories.seed_each cats created st = (Return n, st')
    /\ Remote.extends (remote st) (remote st')
    /\ Forall (fun c => Remote.present Remote.Category (fst c) (remote st') = true) cats
    /\ (Forall (fun c => Remote.present Remote.Category (fst c) (remote st) = true) cats ->
        remote st' = remote st).
Proof.
  revert created st. induction cats as [|[name description] cats IH]; intros created st.
  - exists created, st.
    split; [reflexivity|]. split; [apply extends_refl|]. split; [constructor|reflexivity].
  - destruct (create_category_remote name description st)
      as (v & st1 & Hc & Hv & Hext1 & Hp1 & Hsame1).
    destruct (IH (if truthy v then created + 1 else created) st1)
      as (n & st2 & Heach & Hext2 & Hall2 & Hsame2).
    exists n, st2. simpl SeedCategories.seed_each. rewrite bind_run, Hc. cbv beta iota.
    split; [exact Heach|]. split; [eapply extends_trans; eassumption|]. split.
    + constructor; [|exact Hall2]. simpl. eapply present_extends; eassumption.
    + intros Hall. apply Forall_cons in Hall as [Hn Hrest]. simpl in Hn.
      rewrite <- (Hsame1 Hn). apply Hsame2. rewrite (Hsame1 Hn). exact Hrest.
Qed.

Lemma wait_for_api_remote st :
  fst (SeedCategories.wait_for_api 30 5 st) = Return true
  /\ remote (snd (SeedCategories.wait_for_api 30 5 st)) = remote st.
Proof. split; vm_compute; reflexivity. Qed.

Lemma get_api_token_remote st :
  (exists token, fst (SeedCategories.get_api_token st) = Return token)
  /\ remote (snd (SeedCategories.get_api_token st)) = remote st.
Proof. split; [eexists|]; vm_compute; reflexivity. Qed.

Lemma main_remote s user password :
  exists st',
    SeedCategories.main (SeedCategories.CategorySeeder s user password) = (Return tt, st')
    /\ Remote.extends s (remote st')
    /\ Forall (fun c => Remote.present Remote.Category (fst c) (remote st') = true)
         SeedCategories.DEFAULT_CATEGORIES
    /\ (Forall (fun c => Remote.present Remote.Category (fst c) s = true)
          SeedCategories.DEFAULT_CATEGORIES ->
        remote st' = s).
Proof.
  set (st0 := SeedCategories.CategorySeeder s user password).
  change s with (remote st0) at 1 2 3.
  destruct (wait_for_api_remote st0) as [Hw Hwr].
  destruct (SeedCategories.wait_for_api 30 5 st0) as [r st1] eqn:Hwait.
  simpl in Hw, Hwr. subst r.
  destruct (get_api_token_remote st1) as [[token Ht] Htr].
  destruct (SeedCategories.get_api_token st1) as [r st2] eqn:Htoken.
  simpl in Ht, Htr. subst r.
  destruct (seed_each_remote SeedCategories.DEFAULT_CATEGORIES 0 st2)
    as (n & st3 & Heach & Hext & Hall & Hsame).
  rewrite Htr, Hwr in Hext, Hsame.
  unfold SeedCategories.main. rewrite bind_run, Hwait. cbv beta iota delta [negb].
  rewrite bind_run, Htoken. cbv beta iota.
  unfold SeedCategories.seed_categories. rewrite !bind_run, Heach. cbv beta iota.
  eexists. split; [reflexivity|]. simpl remote. auto.
Qed.

End CategoriesOnRemote.


(** ** The warehouse when every creation succeeds *)

Lemma created_names_app u t1 t2 :
  created_names u (t1 ++ t2) = created_names u t1 ++ created_names u t2.
Proof. unfold created_names. rewrite sent_app. apply omap_app. Qed.

Section Asked.
Context {Srv Obj : Type} (R : Srv -> Prop).
Implicit Types st : State Srv Obj.

Lemma asked_refl st : R (remote st) -> asked R [] st st.
Proof. intros HR. split; [exact HR|]. rewrite app_nil_r. split; reflexivity. Qed.

Lemma asked_trans n1 n2 st st1 st2 :
  asked R n1 st st1 -> asked R n2 st1 st2 -> asked R (n1 ++ n2) st st2.
Proof.
  intros (_ & Hn1 & Hp1) (HR2 & Hn2 & Hp2). split; [exact HR2|]. split.
  - rewrite Hn2, Hn1, app_assoc. reflexivity.
  - etrans; eassumption.
Qed.

Lemma asked_said n s st st1 : asked R n st st1 -> asked R n st (said s st1).
Proof.
  intros (HR1 & Hn1 & Hp1). split; [exact HR1|]. unfold said. simpl. split.
  - rewrite created_names_app, Hn1. apply app_nil_r.
  - rewrite printed_app. etrans; [exact Hp1|]. apply prefix_app_r. reflexivity.
Qed.

Lemma asked_within n st st1 : asked R n st st1 -> R (remote st1).
Proof. intros (HR1 & _). exact HR1. Qed.

Lemma for_each_asked {A} (f : A -> list string) (l : list A)
    (body : A -> M Srv Obj unit) st :
  (forall x st0, R (remote st0) ->
     exists st1, body x st0 = (Return tt, st1) /\ asked R (f x) st0 st1) ->
  R (remote st) ->
  exists st', for_each l body st = (Return tt, st') /\ asked R (flat_map f l) st st'.
Proof.
  intros Hbody. revert st. induction l as [|x l IH]; intros st HRst.
  - exists st. split; [reflexivity | apply asked_refl, HRst].
  - destruct (Hbody x st HRst) as (st1 & Hx & Ha1).
    destruct (IH st1 (asked_within _ _ _ Ha1)) as (st2 & Hl & Ha2).
    exists st2. split.
    + simpl for_each. rewrite bind_run, Hx. exact Hl.
    + simpl flat_map. eapply asked_trans; eassumption.
Qed.

End Asked.

Section Obliging.
Context {Srv : Type} `{Transport Srv}.
Context (R : Srv -> Prop) (HR : obliging R).
Implicit Types st : State Srv (gmap string json).

Lemma create_location_obliging name description parent_id st :
  R (remote st) ->
  exists d pk st',
    SeedLocations.create_location name description parent_id st = (Return (JDict d), st')
    /\ assoc "pk" d = Some pk
    /\ asked R [name] st st'.
Proof.
  intros HRst. unfold SeedLocations.create_location.
  destruct (HR (creation "/stock/location/"
                  (SeedLocations.location_payload name description parent_id)
                  (session st)) (remote st) HRst) as [Hkeep Hans].
  destruct (Hans eq_refl eq_refl) as (resp & d & pk & Hresp & Hstatus & Hbody & Hpk).
  rewrite bind_run. unfold session_post, request. unfold creation in *.
  destruct (send _ (remote st)) as [o srv']. simpl in Hresp, Hkeep. subst o.
  cbv beta iota zeta. rewrite Hstatus. change (201 =? 201) with true. cbv beta iota.
  unfold response_json. rewrite Hbody. cbv beta iota delta [bind ret].
  unfold getitem. rewrite Hpk. unfold SeedLocations.cache_location.
  cbv beta iota delta [bind ret get_self set_self].
  exists d, pk. eexists. split; [reflexivity|]. split; [exact Hpk|].
  split; [exact Hkeep|]. simpl. split.
  - rewrite created_names_app. reflexivity.
  - rewrite printed_app, app_nil_r. reflexivity.
Qed.

Lemma seed_shelf_obliging zone col (ps : bool) column_id level st :
  R (remote st) ->
  exists st',
    SeedLocations.seed_shelf zone col ps column_id level st = (Return tt, st')
    /\ asked R
         (SeedLocations.shelf_name zone col level
          :: if ps then []
             else [SeedLocations.shelf_name zone col level ++ "-A";
                   SeedLocations.shelf_name zone col level ++ "-B"]%string)
         st st'.
Proof.
  intros HRst. unfold SeedLocations.seed_shelf. cbv zeta. rewrite bind_run.
  match goal with |- context [SeedLocations.create_location ?n ?a ?b st] =>
    destruct (create_location_obliging n a b st HRst) as (d & pk & st1 & -> & Hpk & Ha1)
  end.
  cbv beta iota. rewrite (truthy_dict_with_key _ _ _ Hpk). cbv beta iota delta [negb].
  rewrite bind_run. unfold dict_get. rewrite Hpk. cbv beta iota delta [ret].
  destruct ps; cbv beta iota.
  - eexists. split; [reflexivity|]. apply (asked_said R). exact Ha1.
  - rewrite bind_run.
    match goal with |- context [SeedLocations.create_location ?n ?a ?b st1] =>
      destruct (create_location_obliging n a b st1 (asked_within _ _ _ _ Ha1))
        as (d2 & pk2 & st2 & -> & _ & Ha2)
    end.
    cbv beta iota. rewrite bind_run.
    match goal with |- context [SeedLocations.create_location ?n ?a ?b st2] =>
      destruct (create_location_obliging n a b st2 (asked_within _ _ _ _ Ha2))
        as (d3 & pk3 & st3 & -> & _ & Ha3)
    end.
    cbv beta iota. eexists. split; [reflexivity|]. apply (asked_said R).
    apply (asked_trans R [_] [_; _] _ _ _ Ha1), (asked_trans R [_] [_] _ _ _ Ha2), Ha3.
Qed.

Lemma seed_column_obliging zone zone_id col st :
  R (remote st) ->
  exists st',
    SeedLocations.seed_column zone zone_id col st = (Return tt, st')
    /\ asked R (column_names zone col) st st'.
Proof.
  intros HRst. unfold SeedLocations.seed_column. cbv zeta. mstep. rewrite bind_run.
  match goal with |- context [SeedLocations.create_location ?n ?a ?b ?s0] =>
    assert (Ha0 : asked R [] st s0) by (apply (asked_said R [] _ st), asked_refl, HRst);
    destruct (create_location_obliging n a b s0 (asked_within _ _ _ _ Ha0))
      as (d & pk & st1 & -> & Hpk & Ha1)
  end.
  cbv beta iota. rewrite (truthy_dict_with_key _ _ _ Hpk). cbv beta iota delta [negb].
  rewrite bind_run. unfold dict_get. rewrite Hpk. cbv beta iota delta [ret].
  destruct (for_each_asked R (shelf_names zone col)
              (SeedLocations.range1 SeedLocations.LEVELS)
              (SeedLocations.seed_shelf zone col
                 (String.eqb (SeedLocations.column_name zone col)
                    SeedLocations.POWER_SUPPLY_COLUMN) pk) st1)
    as (st2 & Hloop & Ha2).
  { intros level st0 HR0. apply seed_shelf_obliging, HR0. }
  { exact (asked_within _ _ _ _ Ha1). }
  exists st2. split; [exact Hloop|].
  apply (asked_trans R [] _ _ _ _ Ha0), (asked_trans R [_] _ _ _ _ Ha1), Ha2.
Qed.

Lemma seed_zone_obliging warehouse_id zone st :
  R (remote st) ->
  exists st',
    SeedLocations.seed_zone warehouse_id zone st = (Return tt, st')
    /\ asked R (zone_names zone) st st'.
Proof.
  intros HRst. unfold SeedLocations.seed_zone. mstep. rewrite bind_run.
  match goal with |- context [SeedLocations.create_location ?n ?a ?b ?s0] =>
    assert (Ha0 : asked R [] st s0) by (apply (asked_said R [] _ st), asked_refl, HRst);
    destruct (create_location_obliging n a b s0 (asked_within _ _ _ _ Ha0))
      as (d & pk & st1 & -> & Hpk & Ha1)
  end.
  cbv beta iota. rewrite (truthy_dict_with_key _ _ _ Hpk). cbv beta iota delta [negb].
  rewrite bind_run. unfold dict_get. rewrite Hpk. cbv beta iota delta [ret].
  mstep.
  match goal with Hx : asked R [] st ?s0 |- context [for_each ?l ?body ?s1] =>
    assert (Ha1' : asked R [SeedLocations.zone_name zone] s0 s1)
      by (apply (asked_said R _ _ s0), Ha1);
    destruct (for_each_asked R (column_names zone) l body s1) as (st2 & Hloop & Ha2);
      [intros col st0 HR0; apply seed_column_obliging, HR0
      |exact (asked_within _ _ _ _ Ha1')|]
  end.
  exists st2. split; [exact Hloop|].
  apply (asked_trans R [] _ _ _ _ Ha0), (asked_trans R [_] _ _ _ _ Ha1'), Ha2.
Qed.

Lemma seed_warehouse_obliging st :
  R (remote st) ->
  exists st',
    SeedLocations.seed_warehouse st = (Return true, st')
    /\ asked R hierarchy_names st st'
    /\ last (printed (trace st'))
       = Some ("Total Bins: " ++ str_of_Z SeedLocations.total_bins)%string.
Proof.
  intros HRst. unfold SeedLocations.seed_warehouse. mstep. rewrite bind_run.
  match goal with |- context [SeedLocations.create_location ?n ?a ?b ?s0] =>
    assert (Ha0 : asked R [] st s0) by (apply (asked_said R [] _ st), asked_refl, HRst);
    destruct (create_location_obliging n a b s0 (asked_within _ _ _ _ Ha0))
      as (d & pk & st1 & -> & Hpk & Ha1)
  end.
  cbv beta iota. rewrite (truthy_dict_with_key _ _ _ Hpk). cbv beta iota delta [negb].
  rewrite bind_run. unfold dict_get. rewrite Hpk. cbv beta iota delta [ret].
  mstep. rewrite bind_run.
  match goal with Hx : asked R [] st ?s0 |- context [for_each ?l ?body ?s1] =>
    assert (Ha1' : asked R ["Warehouse"] s0 s1)
      by (apply (asked_said R _ _ s0), Ha1);
    destruct (for_each_asked R zone_names l body s1) as (st2 & -> & Ha2);
      [intros zone st0 HR0; apply seed_zone_obliging, HR0
      |exact (asked_within _ _ _ _ Ha1')|]
  end.
  cbv beta iota. eexists. split; [reflexivity|]. split.
  - do 3 apply (asked_said R).
    apply (asked_trans R [] _ _ _ _ Ha0), (asked_trans R [_] _ _ _ _ Ha1'), Ha2.
  - simpl trace. rewrite !printed_app. simpl. apply last_snoc.
Qed.

End Obliging.


Lemma always_created_obliging : obliging (fun answer => answer = always_created).
Proof.
  intros r srv ->. split; [reflexivity|]. intros _ _.
  eexists. exists [("pk", JNum 1)], (JNum 1). repeat split.
Qed.


(** ** The parts script against a remote that refuses every creation *)

Section RefusedParts.
Context {Srv : Type} `{Transport Srv}.
Context (R : Srv -> Prop) (HR : refusing R).
Implicit Types st : State Srv (gmap pykey json).

Lemma parts_create_category_refused name description st :
  R (remote st) -> self st !! KStr name = None ->
  exists st',
    SeedParts.create_category name description st = (Return JNull, st')
    /\ moved R 1 st st'.
Proof.
  intros HRst Hmiss. unfold SeedParts.create_category.
  rewrite bind_run. cbv beta iota delta [get_self]. rewrite Hmiss.
  destruct (post_refused R HR "/part/category/"
              (JDict [("name", JStr name); ("description", JStr description)]) st HRst)
    as (resp & st1 & Hp & (H200 & H201 & H400) & HR1 & Hs & Ho & Ht); [simpl; auto|].
  rewrite bind_run, Hp. cbv beta iota.
  apply Z.eqb_neq in H201, H400. rewrite H201, H400.
  eexists. split; [reflexivity|].
  apply moved_said. repeat split; auto.
  rewrite Ht, sent_app, length_app. reflexivity.
Qed.

Lemma parts_seed_each_refused cats total st :
  R (remote st) ->
  Forall (fun c => self st !! KStr (fst c) = None) cats ->
  exists st',
    SeedParts.seed_each cats total st = (Return total, st')
    /\ moved R (length cats) st st'.
Proof.
  revert st. induction cats as [|[category_name parts] cats IH]; intros st HRst Hmiss.
  - exists st. split; [reflexivity | apply moved_refl, HRst].
  - apply Forall_cons in Hmiss as [Hmiss1 Hmiss]. simpl in Hmiss1.
    simpl SeedParts.seed_each. mstep. rewrite bind_run.
    match goal with |- context [SeedParts.create_category ?n ?d ?s0] =>
      assert (Hm0 : moved R 0 st s0) by (apply (moved_said R 0 _ st), moved_refl, HRst);
      destruct (parts_create_category_refused n d s0 (moved_within _ _ _ _ Hm0) Hmiss1)
        as (st1 & -> & Hm1)
    end.
    cbv beta iota. change (negb (truthy JNull)) with true. cbv iota. mstep.
    match goal with |- context [SeedParts.seed_each cats total ?s1] =>
      assert (Hm1' : moved R 1 st s1)
        by (apply (moved_said R 1 _ st), (moved_trans R 0 1 _ _ _ Hm0 Hm1));
      destruct (IH s1 (moved_within _ _ _ _ Hm1')) as (st2 & Heach & Hm2)
    end.
    { destruct Hm1' as (_ & _ & Hself & _). simpl in Hself.
      eapply Forall_impl; [exact Hmiss|]. intros c Hc. simpl. rewrite Hself. exact Hc. }
    exists st2. split; [exact Heach|].
    apply (moved_trans R 1 (length cats) _ _ _ Hm1' Hm2).
Qed.

End RefusedParts.



(** ** A whole run of the tenant script that creates nothing *)

Section RefusedRun.
Context {Srv : Type} `{Transport Srv}.
Context (R : Srv -> Prop) (HR : refusing R).
Implicit Types st : State Srv json.

Lemma for_each_moved_each {A} n (l : list A) (body : A -> M Srv json unit) st :
  R (remote st) ->
  (forall x st0, In x l -> R (remote st0) ->
     exists st1, body x st0 = (Return tt, st1) /\ moved R n st0 st1) ->
  exists st', for_each l body st = (Return tt, st') /\ moved R (length l * n) st st'.
Proof.
  revert st. induction l as [|x l IH]; intros st HRst Hbody.
  - exists st. split; [reflexivity | apply moved_refl, HRst].
  - destruct (Hbody x st (or_introl eq_refl) HRst) as (st1 & Hx & Hm1).
    destruct (IH st1 (moved_within _ _ _ _ Hm1)) as (st2 & Hl & Hm2).
    { intros y st0 Hy. apply Hbody. right. exact Hy. }
    exists st2. split.
    + simpl for_each. rewrite bind_run, Hx. exact Hl.
    + apply (moved_trans R n (length l * n) _ _ _ Hm1 Hm2).
Qed.

Lemma run_refused user password tenants ts st st1 st2 :
  SeedTenants.wait_attempts 12 (said "Waiting for InvenTree API..." st)
  = (Return true, st1) ->
  SeedTenants.authenticate user password st1 = (Return true, st2) ->
  R (remote st2) ->
  (if truthy tenants then tenants else SeedTenants.DEFAULT_TENANTS) = JList ts ->
  forallb valid_tenant ts = true ->
  exists st3,
    SeedTenants.run user password tenants st = (Return true, st3)
    /\ moved R (length ts * 4) st2 st3.
Proof.
  intros Hwait Hauth HR2 Hts Hvalid. unfold SeedTenants.run.
  mstep. unfold said in Hwait. rewrite bind_run, Hwait.
  cbv beta iota delta [negb]. rewrite bind_run, Hauth. cbv beta iota.
  rewrite Hts. mstep. rewrite bind_run.
  destruct (for_each_moved_each 4 ts
              (fun tenant => SeedTenants.seed_tenant tenant >> ret tt) st2 HR2)
    as (st3 & -> & Hm).
  { intros tenant st0 Hin HR0.
    destruct (seed_tenant_refused R HR tenant st0 HR0) as (st4 & Hrun & Hm4).
    - rewrite forallb_forall in Hvalid. apply Hvalid, Hin.
    - exists st4. split; [|exact Hm4]. rewrite bind_run, Hrun. reflexivity. }
  cbv beta iota. eexists. split; [reflexivity|]. apply moved_said, Hm.
Qed.

End RefusedRun.

(** X18: an exit status 0 of the tenant script does not mean that anything
    was created: once the poll and the authentication have succeeded,
    with tenant descriptions it can read, against a remote whose lookups
    find nothing and that refuses every creation, [run] returns [True]
    after four requests per tenant and the script exits with 0. *)
Theorem tenant_run_reports_success :
  forall (Srv : Type) (T : Transport Srv) (R : Srv -> Prop)
         user password tenants ts (st st1 st2 : State Srv json),
    refusing R ->
    SeedTenants.wait_attempts 12 (said "Waiting for InvenTree API..." st)
    = (Return true, st1) ->
    SeedTenants.authenticate user password st1 = (Return true, st2) ->
    R (remote st2) ->
    (if truthy tenants then tenants else SeedTenants.DEFAULT_TENANTS) = JList ts ->
    forallb valid_tenant ts = true ->
    (exists st3,
        SeedTenants.run user password tenants st = (Return true, st3)
        /\ moved R (length ts * 4) st2 st3)
    /\ exit_status (fst (SeedTenants.main user password tenants st)) = 0.
Proof.
  intros Srv T R user password tenants ts st st1 st2 HR Hwait Hauth HR2 Hts Hvalid.
  destruct (run_refused R HR user password tenants ts st st1 st2 Hwait Hauth HR2 Hts Hvalid)
    as (st3 & Hrun & Hm).
  split; [exists st3; split; assumption|].
  apply (tenants_exit_success user password tenants st st3 Hrun).
Qed.

Lemma tenant_run_reports_success_witness :
  exit_status (fst (SeedTenants.main "admin" "admin123" JNull
                      (SeedTenants.TenantSeeder ReadOnly.empty))) = 0.
Proof.
  apply (tenant_run_reports_success ReadOnly.Server ReadOnly.read_only_transport
           ReadOnly.bare "admin" "admin123" JNull
           [JDict [("name", JStr "demo"); ("display_name", JStr "Demo Tenant");
                   ("description", JStr "Default demo tenant for testing");
                   ("users", JList [JDict [("username", JStr "demo_user");
                                           ("password", JStr "demo123");
                                           ("email", JStr "demo@inventory.local")]])]]
           (SeedTenants.TenantSeeder ReadOnly.empty)
           (snd (SeedTenants.wait_attempts 12
                   (said "Waiting for InvenTree API..."
                      (SeedTenants.TenantSeeder ReadOnly.empty))))
           (snd (SeedTenants.authenticate "admin" "admin123"
                   (snd (SeedTenants.wait_attempts 12
                           (said "Waiting for InvenTree API..."
                              (SeedTenants.TenantSeeder ReadOnly.empty))))))).
  - exact read_only_refusing.
  - vm_compute. reflexivity.
  - vm_compute. reflexivity.
  - vm_compute. reflexivity.
  - reflexivity.
  - reflexivity.
Defined.

(** ** [create_user] creates no user *)

Section CreateUser.
Context {Srv : Type} `{Transport Srv}.
Implicit Types st : State Srv json.

Lemma find_user_sends_nothing username l st :
  sent (trace (snd (SeedTenants.find_user username l st))) = sent (trace st)
  /\ remote (snd (SeedTenants.find_user username l st)) = remote st.
Proof.
  revert st. induction l as [|u l IH]; intros st; [split; reflexivity|].
  simpl SeedTenants.find_user. unfold dict_get, getitem.
  destruct u as [| | | | |d]; try (split; reflexivity).
  cbv beta iota delta [bind ret].
  destruct (eq_str _ username); [|apply IH].
  destruct (assoc "pk" d); cbv beta iota delta [raise print emit]; simpl;
    rewrite ?sent_app, ?app_nil_r; split; reflexivity.
Qed.

(** X19: [create_user] creates no user: whatever the remote answers, or if
    nothing answers, it sends the lookup by username and nothing else;
    when the lookup is answered by an error status or an empty list it
    returns [None]. *)
Theorem create_user_creates_nothing username password email groups st :
  (sent (trace (snd (SeedTenants.create_user username password email groups st)))
   = sent (trace st)
     ++ [mkRequest GET "/user/" [("username", JStr username)] None (session st)]
   /\ remote (snd (SeedTenants.create_user username password email groups st))
      = snd (send (mkRequest GET "/user/" [("username", JStr username)] None (session st))
               (remote st)))
  /\ forall resp srv',
       send (mkRequest GET "/user/" [("username", JStr username)] None (session st))
            (remote st) = (Answer resp, srv') ->
       nothing_found resp ->
       fst (SeedTenants.create_user username password email groups st) = Return JNull.
Proof.
  unfold SeedTenants.create_user. split.
  - rewrite bind_run. unfold session_get, request.
    destruct (send _ (remote st)) as [[resp|] srv1]; cbv beta iota zeta;
      [|simpl; rewrite sent_app; split; reflexivity].
    rewrite bind_run.
    destruct (status_code resp =? 200);
      [|simpl; rewrite !sent_app; simpl; rewrite ?app_nil_r; split; reflexivity].
    rewrite bind_run. unfold response_json.
    destruct (json_body resp) as [users|];
      [|simpl; rewrite sent_app; split; reflexivity].
    cbv beta iota delta [ret].
    destruct users as [| | | |l|];
      try (simpl; rewrite !sent_app; simpl; rewrite ?app_nil_r; split; reflexivity).
    match goal with |- context [SeedTenants.find_user username l ?s0] =>
      destruct (find_user_sends_nothing username l s0) as [Hsent Hremote];
      destruct (SeedTenants.find_user username l s0) as [[[pk|]|e] st1]
    end;
      simpl in Hsent, Hremote; simpl;
      rewrite ?sent_app, Hsent, Hremote, ?sent_app; simpl; rewrite ?app_nil_r;
      split; reflexivity.
  - intros resp srv' Hsend Hnf.
    rewrite bind_run. unfold session_get, request. rewrite Hsend. cbv beta iota zeta.
    rewrite bind_run. destruct Hnf as [Hne|Hbody].
    + apply Z.eqb_neq in Hne. rewrite Hne. reflexivity.
    + destruct (status_code resp =? 200); [|reflexivity].
      rewrite bind_run. unfold response_json. rewrite Hbody. reflexivity.
Qed.

End CreateUser.

Lemma create_user_creates_nothing_witness :
  fst (SeedTenants.create_user "demo_user" "demo123" "demo@inventory.local" JNull
         (SeedTenants.TenantSeeder unauthorized))
  = Return JNull.
Proof.
  eapply (proj2 (create_user_creates_nothing (H := Stateless.stateless)
                   "demo_user" "demo123" "demo@inventory.local" JNull
                   (SeedTenants.TenantSeeder unauthorized))).
  - reflexivity.
  - left. vm_compute. discriminate.
Defined.

(** ** The warehouse script against the model application *)

Section Settles.
Context (k : Remote.Kind).
Implicit Types s : Remote.Server.

Lemma settles_nil s : Remote.settles k [] s s.
Proof. split; [apply extends_refl|]. split; [constructor | reflexivity]. Qed.

Lemma settles_trans n1 n2 s s1 s2 :
  Remote.settles k n1 s s1 -> Remote.settles k n2 s1 s2 ->
  Remote.settles k (n1 ++ n2) s s2.
Proof.
  intros (He1 & Hp1 & Hs1) (He2 & Hp2 & Hs2). split; [eapply extends_trans; eassumption|].
  split.
  - apply Forall_app. split; [|exact Hp2].
    eapply Forall_impl; [exact Hp1|]. intros n Hn. simpl in *.
    eapply present_extends; eassumption.
  - intros Hall. apply Forall_app in Hall as [Hall1 Hall2].
    rewrite <- (Hs1 Hall1). apply Hs2. rewrite (Hs1 Hall1). exact Hall2.
Qed.

Lemma settles_present n s : Remote.present k n s = true -> Remote.settles k [n] s s.
Proof.
  intros Hp. split; [apply extends_refl|]. split; [|reflexivity].
  constructor; [exact Hp | constructor].
Qed.

Lemma settles_create n d s :
  Remote.present k n s = false ->
  Remote.settles k [n] s
    (Remote.mkServer (Remote.db s ++ [Remote.mkResource k (Remote.next_pk s) n d])
       (Remote.next_pk s + 1)).
Proof.
  intros Hp. split; [apply extends_create, Hp|]. split.
  - constructor; [|constructor].
    unfold Remote.present, Remote.is_named. simpl.
    rewrite existsb_app. simpl.
    rewrite bool_decide_eq_true_2, String.eqb_refl by reflexivity. apply orb_true_r.
  - intros Hall. apply Forall_cons in Hall as [Hn _]. congruence.
Qed.

End Settles.

Section WarehouseOnRemote.
Implicit Types st : State Remote.Server (gmap string json).

Lemma for_each_settles {A} k (f : A -> list string) (l : list A)
    (body : A -> M Remote.Server (gmap string json) unit) st :
  (forall x st0,
     exists st1, body x st0 = (Return tt, st1)
                 /\ Remote.settles k (f x) (remote st0) (remote st1)) ->
  exists st', for_each l body st = (Return tt, st')
              /\ Remote.settles k (flat_map f l) (remote st) (remote st').
Proof.
  intros Hbody. revert st. induction l as [|x l IH]; intros st.
  - exists st. split; [reflexivity | apply settles_nil].
  - destruct (Hbody x st) as (st1 & Hx & Hs1).
    destruct (IH st1) as (st2 & Hl & Hs2).
    exists st2. split.
    + simpl for_each. rewrite bind_run, Hx. exact Hl.
    + simpl flat_map. eapply settles_trans; eassumption.
Qed.

Lemma create_location_remote name description parent_id st :
  exists d pk st',
    SeedLocations.create_location name description parent_id st = (Return (JDict d), st')
    /\ assoc "pk" d = Some pk
    /\ Remote.settles Remote.Location [name] (remote st) (remote st').
Proof.
  destruct (Remote.present Remote.Location name (remote st)) eqn:Hp.
  - destruct (select_present _ _ _ Hp) as (r & l & Hsel).
    unfold SeedLocations.create_location, SeedLocations.location_payload. run_monad.
    unfold send, Remote.remote_transport, Remote.handle. simpl.
    rewrite Hp. simpl.
    unfold SeedLocations._get_existing_location. run_monad.
    unfold send, Remote.remote_transport, Remote.handle. simpl.
    rewrite Hsel. simpl.
    eexists. eexists. eexists. split; [reflexivity|]. split; [reflexivity|].
    apply settles_present, Hp.
  - unfold SeedLocations.create_location, SeedLocations.location_payload. run_monad.
    unfold send, Remote.remote_transport, Remote.handle. simpl.
    rewrite Hp. simpl.
    eexists. eexists. eexists. split; [reflexivity|]. split; [reflexivity|].
    apply settles_create, Hp.
Qed.

Lemma seed_shelf_remote zone col (ps : bool) column_id level st :
  exists st',
    SeedLocations.seed_shelf zone col ps column_id level st = (Return tt, st')
    /\ Remote.settles Remote.Location
         (SeedLocations.shelf_name zone col level
          :: if ps then []
             else [SeedLocations.shelf_name zone col level ++ "-A";
                   SeedLocations.shelf_name zone col level ++ "-B"]%string)
         (remote st) (remote st').
Proof.
  unfold SeedLocations.seed_shelf. cbv zeta. rewrite bind_run.
  match goal with |- context [SeedLocations.create_location ?n ?a ?b st] =>
    destruct (create_location_remote n a b st) as (d & pk & st1 & -> & Hpk & Hs1)
  end.
  cbv beta iota. rewrite (truthy_dict_with_key _ _ _ Hpk). cbv beta iota delta [negb].
  rewrite bind_run. unfold dict_get. rewrite Hpk. cbv beta iota delta [ret].
  destruct ps; cbv beta iota.
  - eexists. split; [reflexivity|]. exact Hs1.
  - rewrite bind_run.
    match goal with |- context [SeedLocations.create_location ?n ?a ?b st1] =>
      destruct (create_location_remote n a b st1) as (d2 & pk2 & st2 & -> & _ & Hs2)
    end.
    cbv beta iota. rewrite bind_run.
    match goal with |- context [SeedLocations.create_location ?n ?a ?b st2] =>
      destruct (create_location_remote n a b st2) as (d3 & pk3 & st3 & -> & _ & Hs3)
    end.
    cbv beta iota. eexists. split; [reflexivity|].
    apply (settles_trans _ [_] [_; _] _ _ _ Hs1), (settles_trans _ [_] [_] _ _ _ Hs2), Hs3.
Qed.

Lemma seed_column_remote zone zone_id col st :
  exists st',
    SeedLocations.seed_column zone zone_id col st = (Return tt, st')
    /\ Remote.settles Remote.Location (column_names zone col) (remote st) (remote st').
Proof.
  unfold SeedLocations.seed_column. cbv zeta. mstep. rewrite bind_run.
  match goal with |- context [SeedLocations.create_location ?n ?a ?b ?s0] =>
    destruct (create_location_remote n a b s0) as (d & pk & st1 & -> & Hpk & Hs1)
  end.
  cbv beta iota. rewrite (truthy_dict_with_key _ _ _ Hpk). cbv beta iota delta [negb].
  rewrite bind_run. unfold dict_get. rewrite Hpk. cbv beta iota delta [ret].
  destruct (for_each_settles Remote.Location (shelf_names zone col)
              (SeedLocations.range1 SeedLocations.LEVELS)
              (SeedLocations.seed_shelf zone col
                 (String.eqb (SeedLocations.column_name zone col)
                    SeedLocations.POWER_SUPPLY_COLUMN) pk) st1)
    as (st2 & Hloop & Hs2).
  { intros level st0. apply seed_shelf_remote. }
  exists st2. split; [exact Hloop|].
  apply (settles_trans _ [_] _ _ _ _ Hs1), Hs2.
Qed.

Lemma seed_zone_remote warehouse_id zone st :
  exists st',
    SeedLocations.seed_zone warehouse_id zone st = (Return tt, st')
    /\ Remote.settles Remote.Location (zone_names zone) (remote st) (remote st').
Proof.
  unfold SeedLocations.seed_zone. mstep. rewrite bind_run.
  match goal with |- context [SeedLocations.create_location ?n ?a ?b ?s0] =>
    destruct (create_location_remote n a b s0) as (d & pk & st1 & -> & Hpk & Hs1)
  end.
  cbv beta iota. rewrite (truthy_dict_with_key _ _ _ Hpk). cbv beta iota delta [negb].
  rewrite bind_run. unfold dict_get. rewrite Hpk. cbv beta iota delta [ret].
  mstep.
  match goal with |- context [for_each ?l ?body ?s1] =>
    destruct (for_each_settles Remote.Location (column_names zone) l body s1)
      as (st2 & Hloop & Hs2);
      [intros col st0; apply seed_column_remote|]
  end.
  exists st2. split; [exact Hloop|].
  apply (settles_trans _ [_] _ _ _ _ Hs1), Hs2.
Qed.

Lemma seed_warehouse_remote st :
  exists st',
    SeedLocations.seed_warehouse st = (Return true, st')
    /\ Remote.settles Remote.Location hierarchy_names (remote st) (remote st').
Proof.
  unfold SeedLocations.seed_warehouse. mstep. rewrite bind_run.
  match goal with |- context [SeedLocations.create_location ?n ?a ?b ?s0] =>
    destruct (create_location_remote n a b s0) as (d & pk & st1 & -> & Hpk & Hs1)
  end.
  cbv beta iota. rewrite (truthy_dict_with_key _ _ _ Hpk). cbv beta iota delta [negb].
  rewrite bind_run. unfold dict_get. rewrite Hpk. cbv beta iota delta [ret].
  mstep. rewrite bind_run.
  match goal with |- context [for_each ?l ?body ?s1] =>
    destruct (for_each_settles Remote.Location zone_names l body s1)
      as (st2 & -> & Hs2);
      [intros zone st0; apply seed_zone_remote|]
  end.
  cbv beta iota. eexists. split; [reflexivity|].
  apply (settles_trans _ [_] _ _ _ _ Hs1), Hs2.
Qed.

End WarehouseOnRemote.

Lemma locations_wait_for_api_remote (st : State Remote.Server (gmap string json)) :
  fst (SeedLocations.wait_for_api 30 5 st) = Return true
  /\ remote (snd (SeedLocations.wait_for_api 30 5 st)) = remote st.
Proof. split; vm_compute; reflexivity. Qed.

Lemma locations_get_api_token_remote (st : State Remote.Server (gmap string json)) :
  (exists token, fst (SeedLocations.get_api_token st) = Return token)
  /\ remote (snd (SeedLocations.get_api_token st)) = remote st.
Proof. split; [eexists|]; vm_compute; reflexivity. Qed.

Lemma locations_main_remote s user password :
  exists st',
    SeedLocations.main (SeedLocations.InvenTreeSeeder s user password) = (Return tt, st')
    /\ Remote.settles Remote.Location hierarchy_names s (remote st').
Proof.
  set (st0 := SeedLocations.InvenTreeSeeder s user password).
  change s with (remote st0) at 1.
  destruct (locations_wait_for_api_remote st0) as [Hw Hwr].
  destruct (SeedLocations.wait_for_api 30 5 st0) as [r st1] eqn:Hwait.
  simpl in Hw, Hwr. subst r.
  destruct (locations_get_api_token_remote st1) as [[token Ht] Htr].
  destruct (SeedLocations.get_api_token st1) as [r st2] eqn:Htoken.
  simpl in Ht, Htr. subst r.
  destruct (seed_warehouse_remote st2) as (st3 & Hseed & Hs).
  rewrite Htr, Hwr in Hs.
  unfold SeedLocations.main. rewrite bind_run, Hwait. cbv beta iota delta [negb].
  rewrite bind_run, Htoken. cbv beta iota. rewrite bind_run, Hseed. cbv beta iota.
  eexists. split; [reflexivity|]. exact Hs.
Qed.


(** ** The tenant script against the model application *)

Section TenantOnRemote.
Implicit Types st : State Remote.Server json.
Implicit Types s : Remote.Server.

Lemma select_named k name ps s r :
  r ∈ Remote.select k (("name", JStr name) :: ps) s ->
  r ∈ Remote.db s /\ Remote.name r = name.
Proof.
  unfold Remote.select. rewrite list_elem_of_filter. intros [Hsat Hin].
  split; [exact Hin|].
  apply Is_true_true, andb_prop in Hsat as [_ Hsat]. simpl in Hsat.
  apply andb_prop in Hsat as [Hn _]. apply String.eqb_eq in Hn. congruence.
Qed.

Lemma select_absent k name ps s :
  Remote.present k name s = false -> Remote.select k (("name", JStr name) :: ps) s = [].
Proof.
  intros Hp. unfold Remote.select, Remote.present, Remote.is_named in *.
  induction (Remote.db s) as [|r l IH]; [reflexivity|].
  simpl in Hp. apply orb_false_elim in Hp as [Hr Hl].
  rewrite filter_cons, (IH Hl). destruct (decide _) as [Hd|Hd]; [|reflexivity].
  exfalso. apply Is_true_true, andb_prop in Hd as [Hk Hsat]. simpl in Hsat.
  apply andb_prop in Hsat as [Hn _].
  rewrite Hk, String.eqb_sym, Hn in Hr. discriminate.
Qed.

(** What the lookup of the tenant script finds in a listing of the
    application: the first resource, if any. *)
Lemma find_named_listing what name rs st :
  Forall (fun r => Remote.name r = name
                   /\ assoc "name" (Remote.fields r) = Some (JStr name)) rs ->
  SeedTenants.find_named what name (map Remote.to_json rs) st
  = match rs with
    | [] => (Return None, st)
    | r :: _ =>
        (Return (Some (JNum (Remote.pk r))),
         said (what ++ " '" ++ name ++ "' already exists (ID: "
               ++ str (JNum (Remote.pk r)) ++ ")")%string st)
    end.
Proof.
  intros Hall. destruct Hall as [|r rs [_ Hname] _]; [reflexivity|].
  simpl. unfold Remote.to_json at 1. unfold dict_get, getitem. simpl assoc.
  rewrite Hname. cbv beta iota delta [bind ret eq_str]. rewrite String.eqb_refl.
  reflexivity.
Qed.

Lemma listing_named k name ps s :
  Remote.coherent s ->
  Forall (fun r => Remote.name r = name
                   /\ assoc "name" (Remote.fields r) = Some (JStr name))
         (Remote.select k (("name", JStr name) :: ps) s).
Proof.
  intros Hco. apply Forall_forall. intros r Hr.
  destruct (select_named _ _ _ _ _ Hr) as [Hin Hn]. split; [exact Hn|].
  unfold Remote.coherent in Hco. rewrite Forall_forall in Hco.
  rewrite (Hco r Hin), Hn. reflexivity.
Qed.

Lemma listed_positive k name ps s r rs :
  Remote.wf s ->
  Remote.select k (("name", JStr name) :: ps) s = r :: rs ->
  0 < Remote.pk r /\ Remote.present k name s = true.
Proof.
  intros (Hpk & _ & _) Hsel.
  assert (Hr : r ∈ Remote.select k (("name", JStr name) :: ps) s)
    by (rewrite Hsel; left).
  destruct (select_named _ _ _ _ _ Hr) as [Hin Hn]. split.
  - rewrite Forall_forall in Hpk. apply (Hpk r Hin).
  - destruct (Remote.present k name s) eqn:Hp; [reflexivity|].
    rewrite (select_absent _ _ _ _ Hp) in Hsel. discriminate.
Qed.

Lemma coherent_create k n d s :
  assoc "name" d = Some (JStr n) ->
  Remote.coherent s ->
  Remote.coherent
    (Remote.mkServer (Remote.db s ++ [Remote.mkResource k (Remote.next_pk s) n d])
       (Remote.next_pk s + 1)).
Proof.
  intros Hd Hco. unfold Remote.coherent in *. simpl.
  apply Forall_app. split; [exact Hco|]. constructor; [exact Hd | constructor].
Qed.

Lemma get_or_create_location_remote name description parent st :
  Remote.wf (remote st) -> Remote.coherent (remote st) ->
  exists v st',
    SeedTenants.get_or_create_location name description parent st = (Return v, st')
    /\ Remote.wf (remote st') /\ Remote.coherent (remote st')
    /\ Remote.settles Remote.Location [name] (remote st) (remote st')
    /\ (truthy parent = false -> truthy v = true).
Proof.
  intros Hwf Hco. unfold SeedTenants.get_or_create_location. cbv zeta.
  rewrite bind_run. unfold session_get, request.
  unfold send at 1, Remote.remote_transport, Remote.handle.
  cbn [meth url params Remote.kind_of_url String.eqb Ascii.eqb Bool.eqb app].
  set (ps := if truthy parent then [("parent", parent)] else []).
  pose proof (listing_named Remote.Location name ps (remote st) Hco) as Hall.
  unfold Remote.ok. cbv beta iota. rewrite bind_run.
  unfold SeedTenants.lookup_named. cbn [status_code json_body].
  change (200 =? 200) with true. cbv beta iota.
  rewrite bind_run. unfold response_json. cbn [json_body]. cbv beta iota delta [ret].
  destruct (Remote.select Remote.Location (("name", JStr name) :: ps) (remote st))
    as [|r rs] eqn:Hsel.
  - cbn [map]. cbv beta iota.
    rewrite bind_run. unfold session_post, request.
    unfold send at 1, Remote.remote_transport, Remote.handle.
    cbn [meth url payload Remote.kind_of_url String.eqb Ascii.eqb Bool.eqb
         Remote.create assoc remote].
    destruct (Remote.present Remote.Location name (remote st)) eqn:Hp.
    + unfold Remote.conflict. cbv beta iota. cbn [status_code].
      change ((400 =? 200) || (400 =? 201)) with false. cbv beta iota.
      eexists. eexists. split; [reflexivity|]. cbn [remote].
      split; [exact Hwf|]. split; [exact Hco|]. split; [apply settles_present, Hp|].
      intros Hparent. exfalso. subst ps. rewrite Hparent in Hsel.
      destruct (select_present _ _ _ Hp) as (r & l & Hsel'). congruence.
    + cbv beta iota. cbn [status_code]. change ((201 =? 200) || (201 =? 201)) with true.
      cbv beta iota. rewrite bind_run. unfold response_json. cbn [json_body].
      cbv beta iota delta [ret]. unfold Remote.to_json. cbn [Remote.pk].
      rewrite bind_run. unfold dict_get. cbn [assoc String.eqb Ascii.eqb Bool.eqb].
      cbv beta iota delta [ret].
      eexists. eexists. split; [reflexivity|]. cbn [remote said].
      destruct (extends_create Remote.Location name
                  (("name", JStr name) :: ("description", description) :: ps)
                  (remote st) Hp) as [_ Hwf'].
      split; [exact (Hwf' Hwf)|].
      split; [apply coherent_create; [reflexivity | exact Hco]|].
      split; [apply settles_create, Hp|].
      intros _. destruct Hwf as (_ & Hnext & _). simpl.
      apply negb_true_iff, Z.eqb_neq. lia.
  - cbn [map]. cbv beta iota.
    change (Remote.to_json r :: map Remote.to_json rs)
      with (map Remote.to_json (r :: rs)).
    rewrite (find_named_listing _ _ _ _ Hall). cbv beta iota.
    destruct (listed_positive _ _ _ _ _ _ Hwf Hsel) as [Hpos Hp].
    eexists. eexists. split; [reflexivity|]. cbn [remote said].
    split; [exact Hwf|]. split; [exact Hco|]. split; [apply settles_present, Hp|].
    intros _. simpl. apply negb_true_iff, Z.eqb_neq. lia.
Qed.

Lemma get_or_create_group_remote name st :
  Remote.wf (remote st) -> Remote.coherent (remote st) ->
  exists v st',
    SeedTenants.get_or_create_group name st = (Return v, st')
    /\ Remote.wf (remote st') /\ Remote.coherent (remote st')
    /\ Remote.settles Remote.Group [name] (remote st) (remote st').
Proof.
  intros Hwf Hco. unfold SeedTenants.get_or_create_group.
  rewrite bind_run. unfold session_get, request.
  unfold send at 1, Remote.remote_transport, Remote.handle.
  cbn [meth url params Remote.kind_of_url String.eqb Ascii.eqb Bool.eqb app].
  pose proof (listing_named Remote.Group name [] (remote st) Hco) as Hall.
  unfold Remote.ok. cbv beta iota. rewrite bind_run.
  unfold SeedTenants.lookup_named. cbn [status_code json_body].
  change (200 =? 200) with true. cbv beta iota.
  rewrite bind_run. unfold response_json. cbn [json_body]. cbv beta iota delta [ret].
  destruct (Remote.select Remote.Group [("name", JStr name)] (remote st))
    as [|r rs] eqn:Hsel.
  - cbn [map]. cbv beta iota.
    rewrite bind_run. unfold session_post, request.
    unfold send at 1, Remote.remote_transport, Remote.handle.
    cbn [meth url payload Remote.kind_of_url String.eqb Ascii.eqb Bool.eqb
         Remote.create assoc remote].
    destruct (Remote.present Remote.Group name (remote st)) eqn:Hp.
    + destruct (select_present _ _ _ Hp) as (r & l & Hsel'). congruence.
    + cbv beta iota. cbn [status_code]. change ((201 =? 200) || (201 =? 201)) with true.
      cbv beta iota. rewrite bind_run. unfold response_json. cbn [json_body].
      cbv beta iota delta [ret]. unfold Remote.to_json. cbn [Remote.pk].
      rewrite bind_run. unfold dict_get. cbn [assoc String.eqb Ascii.eqb Bool.eqb].
      cbv beta iota delta [ret].
      eexists. eexists. split; [reflexivity|]. cbn [remote said].
      destruct (extends_create Remote.Group name [("name", JStr name)]
                  (remote st) Hp) as [_ Hwf'].
      split; [exact (Hwf' Hwf)|].
      split; [apply coherent_create; [reflexivity | exact Hco]|].
      apply settles_create, Hp.
  - cbn [map]. cbv beta iota.
    change (Remote.to_json r :: map Remote.to_json rs)
      with (map Remote.to_json (r :: rs)).
    rewrite (find_named_listing _ _ _ _ Hall). cbv beta iota.
    destruct (listed_positive _ _ _ _ _ _ Hwf Hsel) as [Hpos Hp].
    eexists. eexists. split; [reflexivity|]. cbn [remote said].
    split; [exact Hwf|]. split; [exact Hco|]. apply settles_present, Hp.
Qed.

End TenantOnRemote.

(** ** A tenant against the model application *)

Section SettlesAll.
Implicit Types s : Remote.Server.

Lemma settles_all_nil s : Remote.settles_all [] s s.
Proof. split; [apply extends_refl|]. split; [constructor | reflexivity]. Qed.

Lemma settles_all_trans k1 k2 s s1 s2 :
  Remote.settles_all k1 s s1 -> Remote.settles_all k2 s1 s2 ->
  Remote.settles_all (k1 ++ k2) s s2.
Proof.
  intros (He1 & Hp1 & Hs1) (He2 & Hp2 & Hs2). split; [eapply extends_trans; eassumption|].
  split.
  - apply Forall_app. split; [|exact Hp2].
    eapply Forall_impl; [exact Hp1|]. intros n Hn. simpl in *.
    eapply present_extends; eassumption.
  - intros Hall. apply Forall_app in Hall as [Hall1 Hall2].
    rewrite <- (Hs1 Hall1). apply Hs2. rewrite (Hs1 Hall1). exact Hall2.
Qed.

Lemma settles_all_of k names s s' :
  Remote.settles k names s s' -> Remote.settles_all (map (pair k) names) s s'.
Proof.
  intros (He & Hp & Hs). split; [exact He|]. split.
  - apply Forall_map. exact Hp.
  - intros Hall. apply Hs. apply Forall_map in Hall. exact Hall.
Qed.

End SettlesAll.

Section TenantLoops.
Implicit Types st : State Remote.Server json.

(** A loop whose every turn settles its names and keeps the store well
    formed and coherent. *)
Lemma for_each_settles_sound {A} k (f : A -> list string) (l : list A)
    (body : A -> M Remote.Server json unit) st :
  (forall x st0,
     Remote.wf (remote st0) -> Remote.coherent (remote st0) ->
     exists st1, body x st0 = (Return tt, st1)
                 /\ Remote.wf (remote st1) /\ Remote.coherent (remote st1)
                 /\ Remote.settles k (f x) (remote st0) (remote st1)) ->
  Remote.wf (remote st) -> Remote.coherent (remote st) ->
  exists st', for_each l body st = (Return tt, st')
              /\ Remote.wf (remote st') /\ Remote.coherent (remote st')
              /\ Remote.settles k (flat_map f l) (remote st) (remote st').
Proof.
  intros Hbody. revert st. induction l as [|x l IH]; intros st Hwf Hco.
  - exists st. split; [reflexivity|]. split; [exact Hwf|]. split; [exact Hco|].
    apply settles_nil.
  - destruct (Hbody x st Hwf Hco) as (st1 & Hx & Hwf1 & Hco1 & Hs1).
    destruct (IH st1 Hwf1 Hco1) as (st2 & Hl & Hwf2 & Hco2 & Hs2).
    exists st2. split.
    + simpl for_each. rewrite bind_run, Hx. exact Hl.
    + split; [exact Hwf2|]. split; [exact Hco2|].
      simpl flat_map. eapply settles_trans; eassumption.
Qed.

Lemma flat_map_singleton {A B} (f : A -> B) (l : list A) :
  flat_map (fun x => [f x]) l = map f l.
Proof. induction l as [|x l IH]; simpl; [|rewrite IH]; reflexivity. Qed.

Lemma sublocations_remote location_id st :
  Remote.wf (remote st) -> Remote.coherent (remote st) ->
  exists st',
    for_each SeedTenants.zones
      (fun zone =>
         for_each (map Z.of_nat (seq 1 (Z.to_nat SeedTenants.columns)))
           (fun col =>
              SeedTenants.get_or_create_location (SeedTenants.subloc_name zone col)
                (JStr "") location_id
              >> ret tt)) st
    = (Return tt, st')
    /\ Remote.wf (remote st') /\ Remote.coherent (remote st')
    /\ Remote.settles Remote.Location
         (flat_map (fun zone =>
                      map (SeedTenants.subloc_name zone)
                          (map Z.of_nat (seq 1 (Z.to_nat SeedTenants.columns))))
                   SeedTenants.zones)
         (remote st) (remote st').
Proof.
  apply for_each_settles_sound. intros zone st0 Hwf0 Hco0.
  rewrite <- (flat_map_singleton (SeedTenants.subloc_name zone)).
  apply for_each_settles_sound; [|exact Hwf0|exact Hco0].
  intros col st1 Hwf1 Hco1.
  destruct (get_or_create_location_remote (SeedTenants.subloc_name zone col)
              (JStr "") location_id st1 Hwf1 Hco1)
    as (v & st2 & Hrun & Hwf2 & Hco2 & Hs2 & _).
  exists st2. rewrite bind_run, Hrun. auto.
Qed.

Lemma user_notes_remote us st :
  forallb valid_user us = true ->
  exists st',
    for_each us
      (fun user =>
         let* username := getitem user "username" in
         let* email := getitem user "email" in
         print ("createsuperuser --username " ++ str username
                ++ " --email " ++ str email)) st
    = (Return tt, st')
    /\ remote st' = remote st.
Proof.
  revert st. induction us as [|user us IH]; intros st Hv.
  - exists st. split; reflexivity.
  - simpl in Hv. apply andb_prop in Hv as [Hu Hus].
    destruct user as [| | | | |d]; try discriminate.
    simpl in Hu. apply andb_prop in Hu as [Hn He].
    apply bool_decide_eq_true in Hn as [username Hn], He as [email He].
    simpl for_each. unfold getitem at 1 2. rewrite Hn, He.
    cbv beta iota delta [bind ret print emit].
    match goal with |- context [for_each us ?body ?s0] =>
      destruct (IH s0 Hus) as (st' & Hrun & Hremote)
    end.
    exists st'. split; [exact Hrun | exact Hremote].
Qed.

Lemma seed_tenant_remote d n st :
  Remote.wf (remote st) -> Remote.coherent (remote st) ->
  valid_tenant (JDict d) = true ->
  assoc "name" d = Some (JStr n) ->
  exists st',
    SeedTenants.seed_tenant (JDict d) st = (Return true, st')
    /\ Remote.wf (remote st') /\ Remote.coherent (remote st')
    /\ Remote.settles_all
         (tenant_keys n
            (str (match assoc "display_name" d with
                  | Some x => x
                  | None => JStr (title n)
                  end)))
         (remote st) (remote st').
Proof.
  intros Hwf Hco Hv Hname. simpl in Hv. rewrite Hname in Hv.
  unfold SeedTenants.seed_tenant.
  erewrite bind_return; [|unfold getitem; rewrite Hname; reflexivity]. cbv beta.
  do 4 mstep. rewrite bind_run.
  match goal with |- context [SeedTenants.get_or_create_group ?g ?s0] =>
    destruct (get_or_create_group_remote g s0 Hwf Hco)
      as (gid & st1 & -> & Hwf1 & Hco1 & Hs1)
  end.
  cbv beta iota. rewrite bind_run.
  match goal with |- context [SeedTenants.get_or_create_location ?a ?b ?c st1] =>
    destruct (get_or_create_location_remote a b c st1 Hwf1 Hco1)
      as (lid & st2 & -> & Hwf2 & Hco2 & Hs2 & Htruthy)
  end.
  cbv beta iota. rewrite (Htruthy eq_refl). cbv beta iota. rewrite bind_run.
  destruct (sublocations_remote lid st2 Hwf2 Hco2) as (st3 & -> & Hwf3 & Hco3 & Hs3).
  cbv beta iota.
  assert (Hall : Remote.settles_all
                   (tenant_keys n
                      (str (match assoc "display_name" d with
                            | Some x => x
                            | None => JStr (title n)
                            end)))
                   (remote st) (remote st3)).
  { apply (settles_all_trans [_] _ _ _ _ (settles_all_of _ _ _ _ Hs1)).
    apply settles_all_of.
    apply (settles_trans _ [_] _ _ _ _ Hs2 Hs3). }
  clear Hs1 Hs2 Hs3. do 1 mstep.
  destruct (assoc "users" d) as [users|].
  - destruct (truthy users) eqn:Hu.
    + destruct users as [| | | |us|]; try discriminate.
      destruct (user_notes_remote us
                  (said "To create tenant users, use InvenTree admin panel or run:" st3) Hv)
        as (st4 & Hloop & Hremote).
      erewrite bind_return; [|mstep; mstep; exact Hloop].
      eexists. split; [reflexivity|]. rewrite Hremote. auto.
    + mstep. eexists. split; [reflexivity|]. auto.
  - change (truthy JNull) with false. cbv iota. mstep.
    eexists. split; [reflexivity|]. auto.
Qed.

Lemma tenants_remote ts st :
  Remote.wf (remote st) -> Remote.coherent (remote st) ->
  forallb valid_tenant ts = true ->
  exists st',
    for_each ts (fun tenant => SeedTenants.seed_tenant tenant >> ret tt) st
    = (Return tt, st')
    /\ Remote.wf (remote st') /\ Remote.coherent (remote st')
    /\ Remote.settles_all (flat_map keys_of_tenant ts) (remote st) (remote st').
Proof.
  revert st. induction ts as [|t ts IH]; intros st Hwf Hco Hv.
  - exists st. split; [reflexivity|]. split; [exact Hwf|]. split; [exact Hco|].
    apply settles_all_nil.
  - simpl in Hv. apply andb_prop in Hv as [Ht Hts].
    assert (Hshape : exists d n, t = JDict d /\ assoc "name" d = Some (JStr n)).
    { destruct t as [| | | | |d]; try discriminate. simpl in Ht.
      destruct (assoc "name" d) as [[| | |n| |]|] eqn:Hn; try discriminate.
      exists d, n. split; reflexivity || exact Hn. }
    destruct Hshape as (d & n & -> & Hname).
    destruct (seed_tenant_remote d n st Hwf Hco Ht Hname)
      as (st1 & Hrun & Hwf1 & Hco1 & Hs1).
    destruct (IH st1 Hwf1 Hco1 Hts) as (st2 & Hloop & Hwf2 & Hco2 & Hs2).
    exists st2. split.
    + simpl for_each. rewrite !bind_run, Hrun. exact Hloop.
    + split; [exact Hwf2|]. split; [exact Hco2|].
      simpl flat_map. unfold keys_of_tenant at 1. rewrite Hname.
      eapply settles_all_trans; eassumption.
Qed.

Lemma tenants_wait_remote st :
  fst (SeedTenants.wait_attempts 12 st) = Return true
  /\ remote (snd (SeedTenants.wait_attempts 12 st)) = remote st.
Proof. split; vm_compute; reflexivity. Qed.

Lemma authenticate_remote user password st :
  fst (SeedTenants.authenticate user password st) = Return true
  /\ remote (snd (SeedTenants.authenticate user password st)) = remote st.
Proof. split; vm_compute; reflexivity. Qed.

Lemma tenants_main_remote user password tenants ts s :
  Remote.wf s -> Remote.coherent s ->
  (if truthy tenants then tenants else SeedTenants.DEFAULT_TENANTS) = JList ts ->
  forallb valid_tenant ts = true ->
  exists st',
    SeedTenants.main user password tenants (SeedTenants.TenantSeeder s)
    = (Raise (SystemExit 0), st')
    /\ Remote.wf (remote st') /\ Remote.coherent (remote st')
    /\ Remote.settles_all (flat_map keys_of_tenant ts) s (remote st').
Proof.
  intros Hwf Hco Hts Hv.
  set (st0 := said "Waiting for InvenTree API..." (SeedTenants.TenantSeeder s)).
  destruct (tenants_wait_remote st0) as [Hw Hwr].
  destruct (SeedTenants.wait_attempts 12 st0) as [r st1] eqn:Hwait.
  simpl in Hw, Hwr. subst r.
  destruct (authenticate_remote user password st1) as [Ha Har].
  destruct (SeedTenants.authenticate user password st1) as [r st2] eqn:Hauth.
  simpl in Ha, Har. subst r.
  assert (Hr2 : remote st2 = s) by (rewrite Har, Hwr; reflexivity).
  destruct (tenants_remote ts st2) as (st3 & Hloop & Hwf3 & Hco3 & Hs3);
    [rewrite Hr2; exact Hwf | rewrite Hr2; exact Hco | exact Hv |].
  rewrite Hr2 in Hs3.
  unfold SeedTenants.main, SeedTenants.run. rewrite bind_run. mstep.
  subst st0. unfold said in Hwait. rewrite bind_run, Hwait. cbv beta iota delta [negb].
  rewrite bind_run, Hauth. cbv beta iota. rewrite Hts. mstep.
  rewrite bind_run, Hloop. cbv beta iota.
  eexists. split; [reflexivity|]. simpl remote. auto.
Qed.

End TenantLoops.


Lemma empty_store_sound : Remote.wf Remote.empty /\ Remote.coherent Remote.empty.
Proof.
  split; [|constructor]. unfold Remote.wf. simpl.
  split; [constructor|]. split; [lia | constructor].
Qed.


(** ** Recovery from a conflict *)

Section Recovery.
Context {Srv : Type} `{Transport Srv}.

(** X22: the warehouse script recovers from a conflict by a lookup: when
    the creation is answered by 400 and a body with ["already exists"],
    and the lookup by name by 200 and a listing, bare or as the
    ["results"] of a page, whose first item is a dict, [create_location]
    returns that item after these two requests and caches under the name
    the item's ["pk"], or [None] if it has none. *)
Theorem conflict_is_recovered_by_lookup name description parent_id
    (st : State Srv (gmap string json)) resp srv1 error resp2 srv2 d rest :
  send (creation "/stock/location/"
          (SeedLocations.location_payload name description parent_id) (session st))
       (remote st) = (Answer resp, srv1) ->
  status_code resp = 400 ->
  json_body resp = Some error ->
  SeedLocations.is_conflict error = true ->
  send (lookup_by_name "/stock/location/" name (session st)) srv1 = (Answer resp2, srv2) ->
  status_code resp2 = 200 ->
  lists resp2 (JDict d :: rest) ->
  exists st',
    SeedLocations.create_location name description parent_id st = (Return (JDict d), st')
    /\ self st'
       = <[name := match assoc "pk" d with Some pk => pk | None => JNull end]> (self st)
    /\ remote st' = srv2
    /\ sent (trace st')
       = sent (trace st)
         ++ [creation "/stock/location/"
               (SeedLocations.location_payload name description parent_id) (session st);
             lookup_by_name "/stock/location/" name (session st)].
Proof.
  intros Hsend Hstatus Hbody Hconflict Hsend2 Hstatus2 Hlists.
  unfold SeedLocations.create_location, creation, lookup_by_name in *. run_monad.
  rewrite Hsend. run_monad. rewrite Hstatus. run_monad. rewrite Hbody. run_monad.
  rewrite Hconflict. run_monad.
  unfold SeedLocations._get_existing_location. run_monad.
  rewrite Hsend2. run_monad. rewrite Hstatus2. run_monad.
  destruct Hlists as [Hb|(d2 & Hb & Hres)]; rewrite Hb;
    [|destruct d2 as [|kv d2]; [discriminate Hres|]]; run_monad.
  - eexists. split; [reflexivity|]. simpl.
    rewrite !sent_app. simpl. rewrite ?app_nil_r, <- ?app_assoc. repeat split.
  - rewrite Hres. run_monad.
    eexists. split; [reflexivity|]. simpl.
    rewrite !sent_app. simpl. rewrite ?app_nil_r, <- ?app_assoc. repeat split.
Qed.

End Recovery.

Lemma conflict_is_recovered_by_lookup_witness :
  exists st',
    SeedLocations.create_location "Warehouse" "Main warehouse" JNull
      (SeedLocations.InvenTreeSeeder
         (Remote.mkServer
            [Remote.mkResource Remote.Location 1 "Warehouse"
               [("name", JStr "Warehouse")]] 2)
         "admin" "admin123")
    = (Return (JDict [("pk", JNum 1); ("name", JStr "Warehouse")]), st')
    /\ self st' = <["Warehouse" := JNum 1]> ∅.
Proof.
  destruct (conflict_is_recovered_by_lookup (H := Remote.remote_transport)
              "Warehouse" "Main warehouse" JNull
              (SeedLocations.InvenTreeSeeder
                 (Remote.mkServer
                    [Remote.mkResource Remote.Location 1 "Warehouse"
                       [("name", JStr "Warehouse")]] 2)
                 "admin" "admin123")
              (mkResponse 400
                 (Some (JDict [("name",
                                JList [JStr "Stock location with this name already exists"])]))
                 "name already exists")
              (Remote.mkServer
                 [Remote.mkResource Remote.Location 1 "Warehouse"
                    [("name", JStr "Warehouse")]] 2)
              (JDict [("name",
                       JList [JStr "Stock location with this name already exists"])])
              (mkResponse 200
                 (Some (JList [JDict [("pk", JNum 1); ("name", JStr "Warehouse")]])) "")
              (Remote.mkServer
                 [Remote.mkResource Remote.Location 1 "Warehouse"
                    [("name", JStr "Warehouse")]] 2)
              [("pk", JNum 1); ("name", JStr "Warehouse")] [])
    as (st' & Hrun & Hself & _); try (vm_compute; reflexivity).
  - left. reflexivity.
  - exists st'. split; [exact Hrun | exact Hself].
Defined.
